(** * Wave6 stateful encoder: a shallow embedding of
      drivers/mxc/vpu/wave6/wave6-vpu-enc.c

    The development follows the driver file: 32-bit helper macros, the data
    the encoder instance carries, the geometry translator (crop rectangle,
    ROI grid, ROI map), the queue pair coordinator ([wave6_vpu_enc_start_encode]),
    the completion handler ([wave6_vpu_enc_finish_encode]) and the streaming
    entry points that drive the instance life cycle. *)

From Stdlib Require Import ZArith List Bool Lia FinFun.
Import ListNotations.
Local Open Scope Z_scope.

(** ** Unsigned 32-bit arithmetic and the kernel rounding macros *)

Definition u32 (x : Z) : Z := x mod 2 ^ 32.

(** Conversion of a 32-bit pattern to [__s32]. *)
Definition s32 (x : Z) : Z :=
  let y := x mod 2 ^ 32 in if y <? 2 ^ 31 then y else y - 2 ^ 32.

(** [~m] on a [u32]. *)
Definition u32_not (m : Z) : Z := u32 (Z.lnot m).

(** [__round_mask(x, y)] is [(typeof(x))((y) - 1)], here with a [u32] x. *)
Definition round_mask (y : Z) : Z := u32 (y - 1).

(** [round_down(x, y)] is [(x) & ~__round_mask(x, y)]. *)
Definition round_down (x y : Z) : Z := Z.land x (u32_not (round_mask y)).

(** [round_up(x, y)] is [((((x) - 1) | __round_mask(x, y)) + 1)]. *)
Definition round_up (x y : Z) : Z :=
  u32 (Z.lor (u32 (x - 1)) (round_mask y) + 1).

(** [ALIGN(x, a)] is [((x) + (mask)) & ~(mask)] with [mask = (typeof(x))(a) - 1]. *)
Definition ALIGN (x a : Z) : Z :=
  Z.land (u32 (x + u32 (a - 1))) (u32_not (u32 (a - 1))).

(** [DIV_ROUND_UP(n, d)] is [(((n) + (d) - 1) / (d))]. *)
Definition DIV_ROUND_UP (n d : Z) : Z := u32 (n + d - 1) / d.

(** A step that is a power of two below [2 ^ 32], as the rounding macros
    expect. *)
Definition pow2_step (s : Z) : Prop := exists k, 0 <= k < 32 /\ s = 2 ^ k.

(** ** Constants of the headers

    The constants the encoder file takes from the driver headers
    ([wave6-vpu.h], [wave6-vpuapi.h]) and from the V4L2 headers are gathered
    in one record; every function below that needs one is parameterised by
    it. *)

Record wave6_defs := {
  W6_ENC_CROP_X_POS_STEP : Z;
  W6_ENC_CROP_Y_POS_STEP : Z;
  W6_ENC_PIC_SIZE_STEP : Z;
  W6_ENC_CTU_WIDTH_ALIGNMENT : Z;
  RECON_IDX_FLAG_ENC_END : Z;
  V4L2_BUF_FLAG_KEYFRAME : Z;
  V4L2_BUF_FLAG_PFRAME : Z;
  V4L2_BUF_FLAG_BFRAME : Z;
  V4L2_BUF_FLAG_LAST : Z
}.

(** ** Data model *)

Inductive codec_std := W_HEVC_ENC | W_AVC_ENC | STD_UNKNOWN.

Inductive vpu_instance_state :=
| VPU_INST_STATE_NONE
| VPU_INST_STATE_OPEN
| VPU_INST_STATE_INIT_SEQ
| VPU_INST_STATE_PIC_RUN
| VPU_INST_STATE_STOP.

Inductive vb2_buffer_state :=
| VB2_BUF_STATE_QUEUED
| VB2_BUF_STATE_DONE
| VB2_BUF_STATE_ERROR.

Inductive pic_type_t := PIC_TYPE_I | PIC_TYPE_P | PIC_TYPE_B | PIC_TYPE_OTHER.

Inductive queue_dir := SRC_QUEUE | DST_QUEUE.

Definition codec_std_eqb (a b : codec_std) : bool :=
  match a, b with
  | W_HEVC_ENC, W_HEVC_ENC | W_AVC_ENC, W_AVC_ENC | STD_UNKNOWN, STD_UNKNOWN => true
  | _, _ => false
  end.

Definition state_eqb (a b : vpu_instance_state) : bool :=
  match a, b with
  | VPU_INST_STATE_NONE, VPU_INST_STATE_NONE
  | VPU_INST_STATE_OPEN, VPU_INST_STATE_OPEN
  | VPU_INST_STATE_INIT_SEQ, VPU_INST_STATE_INIT_SEQ
  | VPU_INST_STATE_PIC_RUN, VPU_INST_STATE_PIC_RUN
  | VPU_INST_STATE_STOP, VPU_INST_STATE_STOP => true
  | _, _ => false
  end.

(** [struct v4l2_rect]: [left] and [top] are [__s32], [width] and [height]
    are [__u32]. *)
Record v4l2_rect := {
  r_left : Z;
  r_top : Z;
  r_width : Z;
  r_height : Z
}.

(** [struct v4l2_area]. *)
Record v4l2_area := {
  a_width : Z;
  a_height : Z
}.

(** [struct vpu_roi_map_info], with the fields [wave6_vpu_enc_get_roi_info]
    fills in. *)
Record vpu_roi_map_info := {
  ctu : v4l2_area;
  group : v4l2_area;
  num_ctu_col : Z;
  num_ctu_row : Z;
  num_ctu : Z;
  num_group_col : Z;
  num_group_row : Z;
  custom_map_size : Z
}.

(** A queued buffer: the [vb2_v4l2_buffer] together with the driver's
    [struct vpu_buffer] wrapped around it. *)
Record vpu_buffer := {
  vb_index : Z;            (* vb2_buf.index *)
  vb_daddr : Z;            (* DMA address of plane 0 *)
  vb_plane_size : Z;       (* vb2_plane_size(.., 0) *)
  vb_payload : Z;          (* plane 0 payload *)
  vb_sequence : Z;
  vb_flags : Z;
  consumed : bool;
  used : bool;
  force_key_frame : bool;
  force_frame_qp : bool;
  average_qp : Z
}.

Definition set_consumed (v : bool) (b : vpu_buffer) : vpu_buffer :=
  {| vb_index := vb_index b; vb_daddr := vb_daddr b;
     vb_plane_size := vb_plane_size b; vb_payload := vb_payload b;
     vb_sequence := vb_sequence b; vb_flags := vb_flags b;
     consumed := v; used := used b;
     force_key_frame := force_key_frame b;
     force_frame_qp := force_frame_qp b; average_qp := average_qp b |}.

Definition set_used (v : bool) (b : vpu_buffer) : vpu_buffer :=
  {| vb_index := vb_index b; vb_daddr := vb_daddr b;
     vb_plane_size := vb_plane_size b; vb_payload := vb_payload b;
     vb_sequence := vb_sequence b; vb_flags := vb_flags b;
     consumed := consumed b; used := v;
     force_key_frame := force_key_frame b;
     force_frame_qp := force_frame_qp b; average_qp := average_qp b |}.

Definition set_vb_payload (v : Z) (b : vpu_buffer) : vpu_buffer :=
  {| vb_index := vb_index b; vb_daddr := vb_daddr b;
     vb_plane_size := vb_plane_size b; vb_payload := v;
     vb_sequence := vb_sequence b; vb_flags := vb_flags b;
     consumed := consumed b; used := used b;
     force_key_frame := force_key_frame b;
     force_frame_qp := force_frame_qp b; average_qp := average_qp b |}.

Definition set_vb_sequence (v : Z) (b : vpu_buffer) : vpu_buffer :=
  {| vb_index := vb_index b; vb_daddr := vb_daddr b;
     vb_plane_size := vb_plane_size b; vb_payload := vb_payload b;
     vb_sequence := v; vb_flags := vb_flags b;
     consumed := consumed b; used := used b;
     force_key_frame := force_key_frame b;
     force_frame_qp := force_frame_qp b; average_qp := average_qp b |}.

Definition set_vb_flags (v : Z) (b : vpu_buffer) : vpu_buffer :=
  {| vb_index := vb_index b; vb_daddr := vb_daddr b;
     vb_plane_size := vb_plane_size b; vb_payload := vb_payload b;
     vb_sequence := vb_sequence b; vb_flags := v;
     consumed := consumed b; used := used b;
     force_key_frame := force_key_frame b;
     force_frame_qp := force_frame_qp b; average_qp := average_qp b |}.

Definition set_average_qp (v : Z) (b : vpu_buffer) : vpu_buffer :=
  {| vb_index := vb_index b; vb_daddr := vb_daddr b;
     vb_plane_size := vb_plane_size b; vb_payload := vb_payload b;
     vb_sequence := vb_sequence b; vb_flags := vb_flags b;
     consumed := consumed b; used := used b;
     force_key_frame := force_key_frame b;
     force_frame_qp := force_frame_qp b; average_qp := v |}.

(** The mem2mem context behind [inst->v4l2_fh.m2m_ctx]: the two ready
    queues in queueing order, the source-buffered flag, the error marks of
    the two vb2 queues, and the buffers handed back through
    [v4l2_m2m_buf_done] (most recent first). *)
Record v4l2_m2m_ctx := {
  src_rdy : list vpu_buffer;
  dst_rdy : list vpu_buffer;
  src_buffered : bool;
  src_vq_error : bool;
  dst_vq_error : bool;
  returned : list (queue_dir * vpu_buffer * vb2_buffer_state)
}.

(** [struct vpu_instance], with the fields the modelled functions read or
    write.  [state_log] is a history variable: every write of [state]
    through [wave6_vpu_set_instance_state] is recorded as a pair
    (old state, new state), most recent first.  The counters are integers;
    their C types are declared in a driver header. *)
Record vpu_instance := {
  std : codec_std;
  state : vpu_instance_state;
  state_log : list (vpu_instance_state * vpu_instance_state);
  crop : v4l2_rect;
  codec_rect : v4l2_rect;
  roi_info : vpu_roi_map_info;
  custom_qp_map : list Z;
  sequence : Z;
  processed_buf_num : Z;
  error_buf_num : Z;
  eos : bool;
  error_recovery : bool;
  m2m_ctx : v4l2_m2m_ctx
}.

Definition set_rects (c r : v4l2_rect) (i : vpu_instance) : vpu_instance :=
  {| std := std i; state := state i; state_log := state_log i;
     crop := c; codec_rect := r; roi_info := roi_info i;
     custom_qp_map := custom_qp_map i; sequence := sequence i;
     processed_buf_num := processed_buf_num i;
     error_buf_num := error_buf_num i; eos := eos i;
     error_recovery := error_recovery i; m2m_ctx := m2m_ctx i |}.

Definition set_roi (r : vpu_roi_map_info) (m : list Z) (i : vpu_instance)
  : vpu_instance :=
  {| std := std i; state := state i; state_log := state_log i;
     crop := crop i; codec_rect := codec_rect i; roi_info := r;
     custom_qp_map := m; sequence := sequence i;
     processed_buf_num := processed_buf_num i;
     error_buf_num := error_buf_num i; eos := eos i;
     error_recovery := error_recovery i; m2m_ctx := m2m_ctx i |}.

Definition set_sequence (v : Z) (i : vpu_instance) : vpu_instance :=
  {| std := std i; state := state i; state_log := state_log i;
     crop := crop i; codec_rect := codec_rect i; roi_info := roi_info i;
     custom_qp_map := custom_qp_map i; sequence := v;
     processed_buf_num := processed_buf_num i;
     error_buf_num := error_buf_num i; eos := eos i;
     error_recovery := error_recovery i; m2m_ctx := m2m_ctx i |}.

Definition set_processed_buf_num (v : Z) (i : vpu_instance) : vpu_instance :=
  {| std := std i; state := state i; state_log := state_log i;
     crop := crop i; codec_rect := codec_rect i; roi_info := roi_info i;
     custom_qp_map := custom_qp_map i; sequence := sequence i;
     processed_buf_num := v;
     error_buf_num := error_buf_num i; eos := eos i;
     error_recovery := error_recovery i; m2m_ctx := m2m_ctx i |}.

Definition set_error_buf_num (v : Z) (i : vpu_instance) : vpu_instance :=
  {| std := std i; state := state i; state_log := state_log i;
     crop := crop i; codec_rect := codec_rect i; roi_info := roi_info i;
     custom_qp_map := custom_qp_map i; sequence := sequence i;
     processed_buf_num := processed_buf_num i;
     error_buf_num := v; eos := eos i;
     error_recovery := error_recovery i; m2m_ctx := m2m_ctx i |}.

Definition set_eos (v : bool) (i : vpu_instance) : vpu_instance :=
  {| std := std i; state := state i; state_log := state_log i;
     crop := crop i; codec_rect := codec_rect i; roi_info := roi_info i;
     custom_qp_map := custom_qp_map i; sequence := sequence i;
     processed_buf_num := processed_buf_num i;
     error_buf_num := error_buf_num i; eos := v;
     error_recovery := error_recovery i; m2m_ctx := m2m_ctx i |}.

Definition set_error_recovery (v : bool) (i : vpu_instance) : vpu_instance :=
  {| std := std i; state := state i; state_log := state_log i;
     crop := crop i; codec_rect := codec_rect i; roi_info := roi_info i;
     custom_qp_map := custom_qp_map i; sequence := sequence i;
     processed_buf_num := processed_buf_num i;
     error_buf_num := error_buf_num i; eos := eos i;
     error_recovery := v; m2m_ctx := m2m_ctx i |}.

Definition set_m2m_ctx (c : v4l2_m2m_ctx) (i : vpu_instance) : vpu_instance :=
  {| std := std i; state := state i; state_log := state_log i;
     crop := crop i; codec_rect := codec_rect i; roi_info := roi_info i;
     custom_qp_map := custom_qp_map i; sequence := sequence i;
     processed_buf_num := processed_buf_num i;
     error_buf_num := error_buf_num i; eos := eos i;
     error_recovery := error_recovery i; m2m_ctx := c |}.

(** Modelled from the spec: [wave6_vpu_set_instance_state] is defined in
    another file of the driver; the specification describes it as the write
    of the instance's lifecycle state.  The model also records
    the transition in the history variable. *)
Definition wave6_vpu_set_instance_state (s : vpu_instance_state)
  (i : vpu_instance) : vpu_instance :=
  {| std := std i; state := s; state_log := (state i, s) :: state_log i;
     crop := crop i; codec_rect := codec_rect i; roi_info := roi_info i;
     custom_qp_map := custom_qp_map i; sequence := sequence i;
     processed_buf_num := processed_buf_num i;
     error_buf_num := error_buf_num i; eos := eos i;
     error_recovery := error_recovery i; m2m_ctx := m2m_ctx i |}.

(** ** Helpers on lists used as queues and byte buffers *)

Definition zrange (n : Z) : list Z := map Z.of_nat (seq 0 (Z.to_nat n)).

Fixpoint upd_nth {A} (n : nat) (f : A -> A) (l : list A) : list A :=
  match l, n with
  | [], _ => []
  | x :: t, O => f x :: t
  | x :: t, S k => x :: upd_nth k f t
  end.

Fixpoint remove_nth {A} (n : nat) (l : list A) : list A :=
  match l, n with
  | [], _ => []
  | _ :: t, O => t
  | x :: t, S k => x :: remove_nth k t
  end.

Fixpoint find_pos {A} (p : A -> bool) (l : list A) : option (nat * A) :=
  match l with
  | [] => None
  | x :: t =>
      if p x then Some (O, x)
      else match find_pos p t with
           | Some (n, y) => Some (S n, y)
           | None => None
           end
  end.

(** A one-byte store at offset [off] of a buffer; a store outside the buffer
    is a fault ([None]). *)
Definition store_byte (m : list Z) (off v : Z) : option (list Z) :=
  if (0 <=? off) && (off <? Z.of_nat (length m))
  then Some (upd_nth (Z.to_nat off) (fun _ => v) m)
  else None.

Fixpoint store_all (m : list Z) (ws : list (Z * Z)) : option (list Z) :=
  match ws with
  | [] => Some m
  | (off, v) :: t =>
      match store_byte m off v with
      | Some m' => store_all m' t
      | None => None
      end
  end.

Definition v4l2_area_eqb (a b : v4l2_area) : bool :=
  (a_width a =? a_width b) && (a_height a =? a_height b).

(** [memcmp] of two [struct vpu_roi_map_info]: equal exactly when all fields
    are. *)
Definition roi_info_eqb (a b : vpu_roi_map_info) : bool :=
  v4l2_area_eqb (ctu a) (ctu b) && v4l2_area_eqb (group a) (group b)
  && (num_ctu_col a =? num_ctu_col b) && (num_ctu_row a =? num_ctu_row b)
  && (num_ctu a =? num_ctu b) && (num_group_col a =? num_group_col b)
  && (num_group_row a =? num_group_row b)
  && (custom_map_size a =? custom_map_size b).

(** ** Firmware and framework answers

    Calls into the firmware layer and the V4L2 framework leave the encoder
    file; each modelled function receives the values those calls return. *)

Record seq_init_fw := {
  issue_seq_init_ret : Z;      (* wave6_vpu_enc_issue_seq_init *)
  seq_init_wait_ret : Z;       (* wave6_vpu_wait_interrupt, negative on timeout *)
  complete_seq_init_ret : Z    (* wave6_vpu_enc_complete_seq_init *)
}.

Record seq_change_fw := {
  issue_seq_change_ret : Z;    (* wave6_vpu_enc_issue_seq_change *)
  seq_changed : bool;          (* its [changed] out-parameter *)
  seq_change_wait_ret : Z      (* wave6_vpu_wait_interrupt *)
}.

Record create_fw := {
  pm_resume_ret : Z;           (* pm_runtime_resume_and_get *)
  alloc_ar_ret : Z;            (* wave6_alloc_dma of the scratch buffer *)
  enc_open_ret : Z             (* wave6_vpu_enc_open *)
}.

Record stream_fw := {
  fw_create : create_fw;
  fw_seq_init : seq_init_fw;
  prepare_fb_ret : Z           (* first failing allocation or registration
                                  of wave6_vpu_enc_prepare_fb, 0 if none *)
}.

Record frame_buffer := {
  buf_y : Z;
  buf_cb : Z;
  buf_cr : Z;
  stride : Z
}.

Record enc_cycle_fw := {
  fw_seq_change : seq_change_fw;
  resolve_frame : vpu_buffer -> frame_buffer;  (* plane address arithmetic *)
  start_one_frame_ret : Z                      (* wave6_vpu_enc_start_one_frame *)
}.

(** [struct enc_param], the picture request. *)
Record enc_param := {
  pic_stream_buffer_addr : Z;
  pic_stream_buffer_size : Z;
  src_end : bool;
  src_idx : Z;
  force_pic_type_enable : bool;
  force_pic_qp_enable : bool;
  source_frame : frame_buffer
}.

(** [struct enc_output_info], the completion result. *)
Record enc_output_info := {
  encoding_success : bool;
  enc_src_idx : Z;
  recon_frame_index : Z;
  bitstream_buffer : Z;
  bitstream_size : Z;
  avg_ctu_qp : Z;
  pic_type : pic_type_t
}.

Record finish_fw := {
  get_output_info_ret : Z;     (* wave6_vpu_enc_get_output_info *)
  output_info : enc_output_info
}.

Inductive v4l2_enc_cmd := V4L2_ENC_CMD_START | V4L2_ENC_CMD_STOP | V4L2_ENC_CMD_OTHER.

Definition EINVAL : Z := 22.

(** ** mem2mem queue primitives

    The buffer-queue subsystem (v4l2-mem2mem) lies outside the encoder
    file.  The specification takes from it a queue of buffer handles per
    direction, kept in queueing order, and a retire operation with a status;
    the primitives below are the ones the encoder file calls on it. *)

(** Modelled from the spec: [v4l2_m2m_buf_done] is the retire operation of
    the buffer-queue subsystem; the buffer goes back to its vb2 queue with a
    state. *)
Definition v4l2_m2m_buf_done (d : queue_dir) (b : vpu_buffer)
  (st : vb2_buffer_state) (c : v4l2_m2m_ctx) : v4l2_m2m_ctx :=
  {| src_rdy := src_rdy c; dst_rdy := dst_rdy c;
     src_buffered := src_buffered c; src_vq_error := src_vq_error c;
     dst_vq_error := dst_vq_error c;
     returned := (d, b, st) :: returned c |}.

Definition set_src_rdy (l : list vpu_buffer) (c : v4l2_m2m_ctx) : v4l2_m2m_ctx :=
  {| src_rdy := l; dst_rdy := dst_rdy c;
     src_buffered := src_buffered c; src_vq_error := src_vq_error c;
     dst_vq_error := dst_vq_error c; returned := returned c |}.

Definition set_dst_rdy (l : list vpu_buffer) (c : v4l2_m2m_ctx) : v4l2_m2m_ctx :=
  {| src_rdy := src_rdy c; dst_rdy := l;
     src_buffered := src_buffered c; src_vq_error := src_vq_error c;
     dst_vq_error := dst_vq_error c; returned := returned c |}.

(** Modelled from the spec: [v4l2_m2m_set_src_buffered] of the buffer-queue
    subsystem, a flag of the context. *)
Definition v4l2_m2m_set_src_buffered (v : bool) (c : v4l2_m2m_ctx) : v4l2_m2m_ctx :=
  {| src_rdy := src_rdy c; dst_rdy := dst_rdy c;
     src_buffered := v; src_vq_error := src_vq_error c;
     dst_vq_error := dst_vq_error c; returned := returned c |}.

(** Modelled from the spec: [vb2_queue_error] of the buffer-queue subsystem,
    on both queues (the queues are marked faulted). *)
Definition vb2_queue_error_both (c : v4l2_m2m_ctx) : v4l2_m2m_ctx :=
  {| src_rdy := src_rdy c; dst_rdy := dst_rdy c;
     src_buffered := src_buffered c; src_vq_error := true;
     dst_vq_error := true; returned := returned c |}.

(** Modelled from the spec: [v4l2_m2m_src_buf_remove] and
    [v4l2_m2m_dst_buf_remove] of the buffer-queue subsystem unlink and return
    the oldest buffer of a ready queue, NULL when the queue is empty. *)
Definition v4l2_m2m_src_buf_remove (c : v4l2_m2m_ctx)
  : option (vpu_buffer * v4l2_m2m_ctx) :=
  match src_rdy c with
  | [] => None
  | b :: t => Some (b, set_src_rdy t c)
  end.

Definition v4l2_m2m_dst_buf_remove (c : v4l2_m2m_ctx)
  : option (vpu_buffer * v4l2_m2m_ctx) :=
  match dst_rdy c with
  | [] => None
  | b :: t => Some (b, set_dst_rdy t c)
  end.

(** Modelled from the spec: [v4l2_m2m_src_buf_remove_by_idx] of the
    buffer-queue subsystem resolves an input buffer by index; it unlinks and
    returns the first ready buffer whose vb2 index is [idx]. *)
Definition v4l2_m2m_src_buf_remove_by_idx (c : v4l2_m2m_ctx) (idx : Z)
  : option (vpu_buffer * v4l2_m2m_ctx) :=
  match find_pos (fun b => vb_index b =? idx) (src_rdy c) with
  | Some (n, b) => Some (b, set_src_rdy (remove_nth n (src_rdy c)) c)
  | None => None
  end.

(** Modelled from the spec: [v4l2_m2m_dst_buf_remove_by_buf] of the
    buffer-queue subsystem unlinks a given buffer, here given by its place
    in the ready queue. *)
Definition v4l2_m2m_dst_buf_remove_by_buf (c : v4l2_m2m_ctx) (n : nat)
  : v4l2_m2m_ctx :=
  set_dst_rdy (remove_nth n (dst_rdy c)) c.

(** Modelled from the spec: [wave6_get_dst_buf_by_addr] is defined in
    another file of the driver; the specification has the output buffer
    resolved by matching the reported bitstream address.  The result
    is the place of the first ready output buffer whose plane address is
    [addr], with the buffer. *)
Definition wave6_get_dst_buf_by_addr (i : vpu_instance) (addr : Z)
  : option (nat * vpu_buffer) :=
  find_pos (fun b => vb_daddr b =? addr) (dst_rdy (m2m_ctx i)).

(** Modelled from the spec: [wave6_vpu_return_buffers] is defined in
    another file of the driver; buffers go back to their queue through
    the retire operation of the buffer-queue subsystem, and this function
    retires every buffer still in the ready queue of one direction with the
    given state. *)
Definition wave6_vpu_return_buffers (d : queue_dir) (st : vb2_buffer_state)
  (i : vpu_instance) : vpu_instance :=
  let c := m2m_ctx i in
  match d with
  | SRC_QUEUE =>
      set_m2m_ctx
        (fold_left (fun acc b => v4l2_m2m_buf_done SRC_QUEUE b st acc)
                   (src_rdy c) (set_src_rdy [] c)) i
  | DST_QUEUE =>
      set_m2m_ctx
        (fold_left (fun acc b => v4l2_m2m_buf_done DST_QUEUE b st acc)
                   (dst_rdy c) (set_dst_rdy [] c)) i
  end.

(** [wave6_get_valid_src_buf]: the oldest ready source buffer not yet marked
    consumed, as its place in the queue and the buffer. *)
Definition wave6_get_valid_src_buf (i : vpu_instance) : option (nat * vpu_buffer) :=
  find_pos (fun b => negb (consumed b)) (src_rdy (m2m_ctx i)).

Definition wave6_get_valid_dst_buf (i : vpu_instance) : option (nat * vpu_buffer) :=
  find_pos (fun b => negb (consumed b)) (dst_rdy (m2m_ctx i)).

(** ** The encoder functions *)

Section Encoder.

Variable hdr : wave6_defs.

(** *** Geometry and parameter translation *)

(** [wave6_update_crop_info].  The arguments are [u32] values; [left] and
    [top] are stored in [__s32] fields. *)
Definition wave6_update_crop_info (inst : vpu_instance)
  (left top width height : Z) : vpu_instance :=
  let codec_left := s32 (round_down left (W6_ENC_CROP_X_POS_STEP hdr)) in
  let codec_top := s32 (round_down top (W6_ENC_CROP_Y_POS_STEP hdr)) in
  let enc_pic_width := u32 (width + left - codec_left) in
  let enc_pic_height := u32 (height + top - codec_top) in
  set_rects
    {| r_left := s32 left; r_top := s32 top;
       r_width := width; r_height := height |}
    {| r_left := codec_left; r_top := codec_top;
       r_width := round_up enc_pic_width (W6_ENC_PIC_SIZE_STEP hdr);
       r_height := round_up enc_pic_height (W6_ENC_PIC_SIZE_STEP hdr) |}
    inst.

(** [wave6_vpu_enc_get_roi_info], returning the filled structure. *)
Definition wave6_vpu_enc_get_roi_info (std : codec_std) (width height : Z)
  : vpu_roi_map_info :=
  let ctu := match std with
             | W_AVC_ENC => {| a_width := 16; a_height := 16 |}
             | _ => {| a_width := 32; a_height := 32 |}
             end in
  let group := match std with
               | W_AVC_ENC => {| a_width := 1; a_height := 1 |}
               | _ => {| a_width := 2; a_height := 2 |}
               end in
  let num_ctu_col := DIV_ROUND_UP width (a_width ctu) in
  let num_ctu_row := DIV_ROUND_UP height (a_height ctu) in
  let num_ctu := u32 (num_ctu_col * num_ctu_row) in
  let grp_width := u32 (a_width ctu * a_width group) in
  let grp_height := u32 (a_height ctu * a_height group) in
  let num_group_col :=
    DIV_ROUND_UP (ALIGN width (W6_ENC_CTU_WIDTH_ALIGNMENT hdr)) grp_width in
  let num_group_row := DIV_ROUND_UP height grp_height in
  let custom_map_size := u32 (num_group_col * num_group_row) in
  let custom_map_size :=
    u32 (custom_map_size * u32 (a_width group * a_height group)) in
  {| ctu := ctu; group := group;
     num_ctu_col := num_ctu_col; num_ctu_row := num_ctu_row;
     num_ctu := num_ctu;
     num_group_col := num_group_col; num_group_row := num_group_row;
     custom_map_size := custom_map_size |}.

(** [wave6_vpu_enc_get_internal_ctu_count]. *)
Definition wave6_vpu_enc_get_internal_ctu_count (std : codec_std)
  (width height : Z) : Z :=
  custom_map_size (wave6_vpu_enc_get_roi_info std width height).

(** [wave6_vpu_enc_set_roi_info]: the geometry is recomputed from the codec
    rectangle; when it differs from the stored one it replaces it and the
    whole map buffer is cleared.  (The update of the ROI block size control
    that follows touches no modelled field.) *)
Definition wave6_vpu_enc_set_roi_info (inst : vpu_instance) : vpu_instance :=
  let roi := wave6_vpu_enc_get_roi_info (std inst)
               (r_width (codec_rect inst)) (r_height (codec_rect inst)) in
  if roi_info_eqb roi (roi_info inst) then inst
  else set_roi roi (repeat 0 (length (custom_qp_map inst))) inst.

(** Offset of the byte written for CTU (row [i], column [j]) by
    [wave6_vpu_enc_set_roi_map]; [index] and [sub_index] are [int], the
    product with the group sides is unsigned. *)
Definition roi_map_offset (roi : vpu_roi_map_info) (i j : Z) : Z :=
  let g := group roi in
  let sub_index := s32 (a_width g * (i mod a_height g) + j mod a_width g) in
  let index := s32 (num_group_col roi * (i / a_height g) + j / a_width g) in
  u32 (index * a_width g * a_height g) + sub_index.

(** The byte stored for that CTU: [item & 0x3f] with [item] the user's
    [s32] entry cut down to a [char]. *)
Definition roi_map_item (roi : vpu_roi_map_info) (user_map : list Z) (i j : Z) : Z :=
  let item :=
    nth (Z.to_nat (u32 (i * num_ctu_col roi) + j)) user_map 0 mod 2 ^ 8 in
  Z.land item 63.

(** The stores of the two nested loops, in program order. *)
Definition roi_map_stores (roi : vpu_roi_map_info) (user_map : list Z)
  : list (Z * Z) :=
  flat_map
    (fun i => map (fun j => (roi_map_offset roi i j, roi_map_item roi user_map i j))
                  (zrange (num_ctu_col roi)))
    (zrange (num_ctu_row roi)).

(** [wave6_vpu_enc_set_roi_map]; [None] when a store falls outside the map
    buffer. *)
Definition wave6_vpu_enc_set_roi_map (inst : vpu_instance)
  (user_map : list Z) (count : Z) : option vpu_instance :=
  let roi := roi_info inst in
  if negb (count =? num_ctu roi) then Some inst
  else match store_all (custom_qp_map inst) (roi_map_stores roi user_map) with
       | Some m => Some (set_roi roi m inst)
       | None => None
       end.

(** *** Instance life cycle *)

(** [wave6_vpu_enc_destroy_instance]: a failing close command is only
    logged; the state is reset in every case. *)
Definition wave6_vpu_enc_destroy_instance (inst : vpu_instance) : vpu_instance :=
  wave6_vpu_set_instance_state VPU_INST_STATE_NONE inst.

(** [wave6_vpu_enc_create_instance]. *)
Definition wave6_vpu_enc_create_instance (fw : create_fw)
  (inst : vpu_instance) : Z * vpu_instance :=
  let ret := pm_resume_ret fw in
  if negb (ret =? 0) then (ret, inst)
  else
    let ret := alloc_ar_ret fw in
    if negb (ret =? 0) then (ret, inst)
    else
      let ret := enc_open_ret fw in
      if negb (ret =? 0) then (ret, inst)
      else (0, wave6_vpu_set_instance_state VPU_INST_STATE_OPEN inst).

(** [wave6_vpu_enc_initialize_instance].  The mirror and rotation side
    commands touch no modelled field.  After the check of [ret] that follows
    the sequence-init command, [ret] is [0]; it is this [ret] the timeout
    branch returns. *)
Definition wave6_vpu_enc_initialize_instance (fw : seq_init_fw)
  (inst : vpu_instance) : Z * vpu_instance :=
  let ret := issue_seq_init_ret fw in
  if negb (ret =? 0) then (ret, inst)
  else if seq_init_wait_ret fw <? 0 then (ret, inst)
  else
    let ret := complete_seq_init_ret fw in
    if negb (ret =? 0) then (ret, inst)
    else (0, wave6_vpu_set_instance_state VPU_INST_STATE_INIT_SEQ inst).

(** [wave6_vpu_enc_prepare_fb]: on any failing allocation or registration the
    frame buffers are released and the error returned. *)
Definition wave6_vpu_enc_prepare_fb (fb_ret : Z)
  (inst : vpu_instance) : Z * vpu_instance :=
  if negb (fb_ret =? 0) then (fb_ret, inst)
  else (0, wave6_vpu_set_instance_state VPU_INST_STATE_PIC_RUN inst).

(** [wave6_update_seq_param].  The result of
    [wave6_vpu_enc_complete_seq_init] is not assigned, so the last test of
    [ret] reads the value of the sequence-change command. *)
Definition wave6_update_seq_param (fw : seq_change_fw) : Z :=
  let ret := issue_seq_change_ret fw in
  if negb (ret =? 0) then ret
  else if negb (seq_changed fw) then 0
  else if seq_change_wait_ret fw <? 0 then ret
  else if negb (ret =? 0) then ret
  else 0.

(** [wave6_vpu_enc_start_streaming] on one queue, [peer_streaming] telling
    whether the other queue streams already. *)
Definition wave6_vpu_enc_start_streaming (q : queue_dir) (peer_streaming : bool)
  (fw : stream_fw) (inst : vpu_instance) : Z * vpu_instance :=
  if negb peer_streaming then (0, inst)
  else
    let finish (r : Z * vpu_instance) : Z * vpu_instance :=
      if negb (fst r =? 0)
      then (fst r, wave6_vpu_return_buffers q VB2_BUF_STATE_QUEUED (snd r))
      else r in
    let r1 := if state_eqb (state inst) VPU_INST_STATE_NONE
              then wave6_vpu_enc_create_instance (fw_create fw) inst
              else (0, inst) in
    if negb (fst r1 =? 0) then finish r1
    else
      let inst1 := snd r1 in
      let r2 := if state_eqb (state inst1) VPU_INST_STATE_OPEN
                then wave6_vpu_enc_initialize_instance (fw_seq_init fw) inst1
                else (fst r1, inst1) in
      if state_eqb (state inst1) VPU_INST_STATE_OPEN && negb (fst r2 =? 0)
      then finish (fst r2, wave6_vpu_enc_destroy_instance (snd r2))
      else
        let inst2 := snd r2 in
        let r3 := if state_eqb (state inst2) VPU_INST_STATE_INIT_SEQ
                  then wave6_vpu_enc_prepare_fb (prepare_fb_ret fw) inst2
                  else (fst r2, inst2) in
        if state_eqb (state inst2) VPU_INST_STATE_INIT_SEQ && negb (fst r3 =? 0)
        then finish (fst r3, wave6_vpu_enc_destroy_instance (snd r3))
        else finish r3.


(** [wave6_vpu_enc_encoder_cmd]; [try_ret] is the answer of
    [v4l2_m2m_ioctl_try_encoder_cmd]. *)
Definition wave6_vpu_enc_encoder_cmd (try_ret : Z) (both_streaming : bool)
  (cmd : v4l2_enc_cmd) (inst : vpu_instance) : Z * vpu_instance :=
  if negb (try_ret =? 0) then (try_ret, inst)
  else if negb both_streaming then (0, inst)
  else match cmd with
       | V4L2_ENC_CMD_STOP =>
           let inst1 := wave6_vpu_set_instance_state VPU_INST_STATE_STOP inst in
           (0, set_m2m_ctx (v4l2_m2m_set_src_buffered true (m2m_ctx inst1)) inst1)
       | V4L2_ENC_CMD_START => (0, inst)
       | V4L2_ENC_CMD_OTHER => (- EINVAL, inst)
       end.


(** *** Queue pair coordinator *)

Definition zero_frame : frame_buffer :=
  {| buf_y := 0; buf_cb := 0; buf_cr := 0; stride := 0 |}.

Definition set_src_end (v : bool) (p : enc_param) : enc_param :=
  {| pic_stream_buffer_addr := pic_stream_buffer_addr p;
     pic_stream_buffer_size := pic_stream_buffer_size p;
     src_end := v; src_idx := src_idx p;
     force_pic_type_enable := force_pic_type_enable p;
     force_pic_qp_enable := force_pic_qp_enable p;
     source_frame := source_frame p |}.

(** What one encode cycle hands to the firmware: the request and the
    instance as it stands when [wave6_vpu_enc_start_one_frame] is called. *)
Definition submission : Type := enc_param * vpu_instance.

(** The second half of [wave6_vpu_enc_start_encode], from the marking of
    the selected buffers on: [spos] and [dpos] are the places of the
    selected source buffer (if any) and destination buffer in their ready
    queues.  On a failed submission the buffers completed with an error are
    the ones [v4l2_m2m_dst_buf_remove] and [v4l2_m2m_src_buf_remove] return,
    that is the heads of the two ready queues. *)
Definition wave6_vpu_enc_start_encode_submit (fw : enc_cycle_fw)
  (inst : vpu_instance) (spos : option nat) (dpos : nat) (pic_param : enc_param)
  : Z * vpu_instance * option submission :=
  let inst1 :=
    match spos with
    | Some n =>
        set_m2m_ctx (set_src_rdy (upd_nth n (set_consumed true)
                                    (src_rdy (m2m_ctx inst))) (m2m_ctx inst)) inst
    | None => inst
    end in
  let inst2 :=
    set_m2m_ctx
      (set_dst_rdy (upd_nth dpos (fun b => set_used true (set_consumed true b))
                      (dst_rdy (m2m_ctx inst1))) (m2m_ctx inst1)) inst1 in
  let ret := start_one_frame_ret fw in
  if negb (ret =? 0) then
    let inst3 := wave6_vpu_set_instance_state VPU_INST_STATE_STOP inst2 in
    let inst4 :=
      match v4l2_m2m_dst_buf_remove (m2m_ctx inst3) with
      | Some (dst_buf, c) =>
          set_m2m_ctx
            (v4l2_m2m_buf_done DST_QUEUE
               (set_vb_sequence (sequence inst3) dst_buf) VB2_BUF_STATE_ERROR c)
            inst3
      | None => inst3
      end in
    let inst5 :=
      match v4l2_m2m_src_buf_remove (m2m_ctx inst4) with
      | Some (src_buf, c) =>
          set_error_buf_num (error_buf_num inst4 + 1)
            (set_processed_buf_num (processed_buf_num inst4 + 1)
               (set_sequence (sequence inst4 + 1)
                  (set_m2m_ctx
                     (v4l2_m2m_buf_done SRC_QUEUE src_buf VB2_BUF_STATE_ERROR c)
                     inst4)))
      | None => inst4
      end in
    (ret, inst5, Some (pic_param, inst2))
  else (ret, inst2, Some (pic_param, inst2)).

(** [wave6_vpu_enc_start_encode]: the return value, the instance afterwards
    and the submission, if one was made.  Plane addresses come from
    [resolve_frame]; the ROI map address, the colour conversion set and the
    time stamps are left out of the request. *)
Definition wave6_vpu_enc_start_encode (fw : enc_cycle_fw) (inst : vpu_instance)
  : Z * vpu_instance * option submission :=
  let ret := wave6_update_seq_param (fw_seq_change fw) in
  if negb (ret =? 0) then (ret, inst, None)
  else
    let src_buf := wave6_get_valid_src_buf inst in
    let dst_buf := wave6_get_valid_dst_buf inst in
    match dst_buf with
    | None => (ret, inst, None)
    | Some (dpos, dst) =>
        let pic_param :=
          {| pic_stream_buffer_addr := vb_daddr dst;
             pic_stream_buffer_size := vb_plane_size dst;
             src_end := false; src_idx := 0;
             force_pic_type_enable := false;
             force_pic_qp_enable := false;
             source_frame := zero_frame |} in
        match src_buf with
        | None =>
            if state_eqb (state inst) VPU_INST_STATE_STOP
            then wave6_vpu_enc_start_encode_submit fw inst None dpos
                   (set_src_end true pic_param)
            else (ret, inst, None)
        | Some (spos, src) =>
            let force := force_key_frame src || error_recovery inst in
            let inst1 := if force then set_error_recovery false inst else inst in
            wave6_vpu_enc_start_encode_submit fw inst1 (Some spos) dpos
              {| pic_stream_buffer_addr := vb_daddr dst;
                 pic_stream_buffer_size := vb_plane_size dst;
                 src_end := false; src_idx := vb_index src;
                 force_pic_type_enable := force;
                 force_pic_qp_enable := force_frame_qp src;
                 source_frame := resolve_frame fw src |}
        end
    end.

(** *** Completion handler *)

(** [wave6_handle_encoded_frame].  Time stamps, the performance record and
    the copy of the source buffer's metadata are left out. *)
Definition wave6_handle_encoded_frame (inst : vpu_instance)
  (info : enc_output_info) : vpu_instance :=
  let st := if encoding_success info
            then VB2_BUF_STATE_DONE else VB2_BUF_STATE_ERROR in
  match v4l2_m2m_src_buf_remove_by_idx (m2m_ctx inst) (enc_src_idx info) with
  | None => inst
  | Some (src_buf, c1) =>
      let inst1 := set_m2m_ctx c1 inst in
      if negb (consumed src_buf) then inst1
      else
        match wave6_get_dst_buf_by_addr inst1 (bitstream_buffer info) with
        | None => inst1
        | Some (dpos, dst_buf) =>
            let c2 := v4l2_m2m_buf_done SRC_QUEUE src_buf st (m2m_ctx inst1) in
            let flag := match pic_type info with
                        | PIC_TYPE_I => V4L2_BUF_FLAG_KEYFRAME hdr
                        | PIC_TYPE_P => V4L2_BUF_FLAG_PFRAME hdr
                        | PIC_TYPE_B => V4L2_BUF_FLAG_BFRAME hdr
                        | PIC_TYPE_OTHER => 0
                        end in
            let dst1 :=
              set_vb_flags (Z.lor (vb_flags dst_buf) flag)
                (set_vb_sequence (sequence inst1)
                   (set_vb_payload (bitstream_size info)
                      (set_average_qp (avg_ctu_qp info) dst_buf))) in
            let inst2 := set_sequence (sequence inst1 + 1) inst1 in
            let c3 := v4l2_m2m_dst_buf_remove_by_buf c2 dpos in
            let inst3 :=
              match st with
              | VB2_BUF_STATE_ERROR =>
                  set_error_buf_num (error_buf_num inst2 + 1)
                    (set_error_recovery true inst2)
              | _ => inst2
              end in
            set_processed_buf_num (processed_buf_num inst3 + 1)
              (set_m2m_ctx (v4l2_m2m_buf_done DST_QUEUE dst1 st c3) inst3)
        end
  end.

(** [wave6_handle_last_frame]. *)
Definition wave6_handle_last_frame (inst : vpu_instance) (addr : Z)
  : vpu_instance :=
  match wave6_get_dst_buf_by_addr inst addr with
  | None => inst
  | Some (dpos, dst_buf) =>
      let dst1 :=
        set_vb_flags (Z.lor (vb_flags dst_buf) (V4L2_BUF_FLAG_LAST hdr))
          (set_vb_payload 0 dst_buf) in
      let c1 := v4l2_m2m_dst_buf_remove_by_buf (m2m_ctx inst) dpos in
      let c2 := v4l2_m2m_buf_done DST_QUEUE dst1 VB2_BUF_STATE_DONE c1 in
      let inst1 :=
        wave6_vpu_set_instance_state VPU_INST_STATE_PIC_RUN
          (set_m2m_ctx c2 inst) in
      let inst2 := set_eos true inst1 in
      set_m2m_ctx (v4l2_m2m_set_src_buffered false (m2m_ctx inst2)) inst2
  end.

(** [wave6_vpu_enc_finish_encode].  ([wave6_vpu_finish_job], which ends the
    mem2mem job, touches no modelled field.) *)
Definition wave6_vpu_enc_finish_encode (fw : finish_fw) (inst : vpu_instance)
  (error : bool) : vpu_instance :=
  if error then
    set_eos true
      (wave6_vpu_set_instance_state VPU_INST_STATE_STOP
         (set_m2m_ctx (vb2_queue_error_both (m2m_ctx inst)) inst))
  else if negb (get_output_info_ret fw =? 0) then inst
  else
    let info := output_info fw in
    if (0 <=? enc_src_idx info) && (0 <=? recon_frame_index info)
    then wave6_handle_encoded_frame inst info
    else if recon_frame_index info =? RECON_IDX_FLAG_ENC_END hdr
    then wave6_handle_last_frame inst (bitstream_buffer info)
    else inst.

(** *** Runs of the driver

    The entry points through which the surrounding framework reaches the
    instance, each with the answers of the calls it makes. *)




End Encoder.

(** ** Concrete data for running the functions *)

(** One possible choice of the header constants: power-of-two steps, a
    negative encode-end sentinel and the buffer flag bits of videodev2.h. *)
Definition sample_defs : wave6_defs :=
  {| W6_ENC_CROP_X_POS_STEP := 32;
     W6_ENC_CROP_Y_POS_STEP := 2;
     W6_ENC_PIC_SIZE_STEP := 8;
     W6_ENC_CTU_WIDTH_ALIGNMENT := 64;
     RECON_IDX_FLAG_ENC_END := -1;
     V4L2_BUF_FLAG_KEYFRAME := 8;
     V4L2_BUF_FLAG_PFRAME := 16;
     V4L2_BUF_FLAG_BFRAME := 32;
     V4L2_BUF_FLAG_LAST := 1048576 |}.

Definition zero_rect : v4l2_rect :=
  {| r_left := 0; r_top := 0; r_width := 0; r_height := 0 |}.

Definition zero_roi : vpu_roi_map_info :=
  {| ctu := {| a_width := 0; a_height := 0 |};
     group := {| a_width := 0; a_height := 0 |};
     num_ctu_col := 0; num_ctu_row := 0; num_ctu := 0;
     num_group_col := 0; num_group_row := 0; custom_map_size := 0 |}.

Definition empty_ctx : v4l2_m2m_ctx :=
  {| src_rdy := []; dst_rdy := []; src_buffered := false;
     src_vq_error := false; dst_vq_error := false; returned := [] |}.

(** A freshly opened instance with the given queues and map buffer. *)
Definition fresh_instance (s : vpu_instance_state) (srcq dstq : list vpu_buffer)
  (map : list Z) : vpu_instance :=
  {| std := W_HEVC_ENC; state := s; state_log := [];
     crop := zero_rect; codec_rect := zero_rect; roi_info := zero_roi;
     custom_qp_map := map; sequence := 0; processed_buf_num := 0;
     error_buf_num := 0; eos := false; error_recovery := false;
     m2m_ctx := {| src_rdy := srcq; dst_rdy := dstq; src_buffered := false;
                   src_vq_error := false; dst_vq_error := false;
                   returned := [] |} |}.

Definition mk_buf (idx addr : Z) (c u : bool) : vpu_buffer :=
  {| vb_index := idx; vb_daddr := addr; vb_plane_size := 4096;
     vb_payload := 0; vb_sequence := 0; vb_flags := 0;
     consumed := c; used := u; force_key_frame := false;
     force_frame_qp := false; average_qp := 0 |}.

(** A source buffer, consumed or not. *)
Definition mk_src (idx addr : Z) (c : bool) : vpu_buffer := mk_buf idx addr c false.

(** A destination buffer; it is marked used when it is marked consumed. *)
Definition mk_dst (idx addr : Z) (c : bool) : vpu_buffer := mk_buf idx addr c c.

Definition plain_frame (b : vpu_buffer) : frame_buffer :=
  {| buf_y := vb_daddr b; buf_cb := vb_daddr b + 1024;
     buf_cr := vb_daddr b + 1280; stride := 32 |}.

Definition seq_unchanged : seq_change_fw :=
  {| issue_seq_change_ret := 0; seq_changed := false; seq_change_wait_ret := 0 |}.

(** A cycle whose sequence-change command is rejected by the firmware. *)
Definition cycle_seq_change_rejected : enc_cycle_fw :=
  {| fw_seq_change := {| issue_seq_change_ret := -5; seq_changed := false;
                         seq_change_wait_ret := 0 |};
     resolve_frame := plain_frame; start_one_frame_ret := 0 |}.

(** A cycle whose sequence change is signalled but never completes. *)
Definition cycle_seq_change_timeout : enc_cycle_fw :=
  {| fw_seq_change := {| issue_seq_change_ret := 0; seq_changed := true;
                         seq_change_wait_ret := -110 |};
     resolve_frame := plain_frame; start_one_frame_ret := 0 |}.

Definition cycle_ok : enc_cycle_fw :=
  {| fw_seq_change := seq_unchanged; resolve_frame := plain_frame;
     start_one_frame_ret := 0 |}.

(** A cycle whose picture request is rejected by the firmware. *)
Definition cycle_submit_fails : enc_cycle_fw :=
  {| fw_seq_change := seq_unchanged; resolve_frame := plain_frame;
     start_one_frame_ret := -22 |}.

(** Stream start in which the sequence-init command is accepted and its
    completion never arrives. *)
Definition stream_seq_init_timeout : stream_fw :=
  {| fw_create := {| pm_resume_ret := 0; alloc_ar_ret := 0; enc_open_ret := 0 |};
     fw_seq_init := {| issue_seq_init_ret := 0; seq_init_wait_ret := -110;
                       complete_seq_init_ret := 0 |};
     prepare_fb_ret := 0 |}.

Definition stream_ok : stream_fw :=
  {| fw_create := {| pm_resume_ret := 0; alloc_ar_ret := 0; enc_open_ret := 0 |};
     fw_seq_init := {| issue_seq_init_ret := 0; seq_init_wait_ret := 0;
                       complete_seq_init_ret := 0 |};
     prepare_fb_ret := 0 |}.

(** A completion carrying the encode-end index for bitstream address [addr]. *)
Definition enc_end_event (addr : Z) : finish_fw :=
  {| get_output_info_ret := 0;
     output_info := {| encoding_success := true; enc_src_idx := -1;
                       recon_frame_index := -1; bitstream_buffer := addr;
                       bitstream_size := 0; avg_ctu_qp := 0;
                       pic_type := PIC_TYPE_OTHER |} |}.

(** A completion of a normal picture for source index [idx] and bitstream
    address [addr]. *)
Definition picture_event (idx addr : Z) : finish_fw :=
  {| get_output_info_ret := 0;
     output_info := {| encoding_success := true; enc_src_idx := idx;
                       recon_frame_index := 0; bitstream_buffer := addr;
                       bitstream_size := 100; avg_ctu_qp := 30;
                       pic_type := PIC_TYPE_I |} |}.









(** The geometry [wave6_vpu_enc_set_roi_info] computes for an instance. *)
Definition recomputed_roi_info (hdr : wave6_defs) (inst : vpu_instance)
  : vpu_roi_map_info :=
  wave6_vpu_enc_get_roi_info hdr (std inst)
    (r_width (codec_rect inst)) (r_height (codec_rect inst)).

(** What the map writer relies on in a stored geometry: square groups of
    side 1 or 2, a group grid that covers the CTU grid, and sizes that are
    the products of the grid dimensions. *)
Definition roi_geometry_ok (roi : vpu_roi_map_info) : Prop :=
  exists g, (g = 1 \/ g = 2)
  /\ group roi = {| a_width := g; a_height := g |}
  /\ 0 <= num_ctu_col roi /\ 0 <= num_ctu_row roi
  /\ num_ctu_col roi <= g * num_group_col roi
  /\ num_ctu_row roi <= g * num_group_row roi
  /\ num_ctu roi = num_ctu_col roi * num_ctu_row roi
  /\ num_ctu roi < 2 ^ 31
  /\ custom_map_size roi = num_group_col roi * num_group_row roi * (g * g)
  /\ custom_map_size roi < 2 ^ 31.

(** The CTU positions the map writer visits, in program order. *)
Definition ctu_positions (roi : vpu_roi_map_info) : list (Z * Z) :=
  list_prod (zrange (num_ctu_row roi)) (zrange (num_ctu_col roi)).

(** Two source buffers and two destination buffers, the older of each
    already handed to the firmware and not yet completed. *)
Definition pipelined_instance : vpu_instance :=
  fresh_instance VPU_INST_STATE_PIC_RUN
    [mk_src 0 4096 true; mk_src 1 8192 false]
    [mk_dst 0 32768 true; mk_dst 1 36864 false] [].

(** A stopped instance whose only source buffer is in flight, with a free
    destination buffer. *)
Definition draining_instance : vpu_instance :=
  fresh_instance VPU_INST_STATE_STOP
    [mk_src 0 4096 true] [mk_dst 0 32768 false] [].

(** A stopped instance with one destination buffer handed to the firmware. *)
Definition stopped_instance : vpu_instance :=
  fresh_instance VPU_INST_STATE_STOP [] [mk_dst 0 32768 true] [].

(** An instance before stream start, one buffer queued on each side. *)
Definition idle_instance : vpu_instance :=
  fresh_instance VPU_INST_STATE_NONE
    [mk_src 0 4096 false] [mk_dst 0 32768 false] [].


(** * Format catalogue, controls and stream parameters

    The second half of the embedding covers the control surface of the
    encoder file: the format catalogue and its two lookups, the colorimetry
    translation, the colour conversion set of a picture request, the control
    handler, buffer queueing and the negotiation entry points (format, crop,
    frame rate, queue setup). *)

(** ** Further constants of the headers *)

(** Picture size limits and the crop step of [wave6-vpu.h]. *)
Record wave6_limits := {
  W6_MAX_ENC_PIC_WIDTH : Z;
  W6_MIN_ENC_PIC_WIDTH : Z;
  W6_MAX_ENC_PIC_HEIGHT : Z;
  W6_MIN_ENC_PIC_HEIGHT : Z;
  W6_ENC_CROP_STEP : Z
}.

(** Constants of the V4L2 headers used by the negotiation entry points. *)
Record v4l2_defs := {
  V4L2_CAP_TIMEPERFRAME : Z;
  V4L2_SEL_FLAG_GE : Z;
  V4L2_SEL_FLAG_LE : Z;
  V4L2_MPEG_VIDEO_ROI_MODE_MAP_DELTA_QP : Z
}.

Definition u64 (x : Z) : Z := x mod 2 ^ 64.

Definition BITS_PER_BYTE : Z := 8.

(** [round_down] and [round_up] on an [__s32] operand: the mask has the
    type of the operand. *)
Definition round_down_s32 (x y : Z) : Z :=
  s32 (Z.land x (Z.lnot (s32 (y - 1)))).

Definition round_up_s32 (x y : Z) : Z :=
  s32 (Z.lor (s32 (x - 1)) (s32 (y - 1)) + 1).

(** [clamp(val, lo, hi)] is [min(max(val, lo), hi)]. *)
Definition clamp (val lo hi : Z) : Z := Z.min (Z.max val lo) hi.

(** ** Format catalogue *)

(** The pixel format tags the catalogue names.  The tags are the fourcc
    codes of videodev2.h, pairwise different and not zero;
    [V4L2_PIX_FMT_NONE] is the tag 0 of a table slot without initialiser and
    [V4L2_PIX_FMT_OTHER] stands for a code the catalogue does not name. *)
Inductive pixel_format :=
| V4L2_PIX_FMT_NONE
| V4L2_PIX_FMT_HEVC | V4L2_PIX_FMT_H264
| V4L2_PIX_FMT_YUV420 | V4L2_PIX_FMT_NV12 | V4L2_PIX_FMT_NV21
| V4L2_PIX_FMT_YUV422P | V4L2_PIX_FMT_NV16 | V4L2_PIX_FMT_NV61
| V4L2_PIX_FMT_YUYV | V4L2_PIX_FMT_YUV24 | V4L2_PIX_FMT_NV24
| V4L2_PIX_FMT_NV42
| V4L2_PIX_FMT_YUV420M | V4L2_PIX_FMT_NV12M | V4L2_PIX_FMT_NV21M
| V4L2_PIX_FMT_YUV422M | V4L2_PIX_FMT_NV16M | V4L2_PIX_FMT_NV61M
| V4L2_PIX_FMT_P010
| V4L2_PIX_FMT_RGB24 | V4L2_PIX_FMT_BGR24
| V4L2_PIX_FMT_ARGB32 | V4L2_PIX_FMT_XRGB32
| V4L2_PIX_FMT_RGBA32 | V4L2_PIX_FMT_RGBX32
| V4L2_PIX_FMT_XBGR32 | V4L2_PIX_FMT_ABGR32
| V4L2_PIX_FMT_BGRX32 | V4L2_PIX_FMT_BGRA32
| V4L2_PIX_FMT_ARGB2101010
| V4L2_PIX_FMT_OTHER.

Scheme Equality for pixel_format.

Inductive vpu_fmt_type := VPU_FMT_TYPE_CODEC | VPU_FMT_TYPE_RAW.

Inductive csc_format_order :=
| CSC_ORDER_RGB | CSC_ORDER_BGR | CSC_ORDER_ARGB | CSC_ORDER_RGBA
| CSC_ORDER_BGRA | CSC_ORDER_ABGR.

(** [struct vpu_format], with the fields the modelled functions read.
    [csc_order] is [None] where the initialiser does not set the field (its
    value is then 0).  The fields [src_format], [source_endian] and
    [packed_format] are not part of the model. *)
Record vpu_format := {
  v4l2_pix_fmt : pixel_format;
  max_width : Z;
  min_width : Z;
  max_height : Z;
  min_height : Z;
  num_planes : Z;
  is_yuv : bool;
  is_rgb : bool;
  is_10bit : bool;
  csc_order : option csc_format_order;
  cbcr_interleave : bool;
  nv21 : bool
}.

(** A table slot without initialiser. *)
Definition empty_fmt : vpu_format :=
  {| v4l2_pix_fmt := V4L2_PIX_FMT_NONE; max_width := 0; min_width := 0;
     max_height := 0; min_height := 0; num_planes := 0; is_yuv := false;
     is_rgb := false; is_10bit := false; csc_order := None;
     cbcr_interleave := false; nv21 := false |}.

(** Number of slots of each row of [wave6_vpu_enc_fmt_list]. *)
Definition FMT_LIST_SIZE : Z := 28.

Section Catalogue.

Variable lim : wave6_limits.

Definition codec_fmt (tag : pixel_format) : vpu_format :=
  {| v4l2_pix_fmt := tag;
     max_width := W6_MAX_ENC_PIC_WIDTH lim;
     min_width := W6_MIN_ENC_PIC_WIDTH lim;
     max_height := W6_MAX_ENC_PIC_HEIGHT lim;
     min_height := W6_MIN_ENC_PIC_HEIGHT lim;
     num_planes := 1; is_yuv := false; is_rgb := false; is_10bit := false;
     csc_order := None; cbcr_interleave := false; nv21 := false |}.

(** A YUV entry: tag, planes, [cbcr_interleave], [nv21], [is_10bit]. *)
Definition yuv_fmt (tag : pixel_format) (planes : Z) (il nv ten : bool)
  : vpu_format :=
  {| v4l2_pix_fmt := tag;
     max_width := W6_MAX_ENC_PIC_WIDTH lim;
     min_width := W6_MIN_ENC_PIC_WIDTH lim;
     max_height := W6_MAX_ENC_PIC_HEIGHT lim;
     min_height := W6_MIN_ENC_PIC_HEIGHT lim;
     num_planes := planes; is_yuv := true; is_rgb := false; is_10bit := ten;
     csc_order := None; cbcr_interleave := il; nv21 := nv |}.

(** An RGB entry: tag, [csc_order], [is_10bit]; one plane and
    [cbcr_interleave] set in all of them. *)
Definition rgb_fmt (tag : pixel_format) (order : option csc_format_order)
  (ten : bool) : vpu_format :=
  {| v4l2_pix_fmt := tag;
     max_width := W6_MAX_ENC_PIC_WIDTH lim;
     min_width := W6_MIN_ENC_PIC_WIDTH lim;
     max_height := W6_MAX_ENC_PIC_HEIGHT lim;
     min_height := W6_MIN_ENC_PIC_HEIGHT lim;
     num_planes := 1; is_yuv := false; is_rgb := true; is_10bit := ten;
     csc_order := order; cbcr_interleave := true; nv21 := false |}.

(** [wave6_vpu_enc_fmt_list]: two rows of 28 slots; the codec row has two
    initialised slots. *)
Definition wave6_vpu_enc_fmt_list (ty : vpu_fmt_type) : list vpu_format :=
  match ty with
  | VPU_FMT_TYPE_CODEC =>
      [ codec_fmt V4L2_PIX_FMT_HEVC; codec_fmt V4L2_PIX_FMT_H264 ]
      ++ repeat empty_fmt 26
  | VPU_FMT_TYPE_RAW =>
      [ yuv_fmt V4L2_PIX_FMT_YUV420 1 false false false;
        yuv_fmt V4L2_PIX_FMT_NV12 1 true false false;
        yuv_fmt V4L2_PIX_FMT_NV21 1 true true false;
        yuv_fmt V4L2_PIX_FMT_YUV422P 1 false false false;
        yuv_fmt V4L2_PIX_FMT_NV16 1 true false false;
        yuv_fmt V4L2_PIX_FMT_NV61 1 true true false;
        yuv_fmt V4L2_PIX_FMT_YUYV 1 false false false;
        yuv_fmt V4L2_PIX_FMT_YUV24 1 true false false;
        yuv_fmt V4L2_PIX_FMT_NV24 1 true false false;
        yuv_fmt V4L2_PIX_FMT_NV42 1 true true false;
        yuv_fmt V4L2_PIX_FMT_YUV420M 3 false false false;
        yuv_fmt V4L2_PIX_FMT_NV12M 2 true false false;
        yuv_fmt V4L2_PIX_FMT_NV21M 2 true true false;
        yuv_fmt V4L2_PIX_FMT_YUV422M 3 false false false;
        yuv_fmt V4L2_PIX_FMT_NV16M 2 true false false;
        yuv_fmt V4L2_PIX_FMT_NV61M 2 true true false;
        yuv_fmt V4L2_PIX_FMT_P010 1 true false true;
        rgb_fmt V4L2_PIX_FMT_RGB24 (Some CSC_ORDER_RGB) false;
        rgb_fmt V4L2_PIX_FMT_BGR24 (Some CSC_ORDER_BGR) false;
        rgb_fmt V4L2_PIX_FMT_ARGB32 (Some CSC_ORDER_ARGB) false;
        rgb_fmt V4L2_PIX_FMT_XRGB32 (Some CSC_ORDER_ARGB) false;
        rgb_fmt V4L2_PIX_FMT_RGBA32 (Some CSC_ORDER_RGBA) false;
        rgb_fmt V4L2_PIX_FMT_RGBX32 (Some CSC_ORDER_RGBA) false;
        rgb_fmt V4L2_PIX_FMT_XBGR32 (Some CSC_ORDER_BGRA) false;
        rgb_fmt V4L2_PIX_FMT_ABGR32 (Some CSC_ORDER_BGRA) false;
        rgb_fmt V4L2_PIX_FMT_BGRX32 (Some CSC_ORDER_ABGR) false;
        rgb_fmt V4L2_PIX_FMT_BGRA32 (Some CSC_ORDER_ABGR) false;
        rgb_fmt V4L2_PIX_FMT_ARGB2101010 None true ]
  end.

(** [wave6_find_vpu_fmt]: the first slot of the row, over all 28 of them,
    whose tag is the requested one. *)
Definition wave6_find_vpu_fmt (pix : pixel_format) (ty : vpu_fmt_type)
  : option vpu_format :=
  find (fun f => pixel_format_beq (v4l2_pix_fmt f) pix)
       (wave6_vpu_enc_fmt_list ty).

(** [wave6_find_vpu_fmt_by_idx]; [idx] is an [unsigned int]. *)
Definition wave6_find_vpu_fmt_by_idx (idx : Z) (ty : vpu_fmt_type)
  : option vpu_format :=
  if FMT_LIST_SIZE <=? idx then None
  else
    let f := nth (Z.to_nat idx) (wave6_vpu_enc_fmt_list ty) empty_fmt in
    if pixel_format_beq (v4l2_pix_fmt f) V4L2_PIX_FMT_NONE then None
    else Some f.

End Catalogue.

(** [struct v4l2_frmsizeenum], with the stepwise description. *)
Record v4l2_frmsizeenum := {
  fs_index : Z;
  fs_pixel_format : pixel_format;
  fs_stepwise : bool;          (* type = V4L2_FRMSIZE_TYPE_STEPWISE *)
  fs_min_width : Z;
  fs_max_width : Z;
  fs_step_width : Z;
  fs_min_height : Z;
  fs_max_height : Z;
  fs_step_height : Z
}.

(** [wave6_vpu_enc_enum_framesizes]. *)
Definition wave6_vpu_enc_enum_framesizes (hdr : wave6_defs)
  (lim : wave6_limits) (fsize : v4l2_frmsizeenum) : Z * v4l2_frmsizeenum :=
  if negb (fs_index fsize =? 0) then (- EINVAL, fsize)
  else
    let vpu_fmt :=
      match wave6_find_vpu_fmt lim (fs_pixel_format fsize) VPU_FMT_TYPE_CODEC with
      | Some f => Some f
      | None => wave6_find_vpu_fmt lim (fs_pixel_format fsize) VPU_FMT_TYPE_RAW
      end in
    match vpu_fmt with
    | None => (- EINVAL, fsize)
    | Some f =>
        (0, {| fs_index := fs_index fsize;
               fs_pixel_format := fs_pixel_format fsize;
               fs_stepwise := true;
               fs_min_width := min_width f;
               fs_max_width := max_width f;
               fs_step_width := W6_ENC_PIC_SIZE_STEP hdr;
               fs_min_height := min_height f;
               fs_max_height := max_height f;
               fs_step_height := W6_ENC_PIC_SIZE_STEP hdr |})
    end.

(** [wave6_vpu_enc_enum_fmt_cap] and [wave6_vpu_enc_enum_fmt_out]: the
    return value and the pixel format written to the descriptor. *)
Definition wave6_vpu_enc_enum_fmt_cap (lim : wave6_limits) (index : Z)
  : Z * option pixel_format :=
  match wave6_find_vpu_fmt_by_idx lim index VPU_FMT_TYPE_CODEC with
  | None => (- EINVAL, None)
  | Some f => (0, Some (v4l2_pix_fmt f))
  end.

Definition wave6_vpu_enc_enum_fmt_out (lim : wave6_limits) (index : Z)
  : Z * option pixel_format :=
  match wave6_find_vpu_fmt_by_idx lim index VPU_FMT_TYPE_RAW with
  | None => (- EINVAL, None)
  | Some f => (0, Some (v4l2_pix_fmt f))
  end.

(** ** Rate control buffer *)

(** [wave6_cpb_size_msec]: the products and the quotient are [u64], the
    result is cut to [u32]; [None] is the division by a bitrate of zero. *)
Definition wave6_cpb_size_msec (cpb_size_kb bitrate : Z) : option Z :=
  let cpb_size_bit := u64 (u64 (cpb_size_kb * 1000) * BITS_PER_BYTE) in
  if bitrate =? 0 then None
  else
    let cpb_size_msec := u64 (cpb_size_bit * 1000) / bitrate in
    let cpb_size_msec :=
      if (cpb_size_msec <? 10) || (100000 <? cpb_size_msec)
      then 10000 else cpb_size_msec in
    Some (u32 cpb_size_msec).

(** ** Colorimetry *)

(** The enumerations of videodev2.h; the last constructor of each stands for
    a value that is none of the named ones. *)
Inductive v4l2_colorspace :=
| V4L2_COLORSPACE_DEFAULT | V4L2_COLORSPACE_SMPTE170M
| V4L2_COLORSPACE_SMPTE240M | V4L2_COLORSPACE_REC709
| V4L2_COLORSPACE_BT878 | V4L2_COLORSPACE_470_SYSTEM_M
| V4L2_COLORSPACE_470_SYSTEM_BG | V4L2_COLORSPACE_JPEG
| V4L2_COLORSPACE_SRGB | V4L2_COLORSPACE_OPRGB
| V4L2_COLORSPACE_BT2020 | V4L2_COLORSPACE_RAW
| V4L2_COLORSPACE_DCI_P3 | V4L2_COLORSPACE_OTHER.

Inductive v4l2_xfer_func :=
| V4L2_XFER_FUNC_DEFAULT | V4L2_XFER_FUNC_709 | V4L2_XFER_FUNC_SRGB
| V4L2_XFER_FUNC_OPRGB | V4L2_XFER_FUNC_SMPTE240M | V4L2_XFER_FUNC_NONE
| V4L2_XFER_FUNC_DCI_P3 | V4L2_XFER_FUNC_SMPTE2084 | V4L2_XFER_FUNC_OTHER.

Inductive v4l2_ycbcr_encoding :=
| V4L2_YCBCR_ENC_DEFAULT | V4L2_YCBCR_ENC_601 | V4L2_YCBCR_ENC_709
| V4L2_YCBCR_ENC_XV601 | V4L2_YCBCR_ENC_XV709 | V4L2_YCBCR_ENC_SYCC
| V4L2_YCBCR_ENC_BT2020 | V4L2_YCBCR_ENC_BT2020_CONST_LUM
| V4L2_YCBCR_ENC_SMPTE240M | V4L2_YCBCR_ENC_OTHER.

Inductive v4l2_quantization :=
| V4L2_QUANTIZATION_DEFAULT | V4L2_QUANTIZATION_FULL_RANGE
| V4L2_QUANTIZATION_LIM_RANGE | V4L2_QUANTIZATION_OTHER.

(** [to_video_full_range_flag]. *)
Definition to_video_full_range_flag (quantization : v4l2_quantization) : Z :=
  match quantization with
  | V4L2_QUANTIZATION_FULL_RANGE => 1
  | _ => 0
  end.

(** [to_colour_primaries]. *)
Definition to_colour_primaries (colorspace : v4l2_colorspace) : Z :=
  match colorspace with
  | V4L2_COLORSPACE_SMPTE170M => 6
  | V4L2_COLORSPACE_REC709 | V4L2_COLORSPACE_SRGB | V4L2_COLORSPACE_JPEG => 1
  | V4L2_COLORSPACE_BT2020 => 9
  | V4L2_COLORSPACE_DCI_P3 => 11
  | V4L2_COLORSPACE_SMPTE240M => 7
  | V4L2_COLORSPACE_470_SYSTEM_M => 4
  | V4L2_COLORSPACE_470_SYSTEM_BG => 5
  | _ => 2
  end.

Section Colorimetry.

(** The macros [V4L2_MAP_XFER_FUNC_DEFAULT] and [V4L2_MAP_YCBCR_ENC_DEFAULT]
    of videodev2.h. *)
Variable V4L2_MAP_XFER_FUNC_DEFAULT : v4l2_colorspace -> v4l2_xfer_func.
Variable V4L2_MAP_YCBCR_ENC_DEFAULT : v4l2_colorspace -> v4l2_ycbcr_encoding.

(** [to_transfer_characteristics]. *)
Definition to_transfer_characteristics (colorspace : v4l2_colorspace)
  (xfer_func : v4l2_xfer_func) : Z :=
  let xfer_func :=
    match xfer_func with
    | V4L2_XFER_FUNC_DEFAULT => V4L2_MAP_XFER_FUNC_DEFAULT colorspace
    | x => x
    end in
  match xfer_func with
  | V4L2_XFER_FUNC_709 =>
      match colorspace with
      | V4L2_COLORSPACE_SMPTE170M => 6
      | V4L2_COLORSPACE_BT2020 => 14
      | _ => 1
      end
  | V4L2_XFER_FUNC_SRGB => 13
  | V4L2_XFER_FUNC_SMPTE240M => 7
  | V4L2_XFER_FUNC_NONE => 8
  | V4L2_XFER_FUNC_SMPTE2084 => 16
  | _ => 2
  end.

(** [to_matrix_coeffs]. *)
Definition to_matrix_coeffs (colorspace : v4l2_colorspace)
  (ycbcr_enc : v4l2_ycbcr_encoding) : Z :=
  let ycbcr_enc :=
    match ycbcr_enc with
    | V4L2_YCBCR_ENC_DEFAULT => V4L2_MAP_YCBCR_ENC_DEFAULT colorspace
    | x => x
    end in
  match ycbcr_enc with
  | V4L2_YCBCR_ENC_601 | V4L2_YCBCR_ENC_XV601 =>
      match colorspace with
      | V4L2_COLORSPACE_SMPTE170M => 6
      | _ => 5
      end
  | V4L2_YCBCR_ENC_709 | V4L2_YCBCR_ENC_XV709 => 1
  | V4L2_YCBCR_ENC_BT2020 => 9
  | V4L2_YCBCR_ENC_BT2020_CONST_LUM => 10
  | V4L2_YCBCR_ENC_SMPTE240M => 7
  | _ => 2
  end.

End Colorimetry.

(** ** The instance, continued *)

(** [struct v4l2_plane_pix_format] and [struct v4l2_pix_format_mplane];
    [plane_fmt] has [VIDEO_MAX_PLANES] entries. *)
Record v4l2_plane_pix_format := {
  sizeimage : Z;
  bytesperline : Z
}.

Record v4l2_pix_format_mplane := {
  pix_width : Z;
  pix_height : Z;
  pixelformat : pixel_format;
  pix_field : Z;
  pix_flags : Z;
  pix_num_planes : Z;
  plane_fmt : list v4l2_plane_pix_format;
  pix_colorspace : v4l2_colorspace;
  pix_ycbcr_enc : v4l2_ycbcr_encoding;
  pix_quantization : v4l2_quantization;
  pix_xfer_func : v4l2_xfer_func
}.

Definition set_pix_tag (tag : pixel_format) (planes : Z)
  (p : v4l2_pix_format_mplane) : v4l2_pix_format_mplane :=
  {| pix_width := pix_width p; pix_height := pix_height p;
     pixelformat := tag; pix_field := pix_field p; pix_flags := pix_flags p;
     pix_num_planes := planes; plane_fmt := plane_fmt p;
     pix_colorspace := pix_colorspace p; pix_ycbcr_enc := pix_ycbcr_enc p;
     pix_quantization := pix_quantization p;
     pix_xfer_func := pix_xfer_func p |}.

Definition set_pix_ycbcr_enc (v : v4l2_ycbcr_encoding)
  (p : v4l2_pix_format_mplane) : v4l2_pix_format_mplane :=
  {| pix_width := pix_width p; pix_height := pix_height p;
     pixelformat := pixelformat p; pix_field := pix_field p;
     pix_flags := pix_flags p; pix_num_planes := pix_num_planes p;
     plane_fmt := plane_fmt p;
     pix_colorspace := pix_colorspace p; pix_ycbcr_enc := v;
     pix_quantization := pix_quantization p;
     pix_xfer_func := pix_xfer_func p |}.

Definition set_pix_quantization (v : v4l2_quantization)
  (p : v4l2_pix_format_mplane) : v4l2_pix_format_mplane :=
  {| pix_width := pix_width p; pix_height := pix_height p;
     pixelformat := pixelformat p; pix_field := pix_field p;
     pix_flags := pix_flags p; pix_num_planes := pix_num_planes p;
     plane_fmt := plane_fmt p;
     pix_colorspace := pix_colorspace p; pix_ycbcr_enc := pix_ycbcr_enc p;
     pix_quantization := v;
     pix_xfer_func := pix_xfer_func p |}.

Definition set_pix_colorimetry (c : v4l2_colorspace) (y : v4l2_ycbcr_encoding)
  (q : v4l2_quantization) (x : v4l2_xfer_func)
  (p : v4l2_pix_format_mplane) : v4l2_pix_format_mplane :=
  {| pix_width := pix_width p; pix_height := pix_height p;
     pixelformat := pixelformat p; pix_field := pix_field p;
     pix_flags := pix_flags p; pix_num_planes := pix_num_planes p;
     plane_fmt := plane_fmt p;
     pix_colorspace := c; pix_ycbcr_enc := y;
     pix_quantization := q; pix_xfer_func := x |}.

(** The fields of [struct enc_controls], by name; the members of the
    [hevc] and [h264] parts carry the part as a prefix.  The set of controls
    is a total map from these names to the stored values. *)
Inductive ctrl_field :=
| mirror_direction | rot_angle | gop_size | slice_mode | slice_max_mb
| bitrate_mode | bitrate | frame_rc_enable | mb_rc_enable
| ctl_force_key_frame | prepend_spspps_to_idr | intra_refresh_period
| frame_skip_mode
| hevc_profile | hevc_level | hevc_min_qp | hevc_max_qp
| hevc_i_frame_qp | hevc_p_frame_qp | hevc_b_frame_qp
| hevc_loop_filter_mode | hevc_lf_beta_offset_div2 | hevc_lf_tc_offset_div2
| hevc_refresh_type | hevc_refresh_period | hevc_const_intra_pred
| hevc_strong_smoothing | hevc_tmv_prediction
| h264_profile | h264_level | h264_min_qp | h264_max_qp
| h264_i_frame_qp | h264_p_frame_qp | h264_b_frame_qp
| h264_loop_filter_mode | h264_loop_filter_beta | h264_loop_filter_alpha
| h264_8x8_transform | h264_constrained_intra_prediction
| h264_chroma_qp_index_offset | h264_entropy_mode | h264_i_period
| h264_vui_sar_enable | h264_vui_sar_idc | h264_vui_ext_sar_width
| h264_vui_ext_sar_height | h264_cpb_size.

Scheme Equality for ctrl_field.

Definition enc_controls : Type := ctrl_field -> Z.

Definition set_ctrl (f : ctrl_field) (v : Z) (p : enc_controls) : enc_controls :=
  fun g => if ctrl_field_beq g f then v else p g.

(** The encoder instance with the fields of the control surface added to
    the ones of [vpu_instance]. *)
Record enc_instance := {
  vpu : vpu_instance;
  src_fmt : v4l2_pix_format_mplane;
  dst_fmt : v4l2_pix_format_mplane;
  inst_cbcr_interleave : bool;
  inst_nv21 : bool;
  colorspace : v4l2_colorspace;
  ycbcr_enc : v4l2_ycbcr_encoding;
  quantization : v4l2_quantization;
  xfer_func : v4l2_xfer_func;
  frame_rate : Z;
  enc_ctrls : enc_controls;
  roi_mode : Z;
  queued_src_buf_num : Z;
  queued_dst_buf_num : Z
}.

Definition set_vpu (v : vpu_instance) (e : enc_instance) : enc_instance :=
  {| vpu := v; src_fmt := src_fmt e; dst_fmt := dst_fmt e;
     inst_cbcr_interleave := inst_cbcr_interleave e; inst_nv21 := inst_nv21 e;
     colorspace := colorspace e; ycbcr_enc := ycbcr_enc e;
     quantization := quantization e; xfer_func := xfer_func e;
     frame_rate := frame_rate e; enc_ctrls := enc_ctrls e;
     roi_mode := roi_mode e; queued_src_buf_num := queued_src_buf_num e;
     queued_dst_buf_num := queued_dst_buf_num e |}.

Definition set_dst_fmt (f : v4l2_pix_format_mplane) (e : enc_instance)
  : enc_instance :=
  {| vpu := vpu e; src_fmt := src_fmt e; dst_fmt := f;
     inst_cbcr_interleave := inst_cbcr_interleave e; inst_nv21 := inst_nv21 e;
     colorspace := colorspace e; ycbcr_enc := ycbcr_enc e;
     quantization := quantization e; xfer_func := xfer_func e;
     frame_rate := frame_rate e; enc_ctrls := enc_ctrls e;
     roi_mode := roi_mode e; queued_src_buf_num := queued_src_buf_num e;
     queued_dst_buf_num := queued_dst_buf_num e |}.

Definition set_frame_rate (v : Z) (e : enc_instance) : enc_instance :=
  {| vpu := vpu e; src_fmt := src_fmt e; dst_fmt := dst_fmt e;
     inst_cbcr_interleave := inst_cbcr_interleave e; inst_nv21 := inst_nv21 e;
     colorspace := colorspace e; ycbcr_enc := ycbcr_enc e;
     quantization := quantization e; xfer_func := xfer_func e;
     frame_rate := v; enc_ctrls := enc_ctrls e;
     roi_mode := roi_mode e; queued_src_buf_num := queued_src_buf_num e;
     queued_dst_buf_num := queued_dst_buf_num e |}.

Definition set_enc_ctrls (c : enc_controls) (e : enc_instance) : enc_instance :=
  {| vpu := vpu e; src_fmt := src_fmt e; dst_fmt := dst_fmt e;
     inst_cbcr_interleave := inst_cbcr_interleave e; inst_nv21 := inst_nv21 e;
     colorspace := colorspace e; ycbcr_enc := ycbcr_enc e;
     quantization := quantization e; xfer_func := xfer_func e;
     frame_rate := frame_rate e; enc_ctrls := c;
     roi_mode := roi_mode e; queued_src_buf_num := queued_src_buf_num e;
     queued_dst_buf_num := queued_dst_buf_num e |}.

Definition set_roi_mode (v : Z) (e : enc_instance) : enc_instance :=
  {| vpu := vpu e; src_fmt := src_fmt e; dst_fmt := dst_fmt e;
     inst_cbcr_interleave := inst_cbcr_interleave e; inst_nv21 := inst_nv21 e;
     colorspace := colorspace e; ycbcr_enc := ycbcr_enc e;
     quantization := quantization e; xfer_func := xfer_func e;
     frame_rate := frame_rate e; enc_ctrls := enc_ctrls e;
     roi_mode := v; queued_src_buf_num := queued_src_buf_num e;
     queued_dst_buf_num := queued_dst_buf_num e |}.

Definition set_queued_src_buf_num (v : Z) (e : enc_instance) : enc_instance :=
  {| vpu := vpu e; src_fmt := src_fmt e; dst_fmt := dst_fmt e;
     inst_cbcr_interleave := inst_cbcr_interleave e; inst_nv21 := inst_nv21 e;
     colorspace := colorspace e; ycbcr_enc := ycbcr_enc e;
     quantization := quantization e; xfer_func := xfer_func e;
     frame_rate := frame_rate e; enc_ctrls := enc_ctrls e;
     roi_mode := roi_mode e; queued_src_buf_num := v;
     queued_dst_buf_num := queued_dst_buf_num e |}.

Definition set_queued_dst_buf_num (v : Z) (e : enc_instance) : enc_instance :=
  {| vpu := vpu e; src_fmt := src_fmt e; dst_fmt := dst_fmt e;
     inst_cbcr_interleave := inst_cbcr_interleave e; inst_nv21 := inst_nv21 e;
     colorspace := colorspace e; ycbcr_enc := ycbcr_enc e;
     quantization := quantization e; xfer_func := xfer_func e;
     frame_rate := frame_rate e; enc_ctrls := enc_ctrls e;
     roi_mode := roi_mode e; queued_src_buf_num := queued_src_buf_num e;
     queued_dst_buf_num := v |}.

Definition set_force_key_frame (v : bool) (b : vpu_buffer) : vpu_buffer :=
  {| vb_index := vb_index b; vb_daddr := vb_daddr b;
     vb_plane_size := vb_plane_size b; vb_payload := vb_payload b;
     vb_sequence := vb_sequence b; vb_flags := vb_flags b;
     consumed := consumed b; used := used b;
     force_key_frame := v;
     force_frame_qp := force_frame_qp b; average_qp := average_qp b |}.

Definition set_force_frame_qp (v : bool) (b : vpu_buffer) : vpu_buffer :=
  {| vb_index := vb_index b; vb_daddr := vb_daddr b;
     vb_plane_size := vb_plane_size b; vb_payload := vb_payload b;
     vb_sequence := vb_sequence b; vb_flags := vb_flags b;
     consumed := consumed b; used := used b;
     force_key_frame := force_key_frame b;
     force_frame_qp := v; average_qp := average_qp b |}.

(** ** Colour conversion set of a picture request *)

(** The [csc] part of [struct enc_param]: the nine coefficients and three
    offsets are [u32] values. *)
Record enc_csc := {
  format_order : option csc_format_order;
  coef_ry : Z; coef_gy : Z; coef_by : Z;
  coef_rcb : Z; coef_gcb : Z; coef_bcb : Z;
  coef_rcr : Z; coef_gcr : Z; coef_bcr : Z;
  offset_y : Z; offset_cb : Z; offset_cr : Z
}.

(** The set as [memset] leaves it at the start of an encode cycle. *)
Definition zero_csc : enc_csc :=
  {| format_order := None;
     coef_ry := 0; coef_gy := 0; coef_by := 0;
     coef_rcb := 0; coef_gcb := 0; coef_bcb := 0;
     coef_rcr := 0; coef_gcr := 0; coef_bcr := 0;
     offset_y := 0; offset_cb := 0; offset_cr := 0 |}.

Definition set_format_order (o : option csc_format_order) (c : enc_csc)
  : enc_csc :=
  {| format_order := o;
     coef_ry := coef_ry c; coef_gy := coef_gy c; coef_by := coef_by c;
     coef_rcb := coef_rcb c; coef_gcb := coef_gcb c; coef_bcb := coef_bcb c;
     coef_rcr := coef_rcr c; coef_gcr := coef_gcr c; coef_bcr := coef_bcr c;
     offset_y := offset_y c; offset_cb := offset_cb c;
     offset_cr := offset_cr c |}.

(** The twelve assignments of one branch of [wave6_set_csc]. *)
Definition set_coefs (ry gy by_ rcb gcb bcb rcr gcr bcr oy ocb ocr : Z)
  (c : enc_csc) : enc_csc :=
  {| format_order := format_order c;
     coef_ry := ry; coef_gy := gy; coef_by := by_;
     coef_rcb := rcb; coef_gcb := gcb; coef_bcb := bcb;
     coef_rcr := rcr; coef_gcr := gcr; coef_bcr := bcr;
     offset_y := oy; offset_cb := ocb; offset_cr := ocr |}.

(** [wave6_set_csc], on the [csc] part of the request. *)
Definition wave6_set_csc (lim : wave6_limits) (inst : enc_instance)
  (csc : enc_csc) : enc_csc :=
  match wave6_find_vpu_fmt lim (pixelformat (src_fmt inst)) VPU_FMT_TYPE_RAW with
  | None => csc
  | Some vpu_fmt =>
      if negb (is_rgb vpu_fmt) then csc
      else
        let ten := is_10bit vpu_fmt in
        let csc := set_format_order (csc_order vpu_fmt) csc in
        let full :=
          match quantization inst with
          | V4L2_QUANTIZATION_FULL_RANGE => true
          | _ => false
          end in
        let lim_range :=
          match quantization inst with
          | V4L2_QUANTIZATION_LIM_RANGE => true
          | _ => false
          end in
        let o_y := if ten then 0x40 else 0x10 in
        let o_c := if ten then 0x200 else 0x80 in
        match ycbcr_enc inst with
        | V4L2_YCBCR_ENC_DEFAULT | V4L2_YCBCR_ENC_601 =>
            if full
            then set_coefs 0x099 0x12d 0x03a 0xffffffaa 0xffffff56 0x100
                           0x100 0xffffff2a 0xffffffd6 0x0 o_c o_c csc
            else set_coefs 0x084 0x102 0x032 0xffffffb4 0xffffff6c 0x0e0
                           0x0e0 0xffffff44 0xffffffdc o_y o_c o_c csc
        | V4L2_YCBCR_ENC_709 =>
            if full
            then set_coefs 0x06d 0x16e 0x025 0xffffffc5 0xffffff3b 0x100
                           0x100 0xffffff17 0xffffffe9 0x0 o_c o_c csc
            else set_coefs 0x05e 0x13b 0x020 0xffffffcc 0xffffff53 0x0e1
                           0x0e1 0xffffff34 0xffffffeb o_y o_c o_c csc
        | V4L2_YCBCR_ENC_BT2020 =>
            if full
            then set_coefs 0x087 0x15b 0x01e 0xffffffb9 0xffffff47 0x100
                           0x100 0xffffff15 0xffffffeb 0x0 o_c o_c csc
            else set_coefs 0x074 0x12a 0x01a 0xffffffc1 0xffffff5e 0x0e1
                           0x0e1 0xffffff31 0xffffffee o_y o_c o_c csc
        | V4L2_YCBCR_ENC_SMPTE240M =>
            if full
            then set_coefs 0x06d 0x167 0x02c 0xffffffc5 0xffffff3b 0x100
                           0x100 0xffffff1c 0xffffffe4 0x0 o_c o_c csc
            else set_coefs 0x05d 0x134 0x026 0xffffffcc 0xffffff53 0x0e1
                           0x0e1 0xffffff38 0xffffffe7 o_y o_c o_c csc
        | V4L2_YCBCR_ENC_XV601 =>
            if lim_range
            then set_coefs 0x083 0x101 0x032 0xffffffb4 0xffffff6c 0x0e0
                           0x0e0 0xffffff44 0xffffffdc o_y 0x0 0x0 csc
            else csc
        | V4L2_YCBCR_ENC_XV709 =>
            if lim_range
            then set_coefs 0x05d 0x139 0x020 0xffffffcd 0xffffff53 0x0e0
                           0x0e0 0xffffff35 0xffffffeb o_y 0x0 0x0 csc
            else csc
        | _ => csc
        end
  end.

(** ** Controls *)

(** The control identifiers [wave6_vpu_enc_s_ctrl] handles;
    [V4L2_CID_OTHER] is any other identifier. *)
Inductive v4l2_cid :=
| V4L2_CID_HFLIP | V4L2_CID_VFLIP | V4L2_CID_ROTATE
| V4L2_CID_MIN_BUFFERS_FOR_OUTPUT
| V4L2_CID_MPEG_VIDEO_GOP_SIZE
| V4L2_CID_MPEG_VIDEO_MULTI_SLICE_MODE
| V4L2_CID_MPEG_VIDEO_MULTI_SLICE_MAX_MB
| V4L2_CID_MPEG_VIDEO_BITRATE_MODE
| V4L2_CID_MPEG_VIDEO_BITRATE
| V4L2_CID_MPEG_VIDEO_FRAME_RC_ENABLE
| V4L2_CID_MPEG_VIDEO_MB_RC_ENABLE
| V4L2_CID_MPEG_VIDEO_FORCE_KEY_FRAME
| V4L2_CID_MPEG_VIDEO_PREPEND_SPSPPS_TO_IDR
| V4L2_CID_MPEG_VIDEO_INTRA_REFRESH_PERIOD_TYPE
| V4L2_CID_MPEG_VIDEO_INTRA_REFRESH_PERIOD
| V4L2_CID_MPEG_VIDEO_FRAME_SKIP_MODE
| V4L2_CID_MPEG_VIDEO_HEVC_PROFILE
| V4L2_CID_MPEG_VIDEO_HEVC_LEVEL
| V4L2_CID_MPEG_VIDEO_HEVC_MIN_QP
| V4L2_CID_MPEG_VIDEO_HEVC_MAX_QP
| V4L2_CID_MPEG_VIDEO_HEVC_I_FRAME_QP
| V4L2_CID_MPEG_VIDEO_HEVC_P_FRAME_QP
| V4L2_CID_MPEG_VIDEO_HEVC_B_FRAME_QP
| V4L2_CID_MPEG_VIDEO_HEVC_LOOP_FILTER_MODE
| V4L2_CID_MPEG_VIDEO_HEVC_LF_BETA_OFFSET_DIV2
| V4L2_CID_MPEG_VIDEO_HEVC_LF_TC_OFFSET_DIV2
| V4L2_CID_MPEG_VIDEO_HEVC_REFRESH_TYPE
| V4L2_CID_MPEG_VIDEO_HEVC_REFRESH_PERIOD
| V4L2_CID_MPEG_VIDEO_HEVC_CONST_INTRA_PRED
| V4L2_CID_MPEG_VIDEO_HEVC_STRONG_SMOOTHING
| V4L2_CID_MPEG_VIDEO_HEVC_TMV_PREDICTION
| V4L2_CID_MPEG_VIDEO_H264_PROFILE
| V4L2_CID_MPEG_VIDEO_H264_LEVEL
| V4L2_CID_MPEG_VIDEO_H264_MIN_QP
| V4L2_CID_MPEG_VIDEO_H264_MAX_QP
| V4L2_CID_MPEG_VIDEO_H264_I_FRAME_QP
| V4L2_CID_MPEG_VIDEO_H264_P_FRAME_QP
| V4L2_CID_MPEG_VIDEO_H264_B_FRAME_QP
| V4L2_CID_MPEG_VIDEO_H264_LOOP_FILTER_MODE
| V4L2_CID_MPEG_VIDEO_H264_LOOP_FILTER_BETA
| V4L2_CID_MPEG_VIDEO_H264_LOOP_FILTER_ALPHA
| V4L2_CID_MPEG_VIDEO_H264_8X8_TRANSFORM
| V4L2_CID_MPEG_VIDEO_H264_CONSTRAINED_INTRA_PREDICTION
| V4L2_CID_MPEG_VIDEO_H264_CHROMA_QP_INDEX_OFFSET
| V4L2_CID_MPEG_VIDEO_H264_ENTROPY_MODE
| V4L2_CID_MPEG_VIDEO_H264_I_PERIOD
| V4L2_CID_MPEG_VIDEO_H264_VUI_SAR_ENABLE
| V4L2_CID_MPEG_VIDEO_H264_VUI_SAR_IDC
| V4L2_CID_MPEG_VIDEO_H264_VUI_EXT_SAR_WIDTH
| V4L2_CID_MPEG_VIDEO_H264_VUI_EXT_SAR_HEIGHT
| V4L2_CID_MPEG_VIDEO_H264_CPB_SIZE
| V4L2_CID_MPEG_VIDEO_ROI_MODE
| V4L2_CID_MPEG_VIDEO_ROI_MAP_DELTA_QP
| V4L2_CID_OTHER.

(** Modelled from the spec: [v4l2_m2m_buf_queue] of the buffer-queue
    subsystem puts a buffer on the ready queue of its direction, where it is
    the newest one. *)
Definition v4l2_m2m_buf_queue (d : queue_dir) (b : vpu_buffer)
  (c : v4l2_m2m_ctx) : v4l2_m2m_ctx :=
  match d with
  | SRC_QUEUE => set_src_rdy (src_rdy c ++ [b]) c
  | DST_QUEUE => set_dst_rdy (dst_rdy c ++ [b]) c
  end.

(** [struct v4l2_streamparm], the output part; [parm_is_output] is the
    value of [V4L2_TYPE_IS_OUTPUT] on its type. *)
Record v4l2_streamparm := {
  parm_is_output : bool;
  capability : Z;
  numerator : Z;
  denominator : Z
}.

Inductive v4l2_sel_target :=
| V4L2_SEL_TGT_CROP | V4L2_SEL_TGT_CROP_DEFAULT | V4L2_SEL_TGT_CROP_BOUNDS
| V4L2_SEL_TGT_OTHER.

(** [struct v4l2_selection]; [sel_is_output] is the value of
    [V4L2_TYPE_IS_OUTPUT] on its type. *)
Record v4l2_selection := {
  sel_is_output : bool;
  sel_target : v4l2_sel_target;
  sel_flags : Z;
  sel_r : v4l2_rect
}.

Definition set_sel_r (r : v4l2_rect) (s : v4l2_selection) : v4l2_selection :=
  {| sel_is_output := sel_is_output s; sel_target := sel_target s;
     sel_flags := sel_flags s; sel_r := r |}.

Definition set_sel_flags (f : Z) (s : v4l2_selection) : v4l2_selection :=
  {| sel_is_output := sel_is_output s; sel_target := sel_target s;
     sel_flags := f; sel_r := sel_r s |}.

(** The part of [struct enc_open_param] and its [codec_param] that
    [wave6_set_enc_open_param] derives from the geometry, the rate controls
    and the colorimetry of the instance.  [intra_refresh_row] tells that
    [intra_refresh_mode] was set to [INTRA_REFRESH_ROW]. *)
Record enc_open_param := {
  pic_width : Z;
  pic_height : Z;
  op_frame_rate : Z;
  op_bitrate : Z;
  cpb_size : Z;
  intra_refresh_row : bool;
  intra_refresh_arg : Z;
  color_range : Z;
  color_primaries : Z;
  transfer_characteristics : Z;
  matrix_coefficients : Z;
  conf_win_left : Z;
  conf_win_top : Z;
  conf_win_right : Z;
  conf_win_bottom : Z
}.

(** The structure as [memset] leaves it in
    [wave6_vpu_enc_create_instance]. *)
Definition zero_open_param : enc_open_param :=
  {| pic_width := 0; pic_height := 0; op_frame_rate := 0; op_bitrate := 0;
     cpb_size := 0; intra_refresh_row := false; intra_refresh_arg := 0;
     color_range := 0; color_primaries := 0; transfer_characteristics := 0;
     matrix_coefficients := 0; conf_win_left := 0; conf_win_top := 0;
     conf_win_right := 0; conf_win_bottom := 0 |}.

(** Reading [n] entries of two arrays in step, as the plane loops of the
    format functions do: the first [n] entries of [new] over the rest of
    [old]; [None] when one of the arrays has fewer than [n] entries. *)
Definition copy_planes {A} (n : Z) (new old : list A) : option (list A) :=
  if (0 <=? n) && (n <=? Z.of_nat (length new))
     && (n <=? Z.of_nat (length old))
  then Some (firstn (Z.to_nat n) new ++ skipn (Z.to_nat n) old)
  else None.

(** The size check of [wave6_vpu_enc_queue_setup] over the plane indices
    [idx]: [Some false] at the first plane whose size is below the image
    size of the format, [None] for an index outside one of the arrays. *)
Fixpoint check_sizes (idx : list Z) (sizes : list Z)
  (planes : list v4l2_plane_pix_format) : option bool :=
  match idx with
  | [] => Some true
  | i :: t =>
      match nth_error sizes (Z.to_nat i), nth_error planes (Z.to_nat i) with
      | Some s, Some p =>
          if s <? sizeimage p then Some false else check_sizes t sizes planes
      | _, _ => None
      end
  end.

(** The loop of [wave6_vpu_enc_queue_setup] that writes the image sizes. *)
Fixpoint fill_sizes (idx : list Z) (sizes : list Z)
  (planes : list v4l2_plane_pix_format) : option (list Z) :=
  match idx with
  | [] => Some sizes
  | i :: t =>
      match nth_error planes (Z.to_nat i) with
      | Some p =>
          if Z.to_nat i <? length sizes
          then fill_sizes t (upd_nth (Z.to_nat i) (fun _ => sizeimage p) sizes)
                 planes
          else None
      | None => None
      end
  end%nat.

Section Negotiation.

Variable hdr : wave6_defs.
Variable lim : wave6_limits.
Variable vd : v4l2_defs.

(** [wave6_update_pix_fmt] is defined in another file of the driver; it
    fills in a format for a width and a height. *)
Variable wave6_update_pix_fmt :
  v4l2_pix_format_mplane -> Z -> Z -> v4l2_pix_format_mplane.

Variable V4L2_MAP_XFER_FUNC_DEFAULT : v4l2_colorspace -> v4l2_xfer_func.
Variable V4L2_MAP_YCBCR_ENC_DEFAULT : v4l2_colorspace -> v4l2_ycbcr_encoding.

(** [wave6_vpu_enc_s_ctrl]: [val] is [ctrl->val], [p_new] and [new_elems]
    the payload of an array control.  The result is [None] when the map
    writer stores outside the map buffer.  The fields of [enc_controls] are
    integers whose C types are declared in a driver header; the value
    written is the value of the control. *)
Definition wave6_vpu_enc_s_ctrl (id : v4l2_cid) (val : Z) (p_new : list Z)
  (new_elems : Z) (inst : enc_instance) : option (Z * enc_instance) :=
  let p := enc_ctrls inst in
  let store f v := Some (0, set_enc_ctrls (set_ctrl f v p) inst) in
  match id with
  | V4L2_CID_HFLIP =>
      store mirror_direction (Z.lor (p mirror_direction) (Z.shiftl val 1))
  | V4L2_CID_VFLIP =>
      store mirror_direction (Z.lor (p mirror_direction) val)
  | V4L2_CID_ROTATE => store rot_angle val
  | V4L2_CID_MIN_BUFFERS_FOR_OUTPUT => Some (0, inst)
  | V4L2_CID_MPEG_VIDEO_GOP_SIZE => store gop_size val
  | V4L2_CID_MPEG_VIDEO_MULTI_SLICE_MODE => store slice_mode val
  | V4L2_CID_MPEG_VIDEO_MULTI_SLICE_MAX_MB => store slice_max_mb val
  | V4L2_CID_MPEG_VIDEO_BITRATE_MODE => store bitrate_mode val
  | V4L2_CID_MPEG_VIDEO_BITRATE => store bitrate val
  | V4L2_CID_MPEG_VIDEO_FRAME_RC_ENABLE => store frame_rc_enable val
  | V4L2_CID_MPEG_VIDEO_MB_RC_ENABLE => store mb_rc_enable val
  | V4L2_CID_MPEG_VIDEO_FORCE_KEY_FRAME => store ctl_force_key_frame 1
  | V4L2_CID_MPEG_VIDEO_PREPEND_SPSPPS_TO_IDR =>
      store prepend_spspps_to_idr val
  | V4L2_CID_MPEG_VIDEO_INTRA_REFRESH_PERIOD_TYPE => Some (0, inst)
  | V4L2_CID_MPEG_VIDEO_INTRA_REFRESH_PERIOD => store intra_refresh_period val
  | V4L2_CID_MPEG_VIDEO_FRAME_SKIP_MODE => store frame_skip_mode val
  | V4L2_CID_MPEG_VIDEO_HEVC_PROFILE => store hevc_profile val
  | V4L2_CID_MPEG_VIDEO_HEVC_LEVEL => store hevc_level val
  | V4L2_CID_MPEG_VIDEO_HEVC_MIN_QP => store hevc_min_qp val
  | V4L2_CID_MPEG_VIDEO_HEVC_MAX_QP => store hevc_max_qp val
  | V4L2_CID_MPEG_VIDEO_HEVC_I_FRAME_QP => store hevc_i_frame_qp val
  | V4L2_CID_MPEG_VIDEO_HEVC_P_FRAME_QP => store hevc_p_frame_qp val
  | V4L2_CID_MPEG_VIDEO_HEVC_B_FRAME_QP => store hevc_b_frame_qp val
  | V4L2_CID_MPEG_VIDEO_HEVC_LOOP_FILTER_MODE =>
      store hevc_loop_filter_mode val
  | V4L2_CID_MPEG_VIDEO_HEVC_LF_BETA_OFFSET_DIV2 =>
      store hevc_lf_beta_offset_div2 val
  | V4L2_CID_MPEG_VIDEO_HEVC_LF_TC_OFFSET_DIV2 =>
      store hevc_lf_tc_offset_div2 val
  | V4L2_CID_MPEG_VIDEO_HEVC_REFRESH_TYPE => store hevc_refresh_type val
  | V4L2_CID_MPEG_VIDEO_HEVC_REFRESH_PERIOD => store hevc_refresh_period val
  | V4L2_CID_MPEG_VIDEO_HEVC_CONST_INTRA_PRED =>
      store hevc_const_intra_pred val
  | V4L2_CID_MPEG_VIDEO_HEVC_STRONG_SMOOTHING =>
      store hevc_strong_smoothing val
  | V4L2_CID_MPEG_VIDEO_HEVC_TMV_PREDICTION => store hevc_tmv_prediction val
  | V4L2_CID_MPEG_VIDEO_H264_PROFILE => store h264_profile val
  | V4L2_CID_MPEG_VIDEO_H264_LEVEL => store h264_level val
  | V4L2_CID_MPEG_VIDEO_H264_MIN_QP => store h264_min_qp val
  | V4L2_CID_MPEG_VIDEO_H264_MAX_QP => store h264_max_qp val
  | V4L2_CID_MPEG_VIDEO_H264_I_FRAME_QP => store h264_i_frame_qp val
  | V4L2_CID_MPEG_VIDEO_H264_P_FRAME_QP => store h264_p_frame_qp val
  | V4L2_CID_MPEG_VIDEO_H264_B_FRAME_QP => store h264_b_frame_qp val
  | V4L2_CID_MPEG_VIDEO_H264_LOOP_FILTER_MODE =>
      store h264_loop_filter_mode val
  | V4L2_CID_MPEG_VIDEO_H264_LOOP_FILTER_BETA =>
      store h264_loop_filter_beta val
  | V4L2_CID_MPEG_VIDEO_H264_LOOP_FILTER_ALPHA =>
      store h264_loop_filter_alpha val
  | V4L2_CID_MPEG_VIDEO_H264_8X8_TRANSFORM => store h264_8x8_transform val
  | V4L2_CID_MPEG_VIDEO_H264_CONSTRAINED_INTRA_PREDICTION =>
      store h264_constrained_intra_prediction val
  | V4L2_CID_MPEG_VIDEO_H264_CHROMA_QP_INDEX_OFFSET =>
      store h264_chroma_qp_index_offset val
  | V4L2_CID_MPEG_VIDEO_H264_ENTROPY_MODE => store h264_entropy_mode val
  | V4L2_CID_MPEG_VIDEO_H264_I_PERIOD => store h264_i_period val
  | V4L2_CID_MPEG_VIDEO_H264_VUI_SAR_ENABLE => store h264_vui_sar_enable val
  | V4L2_CID_MPEG_VIDEO_H264_VUI_SAR_IDC => store h264_vui_sar_idc val
  | V4L2_CID_MPEG_VIDEO_H264_VUI_EXT_SAR_WIDTH =>
      store h264_vui_ext_sar_width val
  | V4L2_CID_MPEG_VIDEO_H264_VUI_EXT_SAR_HEIGHT =>
      store h264_vui_ext_sar_height val
  | V4L2_CID_MPEG_VIDEO_H264_CPB_SIZE => store h264_cpb_size val
  | V4L2_CID_MPEG_VIDEO_ROI_MODE => Some (0, set_roi_mode val inst)
  | V4L2_CID_MPEG_VIDEO_ROI_MAP_DELTA_QP =>
      match wave6_vpu_enc_set_roi_map (vpu inst) p_new new_elems with
      | Some v => Some (0, set_vpu v inst)
      | None => None
      end
  | V4L2_CID_OTHER => Some (- EINVAL, inst)
  end.

(** [wave6_vpu_enc_buf_queue] of a buffer on the queue of direction [d].
    The time stamp, the three forced QP values and the copy of the ROI map
    into the buffer's own map are left out; they touch no modelled field. *)
Definition wave6_vpu_enc_buf_queue (d : queue_dir) (b : vpu_buffer)
  (inst : enc_instance) : enc_instance :=
  let r :=
    match d with
    | SRC_QUEUE =>
        let p := enc_ctrls inst in
        let b1 := set_vb_sequence (queued_src_buf_num inst) b in
        let b2 := set_force_key_frame (negb (p ctl_force_key_frame =? 0)) b1 in
        let b3 := set_force_frame_qp (p frame_rc_enable =? 0) b2 in
        (b3, set_enc_ctrls (set_ctrl ctl_force_key_frame 0 p)
               (set_queued_src_buf_num (queued_src_buf_num inst + 1) inst))
    | DST_QUEUE =>
        (b, set_queued_dst_buf_num (queued_dst_buf_num inst + 1) inst)
    end in
  let b' := set_used false (set_consumed false (fst r)) in
  let inst1 := snd r in
  set_vpu (set_m2m_ctx (v4l2_m2m_buf_queue d b' (m2m_ctx (vpu inst1)))
             (vpu inst1)) inst1.

(** [wave6_vpu_enc_g_parm]. *)
Definition wave6_vpu_enc_g_parm (a : v4l2_streamparm) (inst : enc_instance)
  : Z * v4l2_streamparm :=
  if negb (parm_is_output a) then (- EINVAL, a)
  else (0, {| parm_is_output := parm_is_output a;
              capability := V4L2_CAP_TIMEPERFRAME vd;
              numerator := 1; denominator := frame_rate inst |}).

(** [wave6_vpu_enc_s_parm]; numerator and denominator are [__u32]. *)
Definition wave6_vpu_enc_s_parm (a : v4l2_streamparm) (inst : enc_instance)
  : Z * v4l2_streamparm * enc_instance :=
  if negb (parm_is_output a) then (- EINVAL, a, inst)
  else if negb (denominator a =? 0) && negb (numerator a =? 0)
  then (0, {| parm_is_output := parm_is_output a;
              capability := V4L2_CAP_TIMEPERFRAME vd;
              numerator := numerator a; denominator := denominator a |},
        set_frame_rate (denominator a / numerator a) inst)
  else (0, {| parm_is_output := parm_is_output a;
              capability := V4L2_CAP_TIMEPERFRAME vd;
              numerator := 1; denominator := frame_rate inst |},
        inst).

(** [wave6_vpu_enc_g_selection]. *)
Definition wave6_vpu_enc_g_selection (s : v4l2_selection)
  (inst : enc_instance) : Z * v4l2_selection :=
  if negb (sel_is_output s) then (- EINVAL, s)
  else match sel_target s with
       | V4L2_SEL_TGT_CROP_DEFAULT | V4L2_SEL_TGT_CROP_BOUNDS =>
           (0, set_sel_r {| r_left := 0; r_top := 0;
                            r_width := pix_width (src_fmt inst);
                            r_height := pix_height (src_fmt inst) |} s)
       | V4L2_SEL_TGT_CROP => (0, set_sel_r (crop (vpu inst)) s)
       | V4L2_SEL_TGT_OTHER => (- EINVAL, s)
       end.

(** The first part of [wave6_vpu_enc_s_selection]: the default of the
    rounding flags and the rounding of the rectangle.  [left] and [top] of
    the rectangle are [__s32], [width] and [height] are [__u32]. *)
Definition s_selection_round (s : v4l2_selection) : v4l2_selection :=
  let step := W6_ENC_CROP_STEP lim in
  let flags :=
    if Z.land (sel_flags s)
              (Z.lor (V4L2_SEL_FLAG_GE vd) (V4L2_SEL_FLAG_LE vd)) =? 0
    then Z.lor (sel_flags s) (V4L2_SEL_FLAG_LE vd)
    else sel_flags s in
  let r0 := sel_r s in
  let r1 :=
    if negb (Z.land flags (V4L2_SEL_FLAG_GE vd) =? 0)
    then {| r_left := round_up_s32 (r_left r0) step;
            r_top := round_up_s32 (r_top r0) step;
            r_width := round_up (r_width r0) step;
            r_height := round_up (r_height r0) step |}
    else r0 in
  let r2 :=
    if negb (Z.land flags (V4L2_SEL_FLAG_LE vd) =? 0)
    then {| r_left := round_down_s32 (r_left r1) step;
            r_top := round_down_s32 (r_top r1) step;
            r_width := round_down (r_width r1) step;
            r_height := round_down (r_height r1) step |}
    else r1 in
  set_sel_r r2 (set_sel_flags flags s).

(** [wave6_vpu_enc_s_selection]: the return value, the selection handed back
    and the instance.  [max_crop_w] and [max_crop_h] are [u32]. *)
Definition wave6_vpu_enc_s_selection (s : v4l2_selection)
  (inst : enc_instance) : Z * v4l2_selection * enc_instance :=
  if negb (sel_is_output s) then (- EINVAL, s, inst)
  else
    match sel_target s with
    | V4L2_SEL_TGT_CROP =>
        let s2 := s_selection_round s in
        let r2 := sel_r s2 in
        let max_crop_w := u32 (pix_width (src_fmt inst) - r_left r2) in
        let max_crop_h := u32 (pix_height (src_fmt inst) - r_top r2) in
        if (r_width r2 =? 0) || (r_height r2 =? 0) then (0, s2, inst)
        else if max_crop_w <? W6_MIN_ENC_PIC_WIDTH lim then (0, s2, inst)
        else if max_crop_h <? W6_MIN_ENC_PIC_HEIGHT lim then (0, s2, inst)
        else
          let r3 :=
            {| r_left := r_left r2; r_top := r_top r2;
               r_width := clamp (r_width r2) (W6_MIN_ENC_PIC_WIDTH lim)
                            max_crop_w;
               r_height := clamp (r_height r2) (W6_MIN_ENC_PIC_HEIGHT lim)
                             max_crop_h |} in
          let inst1 :=
            set_dst_fmt (wave6_update_pix_fmt (dst_fmt inst)
                           (r_width r3) (r_height r3)) inst in
          let v :=
            wave6_vpu_enc_set_roi_info hdr
              (wave6_update_crop_info hdr (vpu inst1)
                 (u32 (r_left r3)) (u32 (r_top r3))
                 (r_width r3) (r_height r3)) in
          (0, set_sel_r r3 s2, set_vpu v inst1)
    | _ => (- EINVAL, s, inst)
    end.

(** [wave6_vpu_enc_queue_setup] for the queue of direction [q]: the return
    value and the values left in [*num_buffers], [*num_planes] and
    [sizes].  [min_buffers] is the control
    [V4L2_CID_MIN_BUFFERS_FOR_OUTPUT], if [v4l2_ctrl_find] finds it, with
    its value.  [None] is an access outside [sizes] or [plane_fmt]. *)
Definition wave6_vpu_enc_queue_setup (q : queue_dir) (min_buffers : option Z)
  (num_buffers nplanes : Z) (sizes : list Z) (inst : enc_instance)
  : option (Z * Z * Z * list Z) :=
  let inst_format := match q with
                     | SRC_QUEUE => src_fmt inst
                     | DST_QUEUE => dst_fmt inst
                     end in
  if negb (nplanes =? 0) then
    if negb (pix_num_planes inst_format =? nplanes)
    then Some (- EINVAL, num_buffers, nplanes, sizes)
    else match check_sizes (zrange nplanes) sizes (plane_fmt inst_format) with
         | Some true => Some (0, num_buffers, nplanes, sizes)
         | Some false => Some (- EINVAL, num_buffers, nplanes, sizes)
         | None => None
         end
  else
    let nplanes := pix_num_planes inst_format in
    match fill_sizes (zrange nplanes) sizes (plane_fmt inst_format) with
    | None => None
    | Some sizes' =>
        let num_buffers' :=
          match q with
          | SRC_QUEUE =>
              let min_src_frame_count :=
                match min_buffers with
                | Some v => u32 v
                | None => 0
                end in
              Z.max num_buffers min_src_frame_count
          | DST_QUEUE => num_buffers
          end in
        Some (0, num_buffers', nplanes, sizes')
    end.

(** [wave6_vpu_enc_try_fmt_out]; [width] and [height] are [int]. *)
Definition wave6_vpu_enc_try_fmt_out (is_output : bool)
  (pix_mp : v4l2_pix_format_mplane) (inst : enc_instance)
  : Z * v4l2_pix_format_mplane :=
  if negb is_output then (- EINVAL, pix_mp)
  else
    let r :=
      match wave6_find_vpu_fmt lim (pixelformat pix_mp) VPU_FMT_TYPE_RAW with
      | None =>
          (s32 (pix_width (src_fmt inst)), s32 (pix_height (src_fmt inst)),
           set_pix_tag (pixelformat (src_fmt inst))
             (pix_num_planes (src_fmt inst)) pix_mp)
      | Some vpu_fmt =>
          (s32 (clamp (pix_width pix_mp) (min_width vpu_fmt)
                  (max_width vpu_fmt)),
           s32 (clamp (pix_height pix_mp) (min_height vpu_fmt)
                  (max_height vpu_fmt)),
           set_pix_tag (v4l2_pix_fmt vpu_fmt) (num_planes vpu_fmt) pix_mp)
      end in
    let pix1 := wave6_update_pix_fmt (snd r) (fst (fst r)) (snd (fst r)) in
    let pix2 :=
      match pix_ycbcr_enc pix1 with
      | V4L2_YCBCR_ENC_BT2020_CONST_LUM =>
          set_pix_ycbcr_enc V4L2_YCBCR_ENC_BT2020 pix1
      | _ => pix1
      end in
    let pix3 :=
      match pix_ycbcr_enc pix2 with
      | V4L2_YCBCR_ENC_XV601 | V4L2_YCBCR_ENC_XV709 =>
          match pix_quantization pix2 with
          | V4L2_QUANTIZATION_FULL_RANGE =>
              set_pix_quantization V4L2_QUANTIZATION_LIM_RANGE pix2
          | _ => pix2
          end
      | _ => pix2
      end in
    (0, pix3).

(** [wave6_vpu_enc_s_fmt_out]: the return value, the format handed back and
    the instance; [None] when the plane loop leaves the plane arrays. *)
Definition wave6_vpu_enc_s_fmt_out (is_output : bool)
  (pix_mp : v4l2_pix_format_mplane) (inst : enc_instance)
  : option (Z * v4l2_pix_format_mplane * enc_instance) :=
  let t := wave6_vpu_enc_try_fmt_out is_output pix_mp inst in
  let pix := snd t in
  if negb (fst t =? 0) then Some (fst t, pix, inst)
  else
    match wave6_find_vpu_fmt lim (pixelformat pix) VPU_FMT_TYPE_RAW with
    | None => Some (- EINVAL, pix, inst)
    | Some vpu_fmt =>
        match copy_planes (pix_num_planes pix) (plane_fmt pix)
                (plane_fmt (src_fmt inst)) with
        | None => None
        | Some planes =>
            let src :=
              {| pix_width := pix_width pix; pix_height := pix_height pix;
                 pixelformat := pixelformat pix; pix_field := pix_field pix;
                 pix_flags := pix_flags pix;
                 pix_num_planes := pix_num_planes pix;
                 plane_fmt := planes;
                 pix_colorspace := pix_colorspace (src_fmt inst);
                 pix_ycbcr_enc := pix_ycbcr_enc (src_fmt inst);
                 pix_quantization := pix_quantization (src_fmt inst);
                 pix_xfer_func := pix_xfer_func (src_fmt inst) |} in
            let v :=
              wave6_vpu_enc_set_roi_info hdr
                (wave6_update_crop_info hdr (vpu inst) 0 0
                   (pix_width pix) (pix_height pix)) in
            Some (0, pix,
                  {| vpu := v; src_fmt := src;
                     dst_fmt := wave6_update_pix_fmt (dst_fmt inst)
                                  (pix_width pix) (pix_height pix);
                     inst_cbcr_interleave := cbcr_interleave vpu_fmt;
                     inst_nv21 := nv21 vpu_fmt;
                     colorspace := pix_colorspace pix;
                     ycbcr_enc := pix_ycbcr_enc pix;
                     quantization := pix_quantization pix;
                     xfer_func := pix_xfer_func pix;
                     frame_rate := frame_rate inst;
                     enc_ctrls := enc_ctrls inst;
                     roi_mode := roi_mode inst;
                     queued_src_buf_num := queued_src_buf_num inst;
                     queued_dst_buf_num := queued_dst_buf_num inst |})
        end
    end.

(** [wave6_vpu_enc_g_fmt_out]; [None] when the plane loop leaves the plane
    arrays. *)
Definition wave6_vpu_enc_g_fmt_out (pix_mp : v4l2_pix_format_mplane)
  (inst : enc_instance) : option (Z * v4l2_pix_format_mplane) :=
  let src := src_fmt inst in
  match copy_planes (pix_num_planes src) (plane_fmt src) (plane_fmt pix_mp) with
  | None => None
  | Some planes =>
      Some (0, {| pix_width := pix_width src; pix_height := pix_height src;
                  pixelformat := pixelformat src; pix_field := pix_field src;
                  pix_flags := pix_flags src;
                  pix_num_planes := pix_num_planes src;
                  plane_fmt := planes;
                  pix_colorspace := colorspace inst;
                  pix_ycbcr_enc := ycbcr_enc inst;
                  pix_quantization := quantization inst;
                  pix_xfer_func := xfer_func inst |})
  end.

(** [wave6_set_enc_open_param], on the zeroed structure: the fields of
    [enc_open_param] above.  [ctu_size] and [num_ctu_row] are [u32]; the
    conformance window is [u32].  [None] is the division by a bitrate of
    zero in [wave6_cpb_size_msec].  (The per-codec parameters set at the end
    write none of these fields.) *)
Definition wave6_set_enc_open_param (inst : enc_instance)
  : option enc_open_param :=
  let ctrls := enc_ctrls inst in
  let v := vpu inst in
  let ctu_size := match std v with W_AVC_ENC => 16 | _ => 64 end in
  let num_ctu_row := ALIGN (pix_height (src_fmt inst)) ctu_size / ctu_size in
  match wave6_find_vpu_fmt lim (pixelformat (src_fmt inst)) VPU_FMT_TYPE_RAW with
  | None => Some zero_open_param
  | Some vpu_fmt =>
      match wave6_cpb_size_msec (u32 (ctrls h264_cpb_size))
              (u32 (ctrls bitrate)) with
      | None => None
      | Some cpb =>
          let period := u32 (ctrls intra_refresh_period) in
          let refresh :=
            if negb (ctrls intra_refresh_period =? 0)
            then (true,
                  if period <? num_ctu_row
                  then u32 (num_ctu_row + period - 1) / period
                  else 1)
            else (false, 0) in
          let left := u32 (r_left (crop v) - r_left (codec_rect v)) in
          let top := u32 (r_top (crop v) - r_top (codec_rect v)) in
          Some
            {| pic_width := r_width (codec_rect v);
               pic_height := r_height (codec_rect v);
               op_frame_rate := frame_rate inst;
               op_bitrate := ctrls bitrate;
               cpb_size := cpb;
               intra_refresh_row := fst refresh;
               intra_refresh_arg := snd refresh;
               color_range := to_video_full_range_flag (quantization inst);
               color_primaries := to_colour_primaries (colorspace inst);
               transfer_characteristics :=
                 to_transfer_characteristics V4L2_MAP_XFER_FUNC_DEFAULT
                   (colorspace inst) (xfer_func inst);
               matrix_coefficients :=
                 to_matrix_coeffs V4L2_MAP_YCBCR_ENC_DEFAULT
                   (colorspace inst) (ycbcr_enc inst);
               conf_win_left := left;
               conf_win_top := top;
               conf_win_right :=
                 u32 (r_width (codec_rect v) - r_width (crop v) - left);
               conf_win_bottom :=
                 u32 (r_height (codec_rect v) - r_height (crop v) - top) |}
      end
  end.

(** The size [wave6_vpu_open_enc] gives the ROI map buffer of the
    instance. *)
Definition open_custom_qp_map_size : Z :=
  wave6_vpu_enc_get_internal_ctu_count hdr W_AVC_ENC
    (W6_MAX_ENC_PIC_WIDTH lim) (W6_MAX_ENC_PIC_HEIGHT lim).

End Negotiation.

(** ** Further concrete data *)

(** A failed picture for the in-flight pair, with a second pair waiting. *)
Definition failed_picture_event : enc_output_info :=
  {| encoding_success := false; enc_src_idx := 0; recon_frame_index := 0;
     bitstream_buffer := 32768; bitstream_size := 0; avg_ctu_qp := 0;
     pic_type := PIC_TYPE_OTHER |}.

(** Stream start in which the frame buffers cannot be set up. *)
Definition stream_prepare_fb_fails : stream_fw :=
  {| fw_create := {| pm_resume_ret := 0; alloc_ar_ret := 0; enc_open_ret := 0 |};
     fw_seq_init := {| issue_seq_init_ret := 0; seq_init_wait_ret := 0;
                       complete_seq_init_ret := 0 |};
     prepare_fb_ret := -12 |}.

(** A running instance whose source buffers have all been encoded, with
    one free destination buffer. *)
Definition drained_instance : vpu_instance :=
  fresh_instance VPU_INST_STATE_PIC_RUN [] [mk_dst 0 32768 false] [].

(** Picture limits of a small device, for running the functions: pictures
    from 64x64 to 256x128, crop positions and sizes in steps of 2. *)
Definition small_limits : wave6_limits :=
  {| W6_MAX_ENC_PIC_WIDTH := 256; W6_MIN_ENC_PIC_WIDTH := 64;
     W6_MAX_ENC_PIC_HEIGHT := 128; W6_MIN_ENC_PIC_HEIGHT := 64;
     W6_ENC_CROP_STEP := 2 |}.

(** The flag and mode values of the V4L2 headers. *)
Definition sample_v4l2 : v4l2_defs :=
  {| V4L2_CAP_TIMEPERFRAME := 4096; V4L2_SEL_FLAG_GE := 1;
     V4L2_SEL_FLAG_LE := 2; V4L2_MPEG_VIDEO_ROI_MODE_MAP_DELTA_QP := 1 |}.

(** A format of one plane for running the functions: the stride is the
    width. *)
Definition plain_pix_fmt (tag : pixel_format) (w h : Z)
  : v4l2_pix_format_mplane :=
  {| pix_width := w; pix_height := h; pixelformat := tag;
     pix_field := 0; pix_flags := 0; pix_num_planes := 1;
     plane_fmt := {| sizeimage := w * h * 2; bytesperline := w |}
                  :: repeat {| sizeimage := 0; bytesperline := 0 |} 7;
     pix_colorspace := V4L2_COLORSPACE_DEFAULT;
     pix_ycbcr_enc := V4L2_YCBCR_ENC_DEFAULT;
     pix_quantization := V4L2_QUANTIZATION_DEFAULT;
     pix_xfer_func := V4L2_XFER_FUNC_DEFAULT |}.

(** A stand-in for [wave6_update_pix_fmt]: it stores the width and the
    height and sizes the first plane. *)
Definition plain_update_pix_fmt (p : v4l2_pix_format_mplane) (w h : Z)
  : v4l2_pix_format_mplane :=
  {| pix_width := w; pix_height := h; pixelformat := pixelformat p;
     pix_field := pix_field p; pix_flags := pix_flags p;
     pix_num_planes := pix_num_planes p;
     plane_fmt := {| sizeimage := w * h * 2; bytesperline := w |}
                  :: repeat {| sizeimage := 0; bytesperline := 0 |} 7;
     pix_colorspace := pix_colorspace p; pix_ycbcr_enc := pix_ycbcr_enc p;
     pix_quantization := pix_quantization p;
     pix_xfer_func := pix_xfer_func p |}.

(** The two default maps as videodev2.h defines them. *)
Definition map_xfer_func_default (c : v4l2_colorspace) : v4l2_xfer_func :=
  match c with
  | V4L2_COLORSPACE_OPRGB => V4L2_XFER_FUNC_OPRGB
  | V4L2_COLORSPACE_SMPTE240M => V4L2_XFER_FUNC_SMPTE240M
  | V4L2_COLORSPACE_DCI_P3 => V4L2_XFER_FUNC_DCI_P3
  | V4L2_COLORSPACE_RAW => V4L2_XFER_FUNC_NONE
  | V4L2_COLORSPACE_SRGB | V4L2_COLORSPACE_JPEG => V4L2_XFER_FUNC_SRGB
  | _ => V4L2_XFER_FUNC_709
  end.

Definition map_ycbcr_enc_default (c : v4l2_colorspace) : v4l2_ycbcr_encoding :=
  match c with
  | V4L2_COLORSPACE_REC709 | V4L2_COLORSPACE_DCI_P3 => V4L2_YCBCR_ENC_709
  | V4L2_COLORSPACE_BT2020 => V4L2_YCBCR_ENC_BT2020
  | V4L2_COLORSPACE_SMPTE240M => V4L2_YCBCR_ENC_SMPTE240M
  | _ => V4L2_YCBCR_ENC_601
  end.

(** Controls as the defaults of [wave6_vpu_open_enc] leave them, as far as
    the modelled functions read them: frame level rate control on, 2 Mbit/s,
    no forced key frame, no mirroring. *)
Definition default_controls : enc_controls :=
  set_ctrl bitrate 2097152 (set_ctrl frame_rc_enable 1 (fun _ => 0)).

(** An opened instance around [v], with a source format of the given tag,
    size and colorimetry. *)
Definition session (v : vpu_instance) (tag : pixel_format) (w h : Z)
  (enc : v4l2_ycbcr_encoding) (q : v4l2_quantization) : enc_instance :=
  {| vpu := v; src_fmt := plain_pix_fmt tag w h;
     dst_fmt := plain_pix_fmt V4L2_PIX_FMT_HEVC w h;
     inst_cbcr_interleave := false; inst_nv21 := false;
     colorspace := V4L2_COLORSPACE_DEFAULT; ycbcr_enc := enc;
     quantization := q; xfer_func := V4L2_XFER_FUNC_DEFAULT;
     frame_rate := 30; enc_ctrls := default_controls; roi_mode := 0;
     queued_src_buf_num := 0; queued_dst_buf_num := 0 |}.

(** A negotiation of an RGB source with the extended gamut encoding and the
    default quantization, on an instance that had an NV12 source. *)
Definition xv601_request : v4l2_pix_format_mplane :=
  set_pix_colorimetry V4L2_COLORSPACE_DEFAULT V4L2_YCBCR_ENC_XV601
    V4L2_QUANTIZATION_DEFAULT V4L2_XFER_FUNC_DEFAULT
    (plain_pix_fmt V4L2_PIX_FMT_RGB24 128 64).

Definition nv12_session : enc_instance :=
  session idle_instance V4L2_PIX_FMT_NV12 128 64 V4L2_YCBCR_ENC_DEFAULT
    V4L2_QUANTIZATION_DEFAULT.

Definition xv601_session
  : option (Z * v4l2_pix_format_mplane * enc_instance) :=
  wave6_vpu_enc_s_fmt_out sample_defs small_limits plain_update_pix_fmt true
    xv601_request nv12_session.

Definition xv601_negotiated_pix : v4l2_pix_format_mplane :=
  match xv601_session with
  | Some (_, p, _) => p
  | None => xv601_request
  end.

Definition xv601_negotiated : enc_instance :=
  match xv601_session with
  | Some (_, _, i) => i
  | None => nv12_session
  end.

(** The instance a control write leaves, [d] when the write faults. *)
Definition after_ctrl (r : option (Z * enc_instance)) (d : enc_instance)
  : enc_instance :=
  match r with
  | Some (_, i) => i
  | None => d
  end.

(** The horizontal flip switched on, and then off again. *)
Definition flipped : enc_instance :=
  after_ctrl (wave6_vpu_enc_s_ctrl V4L2_CID_HFLIP 1 [] 0 nv12_session)
    nv12_session.

Definition flipped_back : enc_instance :=
  after_ctrl (wave6_vpu_enc_s_ctrl V4L2_CID_HFLIP 0 [] 0 flipped) flipped.

(** * Properties *)

(** ** Arithmetic of the 32-bit macros *)

Lemma u32_small x : 0 <= x < 2 ^ 32 -> u32 x = x.
Proof. intros H. unfold u32. apply Z.mod_small. exact H. Qed.

Lemma u32_range x : 0 <= u32 x < 2 ^ 32.
Proof. unfold u32. apply Z.mod_pos_bound. reflexivity. Qed.

Lemma s32_small x : 0 <= x < 2 ^ 31 -> s32 x = x.
Proof.
  intros H. unfold s32. cbv zeta.
  rewrite Z.mod_small by lia.
  destruct (Z.ltb_spec x (2 ^ 31)); lia.
Qed.

Lemma land_le_l x m : 0 <= x -> 0 <= Z.land x m <= x.
Proof.
  intros Hx. split.
  - apply Z.land_nonneg. now left.
  - pose proof (Z.sub_land_same_l x m) as E.
    assert (0 <= Z.land x (Z.lnot m)) by (apply Z.land_nonneg; now left).
    lia.
Qed.

Lemma round_down_le x y : 0 <= x -> 0 <= round_down x y <= x.
Proof. intros. unfold round_down. now apply land_le_l. Qed.

Lemma u32_not_eq m : 0 <= m < 2 ^ 32 -> u32_not m = 2 ^ 32 - 1 - m.
Proof.
  intros H. unfold u32_not, u32.
  replace (Z.lnot m) with (- m - 1) by (unfold Z.lnot, Z.pred; lia).
  replace (- m - 1) with ((2 ^ 32 - 1 - m) + (-1) * 2 ^ 32) by lia.
  rewrite Z.mod_add by lia. apply Z.mod_small. lia.
Qed.

Lemma land_u32_not x m :
  0 <= x < 2 ^ 32 -> Z.land x (u32_not m) = x - Z.land x m.
Proof.
  intros Hx. unfold u32_not, u32.
  rewrite <- Z.land_ones by lia.
  rewrite (Z.land_comm (Z.lnot m)), Z.land_assoc.
  rewrite (Z.land_ones x) by lia.
  rewrite (Z.mod_small x) by lia.
  rewrite <- Z.sub_land_same_l. reflexivity.
Qed.

Lemma lor_ge_l a b : 0 <= a -> 0 <= b -> a <= Z.lor a b <= a + b.
Proof.
  intros Ha Hb. pose proof (Z.add_lor_land a b) as E.
  pose proof (land_le_l a b Ha).
  assert (0 <= Z.land b a <= b) by (apply land_le_l; lia).
  rewrite Z.land_comm in H0. lia.
Qed.

Lemma pow2_mask k : 0 <= k < 32 -> round_mask (2 ^ k) = Z.ones k.
Proof.
  intros Hk. unfold round_mask. rewrite Z.ones_equiv. unfold Z.pred.
  apply u32_small.
  assert (0 < 2 ^ k) by (apply Z.pow_pos_nonneg; lia).
  assert (2 ^ k <= 2 ^ 31) by (apply Z.pow_le_mono_r; lia).
  lia.
Qed.

Lemma round_down_pow2 x k :
  0 <= x < 2 ^ 32 -> 0 <= k < 32 -> round_down x (2 ^ k) = x - x mod 2 ^ k.
Proof.
  intros Hx Hk. unfold round_down. rewrite land_u32_not by exact Hx.
  rewrite pow2_mask by exact Hk. rewrite Z.land_ones by lia. reflexivity.
Qed.

Lemma round_up_pow2 e k :
  0 <= e -> 0 <= k < 32 -> e + 2 ^ k <= 2 ^ 32 ->
  round_up e (2 ^ k) = e + (2 ^ k - 1) - (e + (2 ^ k - 1)) mod 2 ^ k.
Proof.
  intros He Hk Hfit. unfold round_up. rewrite pow2_mask by exact Hk.
  assert (Hp : 0 < 2 ^ k) by (apply Z.pow_pos_nonneg; lia).
  destruct (Z.eq_dec e 0) as [-> | Hne].
  - change (u32 (0 - 1)) with (2 ^ 32 - 1).
    replace (Z.lor (2 ^ 32 - 1) (Z.ones k)) with (2 ^ 32 - 1).
    + change (u32 (2 ^ 32 - 1 + 1)) with 0.
      rewrite Z.add_0_l. rewrite Z.mod_small by lia. lia.
    + symmetry. change (2 ^ 32 - 1) with (Z.ones 32).
      apply Z.bits_inj'. intros n Hn. rewrite Z.lor_spec.
      destruct (Z.ltb_spec n 32).
      * rewrite Z.ones_spec_low by lia. reflexivity.
      * rewrite Z.ones_spec_high by lia. rewrite Z.ones_spec_high by lia. reflexivity.
  - rewrite (u32_small (e - 1)) by lia.
    pose proof (Z.add_lor_land (e - 1) (Z.ones k)) as E.
    rewrite Z.land_ones in E by lia.
    rewrite Z.ones_equiv in *. unfold Z.pred in *.
    pose proof (Z.mod_pos_bound (e - 1) (2 ^ k) Hp).
    rewrite u32_small by lia.
    replace (e + (2 ^ k - 1)) with ((e - 1) + 1 * 2 ^ k) by lia.
    rewrite Z.mod_add by lia. lia.
Qed.

(** ** Crop rectangle and codec rectangle *)

Section CropInfo.

Variable hdr : wave6_defs.
Variable inst : vpu_instance.

Lemma crop_info_fields left top width height :
  let inst' := wave6_update_crop_info hdr inst left top width height in
  std inst' = std inst /\ state inst' = state inst
  /\ roi_info inst' = roi_info inst /\ custom_qp_map inst' = custom_qp_map inst
  /\ m2m_ctx inst' = m2m_ctx inst.
Proof. cbv zeta. unfold wave6_update_crop_info. cbn. repeat split. Qed.

(** The four equations of the codec rectangle hold in 32-bit arithmetic
    whenever [left] and [top] fit the signed fields they are stored in. *)
Lemma crop_info_equations left top width height :
  0 <= left < 2 ^ 31 -> 0 <= top < 2 ^ 31 ->
  let c := codec_rect (wave6_update_crop_info hdr inst left top width height) in
  r_left c = round_down left (W6_ENC_CROP_X_POS_STEP hdr)
  /\ r_top c = round_down top (W6_ENC_CROP_Y_POS_STEP hdr)
  /\ r_width c = round_up (u32 (width + (left - r_left c))) (W6_ENC_PIC_SIZE_STEP hdr)
  /\ r_height c = round_up (u32 (height + (top - r_top c))) (W6_ENC_PIC_SIZE_STEP hdr).
Proof.
  intros Hl Ht. cbv zeta. unfold wave6_update_crop_info. cbn.
  pose proof (round_down_le left (W6_ENC_CROP_X_POS_STEP hdr) (proj1 Hl)).
  pose proof (round_down_le top (W6_ENC_CROP_Y_POS_STEP hdr) (proj1 Ht)).
  rewrite !s32_small by lia.
  repeat split; f_equal; f_equal; lia.
Qed.

End CropInfo.

Lemma round_up_ge e s :
  pow2_step s -> 0 <= e -> e + s <= 2 ^ 32 ->
  e <= round_up e s < e + s.
Proof.
  intros [k [Hk ->]] He Hfit.
  rewrite round_up_pow2 by assumption.
  assert (Hp : 0 < 2 ^ k) by (apply Z.pow_pos_nonneg; lia).
  pose proof (Z.mod_pos_bound (e + (2 ^ k - 1)) (2 ^ k) Hp). lia.
Qed.




(** The wrap does not depend on the sample constants: it happens for every
    size step that is a power of two other than 1. *)
Lemma round_up_wraps k :
  1 <= k < 32 -> round_up 4294967295 (2 ^ k) = 0.
Proof.
  intros Hk. unfold round_up. rewrite pow2_mask by lia.
  change (u32 (4294967295 - 1)) with (2 ^ 32 - 2).
  replace (Z.lor (2 ^ 32 - 2) (Z.ones k)) with (2 ^ 32 - 1); [reflexivity |].
  change (2 ^ 32 - 1) with (Z.ones 32).
  apply Z.bits_inj'. intros n Hn. rewrite Z.lor_spec.
  destruct (Z.ltb_spec n 32) as [Hlt | Hge].
  - rewrite Z.ones_spec_low by lia.
    destruct (Z.eq_dec n 0) as [-> | Hn0].
    + rewrite Z.ones_spec_low by lia. now rewrite orb_true_r.
    + replace (2 ^ 32 - 2) with (2 * Z.ones 31) by reflexivity.
      replace n with (Z.succ (n - 1)) by lia.
      rewrite Z.testbit_even_succ by lia.
      rewrite Z.ones_spec_low by lia. reflexivity.
  - rewrite (Z.ones_spec_high 32) by lia.
    rewrite (Z.ones_spec_high k) by lia.
    rewrite orb_false_r.
    replace (2 ^ 32 - 2) with (2 * Z.ones 31) by reflexivity.
    replace n with (Z.succ (n - 1)) by lia.
    rewrite Z.testbit_even_succ by lia.
    rewrite Z.ones_spec_high by lia. reflexivity.
Qed.

(** ** ROI geometry *)

Lemma v4l2_area_eqb_eq a b : v4l2_area_eqb a b = true <-> a = b.
Proof.
  destruct a as [w h], b as [w' h']. unfold v4l2_area_eqb. cbn.
  rewrite andb_true_iff, !Z.eqb_eq. split.
  - intros [-> ->]. reflexivity.
  - intros E. injection E as -> ->. split; reflexivity.
Qed.

Lemma roi_info_eqb_eq a b : roi_info_eqb a b = true <-> a = b.
Proof.
  destruct a, b. unfold roi_info_eqb. cbn.
  rewrite !andb_true_iff, !Z.eqb_eq, !v4l2_area_eqb_eq. split.
  - intros [[[[[[[-> ->] ->] ->] ->] ->] ->] ->]. reflexivity.
  - intros E. injection E as -> -> -> -> -> -> -> ->. repeat split.
Qed.

Lemma roi_info_eqb_refl a : roi_info_eqb a a = true.
Proof. now apply roi_info_eqb_eq. Qed.

Section RoiInfo.

Variable hdr : wave6_defs.


Lemma set_roi_info_same inst :
  roi_info inst = recomputed_roi_info hdr inst -> wave6_vpu_enc_set_roi_info hdr inst = inst.
Proof.
  intros E. unfold wave6_vpu_enc_set_roi_info. fold (recomputed_roi_info hdr inst).
  rewrite <- E. rewrite roi_info_eqb_refl. reflexivity.
Qed.

Lemma set_roi_info_changed inst :
  roi_info inst <> recomputed_roi_info hdr inst ->
  wave6_vpu_enc_set_roi_info hdr inst
  = set_roi (recomputed_roi_info hdr inst) (repeat 0 (length (custom_qp_map inst))) inst.
Proof.
  intros N. unfold wave6_vpu_enc_set_roi_info. fold (recomputed_roi_info hdr inst).
  destruct (roi_info_eqb (recomputed_roi_info hdr inst) (roi_info inst)) eqn:E.
  - apply roi_info_eqb_eq in E. congruence.
  - reflexivity.
Qed.

Lemma set_roi_info_stored inst :
  roi_info (wave6_vpu_enc_set_roi_info hdr inst) = recomputed_roi_info hdr inst.
Proof.
  unfold wave6_vpu_enc_set_roi_info. fold (recomputed_roi_info hdr inst).
  destruct (roi_info_eqb (recomputed_roi_info hdr inst) (roi_info inst)) eqn:E.
  - apply roi_info_eqb_eq in E. congruence.
  - reflexivity.
Qed.

Lemma set_roi_info_keeps_triple inst :
  recomputed_roi_info hdr (wave6_vpu_enc_set_roi_info hdr inst) = recomputed_roi_info hdr inst.
Proof.
  unfold wave6_vpu_enc_set_roi_info. fold (recomputed_roi_info hdr inst).
  destruct (roi_info_eqb (recomputed_roi_info hdr inst) (roi_info inst)); reflexivity.
Qed.

(** C3: the geometry depends on the codec standard, the width and the
    height only, so two instances that agree on them get the same stored
    geometry and a second computation on the same instance changes nothing;
    when the recomputed geometry equals the stored one the instance, and with
    it the map, is left as it was; when it differs the stored geometry is
    replaced, the map buffer keeps its size and every byte of it is zero. *)
Theorem roi_info_recomputation (inst other : vpu_instance) :
  let inst' := wave6_vpu_enc_set_roi_info hdr inst in
  (std other = std inst ->
   r_width (codec_rect other) = r_width (codec_rect inst) ->
   r_height (codec_rect other) = r_height (codec_rect inst) ->
   roi_info (wave6_vpu_enc_set_roi_info hdr other) = roi_info inst')
  /\ wave6_vpu_enc_set_roi_info hdr inst' = inst'
  /\ (roi_info inst = recomputed_roi_info hdr inst -> inst' = inst)
  /\ (roi_info inst <> recomputed_roi_info hdr inst ->
      roi_info inst' = recomputed_roi_info hdr inst
      /\ custom_qp_map inst' = repeat 0 (length (custom_qp_map inst))
      /\ length (custom_qp_map inst') = length (custom_qp_map inst)
      /\ Forall (fun b => b = 0) (custom_qp_map inst')).
Proof.
  intros inst'. split; [| split; [| split]].
  - intros Es Ew Eh. unfold inst'. rewrite !set_roi_info_stored.
    unfold recomputed_roi_info. rewrite Es, Ew, Eh. reflexivity.
  - apply set_roi_info_same. unfold inst'.
    rewrite set_roi_info_stored, set_roi_info_keeps_triple. reflexivity.
  - apply set_roi_info_same.
  - intros N. unfold inst'. rewrite (set_roi_info_changed inst N). cbn.
    repeat split.
    + apply repeat_length.
    + apply Forall_forall. intros b Hb. now apply repeat_spec in Hb.
Qed.

End RoiInfo.

(** An instance whose codec rectangle is 1920x1080 and whose map holds
    non-zero bytes, before any geometry was stored. *)
Lemma roi_info_recomputation_witness :
  let inst := wave6_update_crop_info sample_defs
                (fresh_instance VPU_INST_STATE_NONE [] [] [7; 7; 7]) 0 0 1920 1080 in
  let inst' := wave6_vpu_enc_set_roi_info sample_defs inst in
  custom_qp_map inst' = [0; 0; 0]
  /\ wave6_vpu_enc_set_roi_info sample_defs inst' = inst'
  /\ custom_qp_map
       (wave6_vpu_enc_set_roi_info sample_defs
          (set_roi (roi_info inst') [1; 2; 3] inst)) = [1; 2; 3].
Proof.
  intros inst inst'.
  destruct (roi_info_recomputation sample_defs inst inst) as (_ & Hidem & _ & Hchg).
  destruct (roi_info_recomputation sample_defs
              (set_roi (roi_info inst') [1; 2; 3] inst) inst) as (_ & _ & Hsame & _).
  split; [| split].
  - apply Hchg. vm_compute. discriminate.
  - exact Hidem.
  - rewrite Hsame; reflexivity.
Defined.

(** ** ROI map size for the 32x32 CTU, 2x2 group family *)

(** C4: outside the AVC branch the map size for a 1920x1080 codec rectangle
    is [ceil(1920/64) * ceil(1080/64) * 4 = 2040], the column count being
    taken through the CTU width alignment constant; this holds for every
    alignment constant that is a power of two up to 128. *)
Theorem roi_map_size_1920x1080 (hdr : wave6_defs) (std : codec_std) (k : Z) :
  std <> W_AVC_ENC ->
  0 <= k <= 7 -> W6_ENC_CTU_WIDTH_ALIGNMENT hdr = 2 ^ k ->
  let roi := wave6_vpu_enc_get_roi_info hdr std 1920 1080 in
  ctu roi = {| a_width := 32; a_height := 32 |}
  /\ group roi = {| a_width := 2; a_height := 2 |}
  /\ num_group_col roi
     = DIV_ROUND_UP (ALIGN 1920 (W6_ENC_CTU_WIDTH_ALIGNMENT hdr)) 64
  /\ custom_map_size roi = DIV_ROUND_UP 1920 64 * DIV_ROUND_UP 1080 64 * 4
  /\ custom_map_size roi = 2040
  /\ wave6_vpu_enc_get_internal_ctu_count hdr std 1920 1080 = 2040.
Proof.
  intros Hstd Hk HA. cbv zeta.
  unfold wave6_vpu_enc_get_internal_ctu_count, wave6_vpu_enc_get_roi_info.
  rewrite HA.
  assert (Hcases : k = 0 \/ k = 1 \/ k = 2 \/ k = 3 \/ k = 4 \/ k = 5
                   \/ k = 6 \/ k = 7) by lia.
  destruct std; [| congruence |];
    repeat (destruct Hcases as [-> | Hcases]); try subst k;
    repeat split; reflexivity.
Qed.

Lemma roi_map_size_1920x1080_witness :
  custom_map_size (wave6_vpu_enc_get_roi_info sample_defs W_HEVC_ENC 1920 1080)
  = 2040.
Proof.
  apply (roi_map_size_1920x1080 sample_defs W_HEVC_ENC 6).
  - discriminate.
  - lia.
  - reflexivity.
Defined.

(** With a wider alignment constant the column count, and with it the map
    size, is larger. *)
Lemma roi_map_size_alignment_256 (hdr : wave6_defs) :
  W6_ENC_CTU_WIDTH_ALIGNMENT hdr = 256 ->
  custom_map_size (wave6_vpu_enc_get_roi_info hdr W_HEVC_ENC 1920 1080) = 2176.
Proof.
  intros HA. unfold wave6_vpu_enc_get_roi_info. rewrite HA. reflexivity.
Qed.

(** ** The ROI map writer *)

Lemma in_zrange n i : In i (zrange n) <-> 0 <= i < n.
Proof.
  unfold zrange. rewrite in_map_iff. split.
  - intros [k [<- Hk]]. apply in_seq in Hk. lia.
  - intros Hi. exists (Z.to_nat i). split; [lia |]. apply in_seq. lia.
Qed.




Lemma ALIGN_bounds w a :
  0 <= w -> 1 <= a -> w + a <= 2 ^ 32 -> w <= ALIGN w a <= w + a - 1.
Proof.
  intros Hw Ha Hfit. unfold ALIGN.
  rewrite (u32_small (a - 1)) by lia.
  rewrite (u32_small (w + (a - 1))) by lia.
  rewrite land_u32_not by lia.
  assert (0 <= Z.land (a - 1) (w + (a - 1)) <= a - 1) by (apply land_le_l; lia).
  rewrite Z.land_comm in H. lia.
Qed.

(** The geometry computed for dimensions and an alignment constant of at
    most 65536 is one the map writer can rely on. *)
Lemma get_roi_info_ok hdr sd w h :
  0 <= w <= 65536 -> 0 <= h <= 65536 ->
  1 <= W6_ENC_CTU_WIDTH_ALIGNMENT hdr <= 65536 ->
  roi_geometry_ok (wave6_vpu_enc_get_roi_info hdr sd w h).
Proof.
  intros Hw Hh HA.
  pose proof (ALIGN_bounds w (W6_ENC_CTU_WIDTH_ALIGNMENT hdr)) as HAL.
  assert (HAL' : w <= ALIGN w (W6_ENC_CTU_WIDTH_ALIGNMENT hdr) <= w + 65535) by lia.
  clear HAL. set (al := ALIGN w (W6_ENC_CTU_WIDTH_ALIGNMENT hdr)) in *.
  unfold roi_geometry_ok, wave6_vpu_enc_get_roi_info. fold al.
  assert (Havc :
    exists g c, (g = 1 /\ c = 16 \/ g = 2 /\ c = 32)
    /\ match sd with W_AVC_ENC => {| a_width := 16; a_height := 16 |}
                   | _ => {| a_width := 32; a_height := 32 |} end
       = {| a_width := c; a_height := c |}
    /\ match sd with W_AVC_ENC => {| a_width := 1; a_height := 1 |}
                   | _ => {| a_width := 2; a_height := 2 |} end
       = {| a_width := g; a_height := g |}).
  { destruct sd; [exists 2, 32 | exists 1, 16 | exists 2, 32]; intuition. }
  destruct Havc as (g & c & Hgc & -> & ->).
  cbn [a_width a_height ctu group num_ctu_col num_ctu_row num_ctu
       num_group_col num_group_row custom_map_size].
  unfold DIV_ROUND_UP.
  assert (Hcg : u32 (c * g) = c * g) by (apply u32_small; lia).
  assert (Hgg : u32 (g * g) = g * g) by (apply u32_small; lia).
  rewrite Hcg, Hgg.
  rewrite (u32_small (w + c - 1)) by lia.
  rewrite (u32_small (h + c - 1)) by lia.
  rewrite (u32_small (al + c * g - 1)) by lia.
  rewrite (u32_small (h + c * g - 1)) by lia.
  assert (Bc : 0 <= (w + c - 1) / c <= 4097).
  { destruct Hgc as [[-> ->] | [-> ->]]; Z.div_mod_to_equations; lia. }
  assert (Br : 0 <= (h + c - 1) / c <= 4097).
  { destruct Hgc as [[-> ->] | [-> ->]]; Z.div_mod_to_equations; lia. }
  assert (Bgc : 0 <= (al + c * g - 1) / (c * g) <= 8193).
  { destruct Hgc as [[-> ->] | [-> ->]]; Z.div_mod_to_equations; lia. }
  assert (Bgr : 0 <= (h + c * g - 1) / (c * g) <= 4097).
  { destruct Hgc as [[-> ->] | [-> ->]]; Z.div_mod_to_equations; lia. }
  assert (Cc : (w + c - 1) / c <= g * ((al + c * g - 1) / (c * g))).
  { destruct Hgc as [[-> ->] | [-> ->]]; Z.div_mod_to_equations; lia. }
  assert (Cr : (h + c - 1) / c <= g * ((h + c * g - 1) / (c * g))).
  { destruct Hgc as [[-> ->] | [-> ->]]; Z.div_mod_to_equations; lia. }
  set (ncol := (w + c - 1) / c) in *.
  set (nrow := (h + c - 1) / c) in *.
  set (ngc := (al + c * g - 1) / (c * g)) in *.
  set (ngr := (h + c * g - 1) / (c * g)) in *.
  assert (P1 : 0 <= ncol * nrow <= 4097 * 4097) by nia.
  assert (P2 : 0 <= ngc * ngr <= 8193 * 4097) by nia.
  assert (P3 : 0 <= ngc * ngr * (g * g) <= 8193 * 4097 * 4) by nia.
  rewrite (u32_small (ncol * nrow)) by lia.
  rewrite (u32_small (ngc * ngr)) by lia.
  rewrite (u32_small (ngc * ngr * (g * g))) by lia.
  exists g. repeat split; try lia.
Qed.

Section RoiMap.

Variable roi : vpu_roi_map_info.
Hypothesis Hok : roi_geometry_ok roi.

(** The offset computed in 32-bit arithmetic is the plain one. *)
Lemma roi_map_offset_plain i j :
  0 <= i < num_ctu_row roi -> 0 <= j < num_ctu_col roi ->
  let g := a_width (group roi) in
  roi_map_offset roi i j
  = (num_group_col roi * (i / g) + j / g) * (g * g) + (g * (i mod g) + j mod g)
  /\ 0 <= roi_map_offset roi i j < custom_map_size roi.
Proof.
  intros Hi Hj. destruct Hok as (g & Hg & Eg & Hc & Hr & Cc & Cr & _ & _ & Es & Hs).
  cbv zeta. unfold roi_map_offset. rewrite Eg.
  cbn [a_width a_height].
  set (ngc := num_group_col roi) in *. set (ngr := num_group_row roi) in *.
  assert (Ba : 0 <= i / g < ngr).
  { destruct Hg as [-> | ->]; Z.div_mod_to_equations; lia. }
  assert (Bb : 0 <= j / g < ngc).
  { destruct Hg as [-> | ->]; Z.div_mod_to_equations; lia. }
  assert (Bs : 0 <= g * (i mod g) + j mod g < g * g).
  { destruct Hg as [-> | ->]; Z.div_mod_to_equations; lia. }
  set (a := i / g) in *. set (b := j / g) in *.
  set (s := g * (i mod g) + j mod g) in *.
  assert (Bi : 0 <= ngc * a + b < ngc * ngr) by nia.
  assert (Bo : 0 <= (ngc * a + b) * (g * g) + s < ngc * ngr * (g * g)) by nia.
  rewrite (s32_small s) by (destruct Hg as [-> | ->]; lia).
  rewrite (s32_small (ngc * a + b)) by nia.
  replace ((ngc * a + b) * g * g) with ((ngc * a + b) * (g * g)) by ring.
  rewrite u32_small by nia. split; [reflexivity | lia].
Qed.


End RoiMap.

Lemma flat_map_map_pairs {A B C} (f : A -> B -> C) (l : list A) (l' : list B) :
  flat_map (fun a => map (fun b => f a b) l') l
  = map (fun p => f (fst p) (snd p)) (list_prod l l').
Proof.
  induction l as [| a l IH]; cbn; [reflexivity |].
  rewrite map_app, map_map, IH. reflexivity.
Qed.

Lemma roi_map_stores_positions roi user_map :
  roi_map_stores roi user_map
  = map (fun p => (roi_map_offset roi (fst p) (snd p),
                   roi_map_item roi user_map (fst p) (snd p)))
        (ctu_positions roi).
Proof.
  unfold roi_map_stores, ctu_positions.
  apply (flat_map_map_pairs
           (fun i j => (roi_map_offset roi i j, roi_map_item roi user_map i j))).
Qed.

Lemma in_ctu_positions roi i j :
  In (i, j) (ctu_positions roi)
  <-> 0 <= i < num_ctu_row roi /\ 0 <= j < num_ctu_col roi.
Proof. unfold ctu_positions. now rewrite in_prod_iff, !in_zrange. Qed.


(** *** Stores into a byte buffer *)

Lemma length_upd_nth {A} n (f : A -> A) l : length (upd_nth n f l) = length l.
Proof.
  revert n. induction l as [| x l IH]; intros [| n]; cbn; try reflexivity.
  now rewrite IH.
Qed.




Lemma store_all_total m ws :
  Forall (fun s => 0 <= fst s < Z.of_nat (length m)) ws ->
  exists m', store_all m ws = Some m' /\ length m' = length m.
Proof.
  revert m. induction ws as [| [off v] ws IH]; intros m H; cbn.
  - exists m. split; reflexivity.
  - inversion H as [| ? ? Hhd Htl]; subst. cbn in Hhd.
    unfold store_byte.
    destruct (Z.leb_spec 0 off); [| lia].
    destruct (Z.ltb_spec off (Z.of_nat (length m))); [| lia]. cbn.
    destruct (IH (upd_nth (Z.to_nat off) (fun _ => v) m)) as (m' & E & L).
    + rewrite length_upd_nth. exact Htl.
    + exists m'. split; [exact E |]. now rewrite L, length_upd_nth.
Qed.





(** ** Bounded waits *)

(** C1 (the code departs from it): when the sequence-init command is accepted
    and the wait for its completion times out, [ret] still holds the 0 of the
    accepted command and is what the function returns, with the instance
    left in its state; the wait for a sequence change returns 0 in the same
    way. *)
Theorem seq_wait_timeout_returns_success (init : seq_init_fw)
  (chg : seq_change_fw) (inst : vpu_instance) :
  issue_seq_init_ret init = 0 -> seq_init_wait_ret init < 0 ->
  issue_seq_change_ret chg = 0 -> seq_changed chg = true ->
  seq_change_wait_ret chg < 0 ->
  wave6_vpu_enc_initialize_instance init inst = (0, inst)
  /\ wave6_update_seq_param chg = 0.
Proof.
  intros Hi Hw Hc Hch Hcw. split.
  - unfold wave6_vpu_enc_initialize_instance. rewrite Hi. cbn.
    destruct (Z.ltb_spec (seq_init_wait_ret init) 0); [reflexivity | lia].
  - unfold wave6_update_seq_param. rewrite Hc, Hch. cbn.
    destruct (Z.ltb_spec (seq_change_wait_ret chg) 0); reflexivity.
Qed.

Lemma seq_wait_timeout_returns_success_witness :
  wave6_vpu_enc_initialize_instance (fw_seq_init stream_seq_init_timeout)
    (fresh_instance VPU_INST_STATE_OPEN [] [] [])
  = (0, fresh_instance VPU_INST_STATE_OPEN [] [] [])
  /\ wave6_update_seq_param (fw_seq_change cycle_seq_change_timeout) = 0.
Proof.
  apply (seq_wait_timeout_returns_success
           (fw_seq_init stream_seq_init_timeout)
           (fw_seq_change cycle_seq_change_timeout)).
  - reflexivity.
  - simpl; lia.
  - reflexivity.
  - reflexivity.
  - simpl; lia.
Defined.

(** What follows from it: stream start reports success with the instance
    left in OPEN, and an encode cycle goes on to submit a picture. *)
Lemma start_streaming_after_timeout :
  wave6_vpu_enc_start_streaming DST_QUEUE true stream_seq_init_timeout
    idle_instance
  = (0, wave6_vpu_set_instance_state VPU_INST_STATE_OPEN idle_instance).
Proof. reflexivity. Qed.

Lemma start_encode_after_timeout :
  exists pp isub,
    wave6_vpu_enc_start_encode cycle_seq_change_timeout
      (fresh_instance VPU_INST_STATE_PIC_RUN
         [mk_src 0 4096 false] [mk_dst 0 32768 false] [])
    = (0, isub, Some (pp, isub)) /\ src_idx pp = 0 /\ src_end pp = false.
Proof. eexists. eexists. split; [reflexivity | split; reflexivity]. Qed.

(** ** Queue pair coordinator *)

Lemma find_pos_some {A} (p : A -> bool) l n x :
  find_pos p l = Some (n, x) -> nth_error l n = Some x /\ p x = true.
Proof.
  revert n. induction l as [| y l IH]; intros n H; cbn in H; [discriminate |].
  destruct (p y) eqn:Py.
  - injection H as <- <-. split; [reflexivity | exact Py].
  - destruct (find_pos p l) as [[k z] |]; [| discriminate].
    injection H as <- <-. cbn. now apply IH.
Qed.

Lemma find_pos_none {A} (p : A -> bool) l :
  find_pos p l = None <-> forall x, In x l -> p x = false.
Proof.
  induction l as [| y l IH]; cbn.
  - split; [intros _ x [] | reflexivity].
  - destruct (p y) eqn:Py.
    + split; [discriminate |]. intros H. rewrite (H y) in Py by now left.
      discriminate.
    + destruct (find_pos p l) as [[k z] |].
      * split; [discriminate |]. intros H.
        assert (N : Some (k, z) = None).
        { apply IH. intros x Hx. apply H. now right. }
        discriminate.
      * split; [| reflexivity]. intros _ x [<- | Hx]; [exact Py |].
        now apply IH.
Qed.

Lemma nth_error_upd_nth {A} n (f : A -> A) l x :
  nth_error l n = Some x -> nth_error (upd_nth n f l) n = Some (f x).
Proof.
  revert n. induction l as [| y l IH]; intros [| n] H; cbn in *;
    try discriminate.
  - now injection H as ->.
  - now apply IH.
Qed.

Section StartEncode.

Variable fw : enc_cycle_fw.
Variable inst : vpu_instance.

Lemma start_encode_seq_change_failed :
  wave6_update_seq_param (fw_seq_change fw) <> 0 ->
  wave6_vpu_enc_start_encode fw inst
  = (wave6_update_seq_param (fw_seq_change fw), inst, None).
Proof.
  intros N. unfold wave6_vpu_enc_start_encode.
  destruct (Z.eqb_spec (wave6_update_seq_param (fw_seq_change fw)) 0);
    [contradiction | reflexivity].
Qed.

Lemma start_encode_no_dst :
  wave6_get_valid_dst_buf inst = None ->
  wave6_vpu_enc_start_encode fw inst
  = (wave6_update_seq_param (fw_seq_change fw), inst, None).
Proof.
  intros N. unfold wave6_vpu_enc_start_encode. rewrite N.
  destruct (negb _); reflexivity.
Qed.

(** The instance handed to the firmware by the second half of the cycle has
    the selected buffers marked. *)
Lemma submit_marks_consumed i spos dpos pp :
  exists isub,
    snd (wave6_vpu_enc_start_encode_submit fw i spos dpos pp) = Some (pp, isub)
    /\ dst_rdy (m2m_ctx isub)
       = upd_nth dpos (fun b => set_used true (set_consumed true b))
           (dst_rdy (m2m_ctx i))
    /\ src_rdy (m2m_ctx isub)
       = match spos with
         | Some n => upd_nth n (set_consumed true) (src_rdy (m2m_ctx i))
         | None => src_rdy (m2m_ctx i)
         end.
Proof.
  unfold wave6_vpu_enc_start_encode_submit.
  destruct (negb (start_one_frame_ret fw =? 0));
    eexists; (split; [reflexivity |]); destruct spos; split; reflexivity.
Qed.

End StartEncode.

(** C5, as amended: the selection rules of the encode cycle hold for every
    cycle whose sequence-parameter update succeeds; a cycle whose update
    fails returns at once, whatever the queues and the state are.  Without
    an unconsumed output buffer nothing is submitted and the instance is as
    before; with one and no unconsumed input buffer an end-of-stream request
    (source-end set, zero source frame) is submitted when the state is STOP
    and nothing is submitted otherwise; and in the instance handed over with
    a request the selected buffers are marked consumed. *)
Theorem encode_cycle_selection (fw : enc_cycle_fw) (inst : vpu_instance) :
  let r := wave6_vpu_enc_start_encode fw inst in
  let seq_ret := wave6_update_seq_param (fw_seq_change fw) in
  (seq_ret <> 0 -> r = (seq_ret, inst, None))
  /\ (wave6_get_valid_dst_buf inst = None -> r = (seq_ret, inst, None))
  /\ (seq_ret = 0 ->
      forall dpos dst,
        wave6_get_valid_dst_buf inst = Some (dpos, dst) ->
        wave6_get_valid_src_buf inst = None ->
        (state inst = VPU_INST_STATE_STOP ->
         exists pp isub,
           snd r = Some (pp, isub) /\ src_end pp = true
           /\ source_frame pp = zero_frame
           /\ pic_stream_buffer_addr pp = vb_daddr dst)
        /\ (state inst <> VPU_INST_STATE_STOP -> r = (0, inst, None)))
  /\ (forall pp isub,
        snd r = Some (pp, isub) ->
        seq_ret = 0
        /\ exists dpos dst,
             wave6_get_valid_dst_buf inst = Some (dpos, dst)
             /\ consumed dst = false
             /\ nth_error (dst_rdy (m2m_ctx isub)) dpos
                = Some (set_used true (set_consumed true dst))
             /\ match wave6_get_valid_src_buf inst with
                | Some (spos, src) =>
                    consumed src = false /\ src_end pp = false
                    /\ nth_error (src_rdy (m2m_ctx isub)) spos
                       = Some (set_consumed true src)
                | None =>
                    src_end pp = true /\ state inst = VPU_INST_STATE_STOP
                    /\ src_rdy (m2m_ctx isub) = src_rdy (m2m_ctx inst)
                end).
Proof.
  intros r seq_ret. split; [| split; [| split]].
  - apply start_encode_seq_change_failed.
  - apply start_encode_no_dst.
  - intros Hseq dpos dst Hd Hs. unfold r, wave6_vpu_enc_start_encode.
    fold seq_ret. rewrite Hseq, Hd, Hs. cbn [Z.eqb negb]. split.
    + intros Hst. rewrite Hst. cbn [state_eqb].
      destruct (submit_marks_consumed fw inst None dpos
                  (set_src_end true
                     {| pic_stream_buffer_addr := vb_daddr dst;
                        pic_stream_buffer_size := vb_plane_size dst;
                        src_end := false; src_idx := 0;
                        force_pic_type_enable := false;
                        force_pic_qp_enable := false;
                        source_frame := zero_frame |})) as (isub & E & _).
      eexists. exists isub. split; [exact E |]. repeat split.
    + intros Hst. destruct (state inst); try reflexivity. contradiction.
  - intros pp isub. unfold r, wave6_vpu_enc_start_encode. fold seq_ret.
    destruct (Z.eqb_spec seq_ret 0) as [Hseq | Hseq]; cbn [negb];
      [| discriminate].
    destruct (wave6_get_valid_dst_buf inst) as [[dpos dst] |] eqn:Hd;
      [| discriminate].
    pose proof (find_pos_some _ _ _ _ Hd) as [Hnd Hcd].
    apply negb_true_iff in Hcd.
    destruct (wave6_get_valid_src_buf inst) as [[spos src] |] eqn:Hs.
    + pose proof (find_pos_some _ _ _ _ Hs) as [Hns Hcs].
      apply negb_true_iff in Hcs.
      match goal with
      | |- snd (wave6_vpu_enc_start_encode_submit fw ?i ?sp ?dp ?q) = _ -> _ =>
          destruct (submit_marks_consumed fw i sp dp q) as (isub' & E & Ed & Es)
      end.
      rewrite E. intros H. injection H as <- <-.
      split; [exact Hseq |]. exists dpos, dst.
      split; [reflexivity | split; [exact Hcd | split]].
      * rewrite Ed.
        apply (nth_error_upd_nth dpos
                 (fun b => set_used true (set_consumed true b))).
        destruct (force_key_frame src || error_recovery inst); exact Hnd.
      * split; [exact Hcs | split; [reflexivity |]].
        rewrite Es. apply nth_error_upd_nth.
        destruct (force_key_frame src || error_recovery inst); exact Hns.
    + destruct (state inst) eqn:Hst; cbn [state_eqb]; try discriminate.
      match goal with
      | |- snd (wave6_vpu_enc_start_encode_submit fw ?i ?sp ?dp ?q) = _ -> _ =>
          destruct (submit_marks_consumed fw i sp dp q) as (isub' & E & Ed & Es)
      end.
      rewrite E. intros H. injection H as <- <-.
      split; [exact Hseq |]. exists dpos, dst.
      split; [reflexivity | split; [exact Hcd | split]].
      * rewrite Ed.
        now apply (nth_error_upd_nth dpos
                     (fun b => set_used true (set_consumed true b))).
      * split; [reflexivity | split; [reflexivity | exact Es]].
Qed.

Lemma encode_cycle_selection_witness :
  (exists pp isub,
     snd (wave6_vpu_enc_start_encode cycle_ok
            (fresh_instance VPU_INST_STATE_STOP [] [mk_dst 0 32768 false] []))
     = Some (pp, isub)
     /\ src_end pp = true /\ source_frame pp = zero_frame
     /\ pic_stream_buffer_addr pp = 32768)
  /\ wave6_vpu_enc_start_encode cycle_ok
       (fresh_instance VPU_INST_STATE_PIC_RUN [] [mk_dst 0 32768 false] [])
     = (0, fresh_instance VPU_INST_STATE_PIC_RUN [] [mk_dst 0 32768 false] [],
        None).
Proof.
  split.
  - destruct (encode_cycle_selection cycle_ok
                (fresh_instance VPU_INST_STATE_STOP [] [mk_dst 0 32768 false] []))
      as (_ & _ & H & _).
    apply (H eq_refl 0%nat (mk_dst 0 32768 false)); reflexivity.
  - destruct (encode_cycle_selection cycle_ok
                (fresh_instance VPU_INST_STATE_PIC_RUN [] [mk_dst 0 32768 false] []))
      as (_ & _ & H & _).
    apply (H eq_refl 0%nat (mk_dst 0 32768 false)); try reflexivity.
    discriminate.
Defined.

(** C5, as stated, fails: the instance is in STOP, a free output buffer is
    queued and no input buffer is, yet no end-of-stream request is submitted
    because the sequence-change command was rejected. *)
Lemma encode_cycle_aborted_in_stop :
  let inst := fresh_instance VPU_INST_STATE_STOP [] [mk_dst 0 32768 false] [] in
  state inst = VPU_INST_STATE_STOP
  /\ wave6_get_valid_dst_buf inst = Some (0%nat, mk_dst 0 32768 false)
  /\ wave6_get_valid_src_buf inst = None
  /\ wave6_vpu_enc_start_encode cycle_seq_change_rejected inst
     = (-5, inst, None).
Proof. cbv zeta. repeat split. Qed.

(** *** Failed submission *)

Section FailedSubmission.

Variable fw : enc_cycle_fw.
Hypothesis Hfail : start_one_frame_ret fw <> 0.

(** After a failed submission the instance is in STOP; the three counters
    advance by one when the source ready queue is not empty and stay as they
    are when it is empty. *)
Lemma failed_submission_counters inst spos dpos pp :
  let inst' := snd (fst (wave6_vpu_enc_start_encode_submit fw inst spos dpos pp)) in
  state inst' = VPU_INST_STATE_STOP
  /\ (src_rdy (m2m_ctx inst) <> [] ->
      sequence inst' = sequence inst + 1
      /\ processed_buf_num inst' = processed_buf_num inst + 1
      /\ error_buf_num inst' = error_buf_num inst + 1)
  /\ (src_rdy (m2m_ctx inst) = [] ->
      sequence inst' = sequence inst
      /\ processed_buf_num inst' = processed_buf_num inst
      /\ error_buf_num inst' = error_buf_num inst).
Proof.
  cbv zeta. unfold wave6_vpu_enc_start_encode_submit.
  destruct (Z.eqb_spec (start_one_frame_ret fw) 0) as [E | _];
    [contradiction |]. cbn [negb fst snd].
  unfold v4l2_m2m_dst_buf_remove, v4l2_m2m_src_buf_remove.
  destruct inst as [sd st lg cr cd ri mp sq pn en eo er [sr dr sb se de rt]].
  cbn.
  destruct spos as [n |]; destruct sr as [| s0 sr]; cbn;
    destruct (upd_nth dpos _ dr) as [| d0 dr'] eqn:Ed; cbn;
    try (destruct n; cbn); repeat split; intros; congruence.
Qed.

(** When the attached buffers are the heads of the two ready queues, they
    are the ones completed with an error. *)
Lemma failed_submission_heads inst s0 sr d0 dr pp :
  src_rdy (m2m_ctx inst) = s0 :: sr -> dst_rdy (m2m_ctx inst) = d0 :: dr ->
  let inst' :=
    snd (fst (wave6_vpu_enc_start_encode_submit fw inst (Some 0%nat) 0%nat pp)) in
  returned (m2m_ctx inst')
  = (SRC_QUEUE, set_consumed true s0, VB2_BUF_STATE_ERROR)
    :: (DST_QUEUE,
        set_vb_sequence (sequence inst) (set_used true (set_consumed true d0)),
        VB2_BUF_STATE_ERROR)
    :: returned (m2m_ctx inst)
  /\ src_rdy (m2m_ctx inst') = sr /\ dst_rdy (m2m_ctx inst') = dr.
Proof.
  intros Es Ed. cbv zeta. unfold wave6_vpu_enc_start_encode_submit.
  destruct (Z.eqb_spec (start_one_frame_ret fw) 0) as [E | _];
    [contradiction |]. cbn [negb fst snd].
  unfold v4l2_m2m_dst_buf_remove, v4l2_m2m_src_buf_remove.
  destruct inst as [sd st lg cr cd ri mp sq pn en eo er [sr' dr' sb se de rt]].
  cbn in Es, Ed. subst sr' dr'. cbn. repeat split.
Qed.

End FailedSubmission.

(** C6 (the code departs from it): the buffers completed with an error after
    a failed submission are the heads of the two ready queues, not the
    buffers attached to the failed request.  With an older pair still in
    flight, the older pair is returned and the attached pair stays queued and
    marked consumed; and a failed end-of-stream request, which carries no
    input buffer, still returns the in-flight input buffer at the head of the
    queue and advances the three counters. *)
Theorem failed_submission_retires_queue_heads :
  (let r := wave6_vpu_enc_start_encode cycle_submit_fails pipelined_instance in
   let inst' := snd (fst r) in
   fst (fst r) = -22
   /\ (exists pp isub, snd r = Some (pp, isub)
                       /\ src_idx pp = 1 /\ pic_stream_buffer_addr pp = 36864)
   /\ state inst' = VPU_INST_STATE_STOP
   /\ returned (m2m_ctx inst')
      = [(SRC_QUEUE, mk_src 0 4096 true, VB2_BUF_STATE_ERROR);
         (DST_QUEUE, mk_dst 0 32768 true, VB2_BUF_STATE_ERROR)]
   /\ src_rdy (m2m_ctx inst') = [mk_src 1 8192 true]
   /\ dst_rdy (m2m_ctx inst') = [mk_dst 1 36864 true]
   /\ sequence inst' = 1 /\ processed_buf_num inst' = 1
   /\ error_buf_num inst' = 1)
  /\ (let r := wave6_vpu_enc_start_encode cycle_submit_fails draining_instance in
      let inst' := snd (fst r) in
      (exists pp isub, snd r = Some (pp, isub) /\ src_end pp = true
                       /\ source_frame pp = zero_frame)
      /\ returned (m2m_ctx inst')
         = [(SRC_QUEUE, mk_src 0 4096 true, VB2_BUF_STATE_ERROR);
            (DST_QUEUE, mk_dst 0 32768 true, VB2_BUF_STATE_ERROR)]
      /\ sequence inst' = 1 /\ processed_buf_num inst' = 1
      /\ error_buf_num inst' = 1).
Proof.
  split; cbv zeta.
  - split; [reflexivity |]. split.
    + eexists. eexists. split; [reflexivity | split; reflexivity].
    + repeat split.
  - split.
    + eexists. eexists. split; [reflexivity | split; reflexivity].
    + repeat split.
Qed.

(** ** Completion handler *)

Lemma land_lor_same a b : Z.land (Z.lor a b) b = b.
Proof.
  apply Z.bits_inj'. intros n _. rewrite Z.land_spec, Z.lor_spec.
  destruct (Z.testbit a n), (Z.testbit b n); reflexivity.
Qed.

Section Completion.

Variable hdr : wave6_defs.

(** C7: when the reported source index resolves to no queued buffer, or the
    reported bitstream address resolves to no queued output buffer, the
    handler leaves the processed and error counters, the sequence number and
    the state as they were and hands no buffer back; this is also what the
    completion entry point does for such an event. *)
Theorem unresolved_completion_dropped (inst : vpu_instance)
  (info : enc_output_info) :
  v4l2_m2m_src_buf_remove_by_idx (m2m_ctx inst) (enc_src_idx info) = None
  \/ wave6_get_dst_buf_by_addr inst (bitstream_buffer info) = None ->
  let inst' := wave6_handle_encoded_frame hdr inst info in
  processed_buf_num inst' = processed_buf_num inst
  /\ error_buf_num inst' = error_buf_num inst
  /\ sequence inst' = sequence inst
  /\ state inst' = state inst
  /\ state_log inst' = state_log inst
  /\ eos inst' = eos inst
  /\ error_recovery inst' = error_recovery inst
  /\ returned (m2m_ctx inst') = returned (m2m_ctx inst)
  /\ dst_rdy (m2m_ctx inst') = dst_rdy (m2m_ctx inst)
  /\ (forall fw,
        output_info fw = info -> get_output_info_ret fw = 0 ->
        0 <= enc_src_idx info -> 0 <= recon_frame_index info ->
        wave6_vpu_enc_finish_encode hdr fw inst false = inst').
Proof.
  intros H inst'.
  assert (Hfin : forall fw,
             output_info fw = info -> get_output_info_ret fw = 0 ->
             0 <= enc_src_idx info -> 0 <= recon_frame_index info ->
             wave6_vpu_enc_finish_encode hdr fw inst false = inst').
  { intros fw Ei Er Hi Hr. unfold wave6_vpu_enc_finish_encode.
    rewrite Er, Ei. cbn [Z.eqb negb].
    destruct (Z.leb_spec 0 (enc_src_idx info)); [| lia].
    destruct (Z.leb_spec 0 (recon_frame_index info)); [| lia].
    reflexivity. }
  unfold inst' in *. clear inst'. unfold wave6_handle_encoded_frame in *.
  unfold v4l2_m2m_src_buf_remove_by_idx in *.
  destruct (find_pos (fun b => vb_index b =? enc_src_idx info)
              (src_rdy (m2m_ctx inst))) as [[n src_buf] |] eqn:Es.
  - destruct H as [H | H]; [discriminate |].
    destruct (consumed src_buf); cbn [negb].
    + unfold wave6_get_dst_buf_by_addr in *. cbn [m2m_ctx set_m2m_ctx dst_rdy set_src_rdy] in *.
      rewrite H in *. repeat split; try reflexivity. exact Hfin.
    + repeat split; try reflexivity. exact Hfin.
  - repeat split; try reflexivity. exact Hfin.
Qed.

(** C8, as amended: for a completion that carries the encode-end index
    (a negative sentinel), when the reported bitstream address resolves to a
    queued output buffer that buffer gets payload 0 and the LAST flag, leaves
    the ready queue and is handed back as DONE, the state becomes PIC_RUN and
    end of stream is recorded, while the processed counter, the error counter
    and the sequence number stay as they were; when the address does not
    resolve the event changes nothing. *)
Theorem enc_end_completion (fw : finish_fw) (inst : vpu_instance) :
  RECON_IDX_FLAG_ENC_END hdr < 0 ->
  get_output_info_ret fw = 0 ->
  recon_frame_index (output_info fw) = RECON_IDX_FLAG_ENC_END hdr ->
  let inst' := wave6_vpu_enc_finish_encode hdr fw inst false in
  match wave6_get_dst_buf_by_addr inst (bitstream_buffer (output_info fw)) with
  | Some (dpos, dst) =>
      exists dst',
        returned (m2m_ctx inst')
        = (DST_QUEUE, dst', VB2_BUF_STATE_DONE) :: returned (m2m_ctx inst)
        /\ vb_index dst' = vb_index dst
        /\ vb_daddr dst' = bitstream_buffer (output_info fw)
        /\ vb_payload dst' = 0
        /\ Z.land (vb_flags dst') (V4L2_BUF_FLAG_LAST hdr)
           = V4L2_BUF_FLAG_LAST hdr
        /\ dst_rdy (m2m_ctx inst') = remove_nth dpos (dst_rdy (m2m_ctx inst))
        /\ src_rdy (m2m_ctx inst') = src_rdy (m2m_ctx inst)
        /\ state inst' = VPU_INST_STATE_PIC_RUN
        /\ eos inst' = true
        /\ processed_buf_num inst' = processed_buf_num inst
        /\ error_buf_num inst' = error_buf_num inst
        /\ sequence inst' = sequence inst
  | None => inst' = inst
  end.
Proof.
  intros Hneg Hret Hrec. cbv zeta. unfold wave6_vpu_enc_finish_encode.
  rewrite Hret, Hrec. cbn [Z.eqb negb].
  destruct (Z.leb_spec 0 (RECON_IDX_FLAG_ENC_END hdr)); [lia |].
  rewrite andb_false_r. rewrite Z.eqb_refl.
  unfold wave6_handle_last_frame.
  destruct (wave6_get_dst_buf_by_addr inst (bitstream_buffer (output_info fw)))
    as [[dpos dst] |] eqn:Ed; [| reflexivity].
  apply find_pos_some in Ed. destruct Ed as [_ Ea].
  apply Z.eqb_eq in Ea.
  eexists. split; [reflexivity |]. cbn.
  repeat split; try assumption. apply land_lor_same.
Qed.

End Completion.

Lemma unresolved_completion_dropped_witness :
  sequence (wave6_handle_encoded_frame sample_defs pipelined_instance
              (output_info (picture_event 0 40960)))
  = sequence pipelined_instance
  /\ returned (m2m_ctx (wave6_handle_encoded_frame sample_defs pipelined_instance
                          (output_info (picture_event 5 32768))))
     = returned (m2m_ctx pipelined_instance).
Proof.
  split.
  - apply (unresolved_completion_dropped sample_defs pipelined_instance
             (output_info (picture_event 0 40960))).
    right. reflexivity.
  - apply (unresolved_completion_dropped sample_defs pipelined_instance
             (output_info (picture_event 5 32768))).
    left. reflexivity.
Defined.

Lemma enc_end_completion_witness :
  state (wave6_vpu_enc_finish_encode sample_defs (enc_end_event 32768)
           stopped_instance false) = VPU_INST_STATE_PIC_RUN
  /\ eos (wave6_vpu_enc_finish_encode sample_defs (enc_end_event 32768)
            stopped_instance false) = true.
Proof.
  assert (Hneg : RECON_IDX_FLAG_ENC_END sample_defs < 0) by (simpl; lia).
  pose proof (enc_end_completion sample_defs (enc_end_event 32768)
                stopped_instance Hneg eq_refl eq_refl) as H.
  cbv zeta in H.
  change (wave6_get_dst_buf_by_addr stopped_instance
            (bitstream_buffer (output_info (enc_end_event 32768))))
    with (Some (0%nat, mk_dst 0 32768 true)) in H.
  destruct H as (dst' & _ & _ & _ & _ & _ & _ & _ & Hs & He & _).
  split; assumption.
Defined.

(** C8, as stated, fails: an encode-end completion whose bitstream address
    matches no queued output buffer leaves the instance in STOP without
    recording end of stream. *)
Lemma enc_end_unresolved_ignored :
  let inst' := wave6_vpu_enc_finish_encode sample_defs (enc_end_event 36864)
                 stopped_instance false in
  recon_frame_index (output_info (enc_end_event 36864))
  = RECON_IDX_FLAG_ENC_END sample_defs
  /\ inst' = stopped_instance
  /\ state inst' = VPU_INST_STATE_STOP
  /\ eos inst' = false
  /\ returned (m2m_ctx inst') = [].
Proof. cbv zeta. repeat split. Qed.

(** ** Instance life cycle *)

(** *** Traces *)






(** *** The transitions each entry point makes *)

Lemma return_buffers_state q st i :
  state (wave6_vpu_return_buffers q st i) = state i
  /\ state_log (wave6_vpu_return_buffers q st i) = state_log i.
Proof. destruct q; split; reflexivity. Qed.



















(** * Further properties of the queue pair coordinator and the completion
      handler *)

(** A ready queue in which one buffer is updated in place, the update
    leaving the searched-for attribute alone, resolves to the same place. *)
Lemma find_pos_upd_nth {A} (p : A -> bool) (f : A -> A) k l n x :
  (forall y, p (f y) = p y) ->
  find_pos p l = Some (n, x) ->
  find_pos p (upd_nth k f l)
  = Some (n, if Nat.eqb k n then f x else x).
Proof.
  intros Hp. revert k n. induction l as [| y l IH]; intros k n H; cbn in H;
    [discriminate |].
  destruct (p y) eqn:Py.
  - injection H as <- <-. destruct k; cbn.
    + rewrite Hp, Py. reflexivity.
    + rewrite Py. reflexivity.
  - destruct (find_pos p l) as [[m z] |] eqn:E; [| discriminate].
    injection H as <- <-. destruct k; cbn.
    + rewrite Hp, Py, E. reflexivity.
    + rewrite Py. rewrite (IH k m eq_refl). reflexivity.
Qed.

Lemma find_pos_upd_nth_none {A} (p : A -> bool) (f : A -> A) k l :
  (forall y, p (f y) = p y) ->
  find_pos p l = None -> find_pos p (upd_nth k f l) = None.
Proof.
  intros Hp. revert k. induction l as [| y l IH]; intros k H; cbn in H.
  - destruct k; reflexivity.
  - destruct (p y) eqn:Py; [discriminate |].
    destruct (find_pos p l) as [[m z] |] eqn:E; [discriminate |].
    destruct k; cbn.
    + rewrite Hp, Py, E. reflexivity.
    + rewrite Py, (IH k eq_refl). reflexivity.
Qed.

(** What [wave6_handle_encoded_frame] does with a resolved pair. *)
Lemma handle_encoded_frame_resolved (hdr : wave6_defs)
  (inst : vpu_instance)
  (info : enc_output_info) (src dst : vpu_buffer) (c1 : v4l2_m2m_ctx)
  (dpos : nat) :
  v4l2_m2m_src_buf_remove_by_idx (m2m_ctx inst) (enc_src_idx info)
  = Some (src, c1) ->
  consumed src = true ->
  wave6_get_dst_buf_by_addr inst (bitstream_buffer info) = Some (dpos, dst) ->
  let inst' := wave6_handle_encoded_frame hdr inst info in
  let st := if encoding_success info
            then VB2_BUF_STATE_DONE else VB2_BUF_STATE_ERROR in
  src_rdy (m2m_ctx inst') = src_rdy c1
  /\ dst_rdy (m2m_ctx inst') = remove_nth dpos (dst_rdy (m2m_ctx inst))
  /\ (exists dst',
        returned (m2m_ctx inst')
        = (DST_QUEUE, dst', st) :: (SRC_QUEUE, src, st)
          :: returned (m2m_ctx inst)
        /\ vb_index dst' = vb_index dst /\ vb_daddr dst' = vb_daddr dst
        /\ vb_payload dst' = bitstream_size info
        /\ vb_sequence dst' = sequence inst
        /\ average_qp dst' = avg_ctu_qp info)
  /\ sequence inst' = sequence inst + 1
  /\ processed_buf_num inst' = processed_buf_num inst + 1
  /\ error_buf_num inst'
     = error_buf_num inst + (if encoding_success info then 0 else 1)
  /\ error_recovery inst'
     = (if encoding_success info then error_recovery inst else true)
  /\ state inst' = state inst /\ eos inst' = eos inst.
Proof.
  intros Hs Hc Hd. cbv zeta. unfold wave6_handle_encoded_frame.
  rewrite Hs, Hc. cbn [negb].
  unfold v4l2_m2m_src_buf_remove_by_idx in Hs.
  destruct (find_pos _ (src_rdy (m2m_ctx inst))) as [[n b] |]; [| discriminate].
  injection Hs as -> <-.
  unfold wave6_get_dst_buf_by_addr in *. cbn. rewrite Hd.
  destruct (encoding_success info); cbn.
  - repeat split; try lia. eexists. repeat split.
  - repeat split. eexists. repeat split.
Qed.



Lemma remove_nth_upd_nth {A} n (f : A -> A) l :
  remove_nth n (upd_nth n f l) = remove_nth n l.
Proof.
  revert n. induction l as [| y l IH]; intros [| n]; cbn; try reflexivity.
  now rewrite IH.
Qed.

(** In a queue whose buffers differ pairwise in a key, the buffer at a place
    is the one a search for its key resolves to. *)
Lemma find_pos_key (key : vpu_buffer -> Z) l n x :
  NoDup (map key l) -> nth_error l n = Some x ->
  find_pos (fun b => key b =? key x) l = Some (n, x).
Proof.
  revert n. induction l as [| y l IH]; intros n Hnd Hn.
  - destruct n; discriminate.
  - cbn in Hnd. apply NoDup_cons_iff in Hnd. destruct Hnd as [Hni Hnd].
    destruct n as [| n]; cbn in Hn.
    + injection Hn as ->. cbn. rewrite Z.eqb_refl. reflexivity.
    + cbn. destruct (Z.eqb_spec (key y) (key x)) as [E | _].
      * exfalso. apply Hni. rewrite E. apply in_map.
        eapply nth_error_In. exact Hn.
      * rewrite (IH n Hnd Hn). reflexivity.
Qed.


(** X2: the recovery flag forces exactly one IDR picture.  After the
    completion of a failed picture the flag is armed; the next cycle that
    submits a source buffer asks for a forced picture type and disarms the
    flag, whatever the answer of the firmware to the submission; and in a
    cycle that starts with the flag disarmed the picture type is forced only
    when the source buffer itself asks for a key frame. *)
Theorem error_recovery_forces_one_idr (hdr : wave6_defs)
  (inst : vpu_instance)
  (info : enc_output_info) (src dst : vpu_buffer) (c1 : v4l2_m2m_ctx)
  (dpos : nat) (fw : enc_cycle_fw) (sp dp : nat) (s d : vpu_buffer) :
  v4l2_m2m_src_buf_remove_by_idx (m2m_ctx inst) (enc_src_idx info)
  = Some (src, c1) ->
  consumed src = true ->
  wave6_get_dst_buf_by_addr inst (bitstream_buffer info) = Some (dpos, dst) ->
  encoding_success info = false ->
  let inst1 := wave6_handle_encoded_frame hdr inst info in
  wave6_update_seq_param (fw_seq_change fw) = 0 ->
  wave6_get_valid_src_buf inst1 = Some (sp, s) ->
  wave6_get_valid_dst_buf inst1 = Some (dp, d) ->
  let r := wave6_vpu_enc_start_encode fw inst1 in
  error_recovery inst1 = true
  /\ (exists pp isub, snd r = Some (pp, isub)
                      /\ src_idx pp = vb_index s
                      /\ force_pic_type_enable pp = true
                      /\ error_recovery isub = false)
  /\ error_recovery (snd (fst r)) = false
  /\ (forall fw2 sp2 s2 dp2 d2,
        let inst2 := snd (fst r) in
        wave6_update_seq_param (fw_seq_change fw2) = 0 ->
        wave6_get_valid_src_buf inst2 = Some (sp2, s2) ->
        wave6_get_valid_dst_buf inst2 = Some (dp2, d2) ->
        exists pp2 isub2,
          snd (wave6_vpu_enc_start_encode fw2 inst2) = Some (pp2, isub2)
          /\ force_pic_type_enable pp2 = force_key_frame s2).
Proof.
  intros Hs Hc Hd Hfail inst1 Hq Hvs Hvd r.
  assert (Her : error_recovery inst1 = true).
  { destruct (handle_encoded_frame_resolved hdr inst info src dst c1 dpos
                Hs Hc Hd)
      as (_ & _ & _ & _ & _ & _ & E & _).
    fold inst1 in E. rewrite Hfail in E. exact E. }
  assert (Hsub : exists pp isub, snd r = Some (pp, isub)
                      /\ src_idx pp = vb_index s
                      /\ force_pic_type_enable pp = true
                      /\ error_recovery isub = false
                      /\ error_recovery (snd (fst r)) = false).
  { unfold r, wave6_vpu_enc_start_encode. rewrite Hq, Hvs, Hvd, Her.
    cbn [Z.eqb negb]. rewrite orb_true_r.
    unfold wave6_vpu_enc_start_encode_submit.
    destruct (negb (start_one_frame_ret fw =? 0)); cbn [fst snd].
    - eexists. eexists. split; [reflexivity |]. repeat split.
      unfold v4l2_m2m_dst_buf_remove, v4l2_m2m_src_buf_remove. cbn.
      destruct (upd_nth dp _ _); cbn; destruct (upd_nth sp _ _); reflexivity.
    - eexists. eexists. split; [reflexivity |]. repeat split. }
  destruct Hsub as (pp & isub & E1 & E2 & E3 & E4 & E5).
  split; [exact Her |]. split; [exists pp, isub; auto |].
  split; [exact E5 |].
  intros fw2 sp2 s2 dp2 d2 inst2 Hq2 Hvs2 Hvd2.
  unfold wave6_vpu_enc_start_encode. rewrite Hq2, Hvs2, Hvd2.
  cbn [Z.eqb negb].
  assert (E5' : error_recovery inst2 = false) by exact E5.
  rewrite E5', orb_false_r.
  unfold wave6_vpu_enc_start_encode_submit.
  destruct (negb (start_one_frame_ret fw2 =? 0)); cbn [fst snd];
    eexists; eexists; (split; [reflexivity |]); reflexivity.
Qed.

Lemma error_recovery_forces_one_idr_witness :
  let inst1 := wave6_handle_encoded_frame sample_defs pipelined_instance
                 failed_picture_event in
  let r := wave6_vpu_enc_start_encode cycle_ok inst1 in
  error_recovery inst1 = true
  /\ (exists pp isub, snd r = Some (pp, isub)
                      /\ src_idx pp = 1
                      /\ force_pic_type_enable pp = true
                      /\ error_recovery isub = false).
Proof.
  intros inst1 r.
  destruct (error_recovery_forces_one_idr sample_defs pipelined_instance
              failed_picture_event (mk_src 0 4096 true) (mk_dst 0 32768 true)
              (set_src_rdy [mk_src 1 8192 false] (m2m_ctx pipelined_instance))
              0%nat cycle_ok 0%nat 0%nat (mk_src 1 8192 false)
              (mk_dst 1 36864 false)
              eq_refl eq_refl eq_refl eq_refl eq_refl eq_refl eq_refl)
    as (H1 & H2 & _).
  split; [exact H1 | exact H2].
Defined.



(** ** Stream start and drain *)

(** X4: stream start never leaves a half-built instance behind.  Whenever
    [wave6_vpu_enc_start_streaming] returns an error the instance is in
    NONE; and when it returns success for the second queue of an instance
    that was in NONE, with the wait for the sequence-init completion not
    timing out, the instance is in PIC_RUN. *)
Theorem start_streaming_all_or_nothing (q : queue_dir) (peer : bool)
  (fw : stream_fw) (inst : vpu_instance) :
  let r := wave6_vpu_enc_start_streaming q peer fw inst in
  (fst r <> 0 -> state (snd r) = VPU_INST_STATE_NONE)
  /\ (fst r = 0 -> peer = true -> state inst = VPU_INST_STATE_NONE ->
      0 <= seq_init_wait_ret (fw_seq_init fw) ->
      state (snd r) = VPU_INST_STATE_PIC_RUN).
Proof.
  cbv zeta. unfold wave6_vpu_enc_start_streaming.
  destruct peer; cbn [negb]; [| split; [intros N; now elim N | discriminate]].
  destruct fw as [[pm ar op] [si sw sc] pf].
  destruct inst as [sd st lg cr cd ri mp sq pn en eo er cx].
  unfold wave6_vpu_enc_create_instance, wave6_vpu_enc_initialize_instance,
    wave6_vpu_enc_prepare_fb, wave6_vpu_enc_destroy_instance.
  cbn [state fw_create fw_seq_init prepare_fb_ret pm_resume_ret alloc_ar_ret
       enc_open_ret issue_seq_init_ret seq_init_wait_ret
       complete_seq_init_ret].
  split.
  - destruct st; cbn;
      repeat match goal with
             | |- context [?x =? 0] =>
                 is_var x; destruct (Z.eqb_spec x 0); cbn
             | |- context [?x <? 0] =>
                 is_var x; destruct (Z.ltb_spec x 0); cbn
             end;
      intros N; try (now elim N); try contradiction;
      try (destruct q; reflexivity).
  - intros R _ Hst Hw. cbn in Hst. subst st. revert R. cbn.
    repeat match goal with
           | |- context [?x =? 0] =>
               is_var x; destruct (Z.eqb_spec x 0); cbn
           | |- context [?x <? 0] =>
               is_var x; destruct (Z.ltb_spec x 0); cbn
           end;
      intros R; try contradiction; try reflexivity; cbn in Hw; try lia.
Qed.

Lemma start_streaming_all_or_nothing_witness :
  state (snd (wave6_vpu_enc_start_streaming DST_QUEUE true
                stream_prepare_fb_fails idle_instance))
  = VPU_INST_STATE_NONE
  /\ state (snd (wave6_vpu_enc_start_streaming DST_QUEUE true stream_ok
                   idle_instance))
     = VPU_INST_STATE_PIC_RUN.
Proof.
  split.
  - apply (start_streaming_all_or_nothing DST_QUEUE true
             stream_prepare_fb_fails idle_instance).
    cbn. lia.
  - apply (start_streaming_all_or_nothing DST_QUEUE true stream_ok
             idle_instance).
    + reflexivity.
    + reflexivity.
    + reflexivity.
    + cbn. lia.
Defined.

(** X5: the drain handshake.  A stop command on an instance with both
    queues streaming, no unconsumed source buffer and a free destination
    buffer is followed by a cycle that submits an end-of-stream request on
    that destination buffer; when the firmware answers with the encode-end
    event for its address, the buffer is handed back empty and flagged LAST,
    the instance is back in PIC_RUN with the end-of-stream flag set and the
    source-buffered mark of the stop command cleared. *)
Theorem drain_handshake (hdr : wave6_defs) (fw : enc_cycle_fw)
  (ev : finish_fw) (inst : vpu_instance) (dp : nat) (d : vpu_buffer) :
  NoDup (map vb_daddr (dst_rdy (m2m_ctx inst))) ->
  wave6_get_valid_src_buf inst = None ->
  wave6_get_valid_dst_buf inst = Some (dp, d) ->
  wave6_update_seq_param (fw_seq_change fw) = 0 ->
  start_one_frame_ret fw = 0 ->
  RECON_IDX_FLAG_ENC_END hdr < 0 ->
  get_output_info_ret ev = 0 ->
  recon_frame_index (output_info ev) = RECON_IDX_FLAG_ENC_END hdr ->
  bitstream_buffer (output_info ev) = vb_daddr d ->
  let r1 := wave6_vpu_enc_encoder_cmd 0 true V4L2_ENC_CMD_STOP inst in
  let r2 := wave6_vpu_enc_start_encode fw (snd r1) in
  let inst' := wave6_vpu_enc_finish_encode hdr ev (snd (fst r2)) false in
  fst r1 = 0 /\ src_buffered (m2m_ctx (snd r1)) = true
  /\ (exists pp isub, r2 = (0, isub, Some (pp, isub))
                      /\ src_end pp = true
                      /\ pic_stream_buffer_addr pp = vb_daddr d
                      /\ source_frame pp = zero_frame)
  /\ state inst' = VPU_INST_STATE_PIC_RUN /\ eos inst' = true
  /\ src_buffered (m2m_ctx inst') = false
  /\ dst_rdy (m2m_ctx inst') = remove_nth dp (dst_rdy (m2m_ctx inst))
  /\ src_rdy (m2m_ctx inst') = src_rdy (m2m_ctx inst)
  /\ (exists d',
        returned (m2m_ctx inst')
        = (DST_QUEUE, d', VB2_BUF_STATE_DONE) :: returned (m2m_ctx inst)
        /\ vb_index d' = vb_index d /\ vb_payload d' = 0
        /\ Z.land (vb_flags d') (V4L2_BUF_FLAG_LAST hdr)
           = V4L2_BUF_FLAG_LAST hdr)
  /\ sequence inst' = sequence inst
  /\ processed_buf_num inst' = processed_buf_num inst.
Proof.
  intros Hnd Hs Hd Hq Hf Hneg Hev Hrec Hbb r1 r2 inst'.
  pose proof Hd as Hd0.
  apply find_pos_some in Hd0. destruct Hd0 as [Hd0 _].
  pose proof (find_pos_key vb_daddr _ _ _ Hnd Hd0) as Fd.
  assert (E2 : r2 = wave6_vpu_enc_start_encode_submit fw (snd r1) None dp
                      (set_src_end true
                         {| pic_stream_buffer_addr := vb_daddr d;
                            pic_stream_buffer_size := vb_plane_size d;
                            src_end := false; src_idx := 0;
                            force_pic_type_enable := false;
                            force_pic_qp_enable := false;
                            source_frame := zero_frame |})).
  { unfold r2, wave6_vpu_enc_start_encode. rewrite Hq. cbn [Z.eqb negb].
    change (wave6_get_valid_src_buf (snd r1))
      with (wave6_get_valid_src_buf inst).
    change (wave6_get_valid_dst_buf (snd r1))
      with (wave6_get_valid_dst_buf inst).
    rewrite Hs, Hd. reflexivity. }
  unfold wave6_vpu_enc_start_encode_submit in E2. rewrite Hf in E2.
  cbn [Z.eqb negb] in E2.
  assert (Ef : inst' = wave6_handle_last_frame hdr (snd (fst r2))
                         (vb_daddr d)).
  { unfold inst', wave6_vpu_enc_finish_encode. rewrite Hev, Hrec, Hbb.
    cbn [Z.eqb negb].
    destruct (Z.leb_spec 0 (RECON_IDX_FLAG_ENC_END hdr)); [lia |].
    rewrite andb_false_r, Z.eqb_refl. reflexivity. }
  rewrite Ef, E2. cbn [fst snd].
  unfold wave6_handle_last_frame, wave6_get_dst_buf_by_addr.
  cbn [m2m_ctx set_m2m_ctx dst_rdy set_dst_rdy].
  change (dst_rdy (m2m_ctx (snd r1))) with (dst_rdy (m2m_ctx inst)).
  rewrite (find_pos_upd_nth (fun b => vb_daddr b =? vb_daddr d)
             (fun b => set_used true (set_consumed true b)) dp _ dp d
             (fun y => eq_refl) Fd).
  rewrite Nat.eqb_refl. cbn.
  split; [reflexivity |]. split; [reflexivity |].
  split.
  { eexists. eexists. split; [reflexivity |]. repeat split. }
  split; [reflexivity |]. split; [reflexivity |]. split; [reflexivity |].
  split; [apply remove_nth_upd_nth |]. split; [reflexivity |].
  split; [| split; reflexivity].
  eexists. split; [reflexivity |]. cbn. split; [reflexivity |].
  split; [reflexivity | apply land_lor_same].
Qed.

Lemma drain_handshake_witness :
  let r1 := wave6_vpu_enc_encoder_cmd 0 true V4L2_ENC_CMD_STOP
              drained_instance in
  let r2 := wave6_vpu_enc_start_encode cycle_ok (snd r1) in
  let inst' := wave6_vpu_enc_finish_encode sample_defs (enc_end_event 32768)
                 (snd (fst r2)) false in
  state inst' = VPU_INST_STATE_PIC_RUN /\ eos inst' = true
  /\ dst_rdy (m2m_ctx inst') = [].
Proof.
  intros r1 r2 inst'.
  assert (N : NoDup (map vb_daddr (dst_rdy (m2m_ctx drained_instance)))).
  { cbn. repeat constructor. intros []. }
  assert (Hneg : RECON_IDX_FLAG_ENC_END sample_defs < 0) by (cbn; lia).
  destruct (drain_handshake sample_defs cycle_ok (enc_end_event 32768)
              drained_instance 0%nat (mk_dst 0 32768 false) N eq_refl eq_refl
              eq_refl eq_refl Hneg eq_refl eq_refl eq_refl)
    as (_ & _ & _ & H1 & H2 & _ & H3 & _).
  split; [exact H1 |]. split; [exact H2 | exact H3].
Defined.

(** * Rate control buffer and ROI map allocation *)

Lemma u64_small x : 0 <= x < 2 ^ 64 -> u64 x = x.
Proof. intros H. unfold u64. apply Z.mod_small. exact H. Qed.

Lemma cpb_size_msec_spec (cpb_size_kb bitrate : Z) :
  0 <= cpb_size_kb < 2 ^ 32 -> 0 < bitrate < 2 ^ 32 ->
  let q := cpb_size_kb * 8000000 / bitrate in
  exists r,
    wave6_cpb_size_msec cpb_size_kb bitrate = Some r
    /\ 10 <= r <= 100000
    /\ (10 <= q <= 100000 -> r = q)
    /\ (q < 10 \/ 100000 < q -> r = 10000).
Proof.
  intros Hk Hb q. unfold wave6_cpb_size_msec, BITS_PER_BYTE.
  destruct (Z.eqb_spec bitrate 0) as [E | _]; [lia |].
  rewrite (u64_small (cpb_size_kb * 1000)) by lia.
  rewrite (u64_small (cpb_size_kb * 1000 * 8)) by lia.
  rewrite (u64_small (cpb_size_kb * 1000 * 8 * 1000)) by lia.
  replace (cpb_size_kb * 1000 * 8 * 1000) with (cpb_size_kb * 8000000) by ring.
  fold q.
  destruct (Z.ltb_spec q 10) as [L | L]; cbn [orb].
  - exists 10000. repeat split; try reflexivity; try lia.
  - destruct (Z.ltb_spec 100000 q) as [G | G].
    + exists 10000. repeat split; try reflexivity; try lia.
    + exists q. rewrite u32_small by lia. repeat split; lia.
Qed.

(** X6: the buffer duration handed to the firmware.  For a [u32] buffer
    size in kilobits and a [u32] bitrate other than zero, the 64-bit
    products do not wrap: the result is the duration
    [cpb_size_kb * 8000000 / bitrate] in milliseconds when that lies between
    10 and 100000, and 10000 otherwise; so it always lies between 10 and
    100000. *)
Theorem cpb_size_msec_range (cpb_size_kb bitrate : Z) :
  0 <= cpb_size_kb < 2 ^ 32 -> 0 < bitrate < 2 ^ 32 ->
  let q := cpb_size_kb * 8000000 / bitrate in
  exists r,
    wave6_cpb_size_msec cpb_size_kb bitrate = Some r
    /\ 10 <= r <= 100000
    /\ (10 <= q <= 100000 -> r = q)
    /\ (q < 10 \/ 100000 < q -> r = 10000).
Proof. exact (cpb_size_msec_spec cpb_size_kb bitrate). Qed.

(** The defaults of the controls: 2097152 bit/s and no buffer size. *)
Lemma cpb_size_msec_range_witness :
  wave6_cpb_size_msec 0 2097152 = Some 10000
  /\ wave6_cpb_size_msec 1000 2000000 = Some 4000.
Proof.
  split.
  - destruct (cpb_size_msec_range 0 2097152) as (r & E & _ & _ & H);
      [lia | lia |].
    rewrite E, H; [reflexivity |]. left. vm_compute. reflexivity.
  - destruct (cpb_size_msec_range 1000 2000000) as (r & E & _ & H & _);
      [lia | lia |].
    rewrite E, H; [reflexivity |]. vm_compute. split; discriminate.
Defined.

(** [ALIGN] to a power of two is the next multiple. *)
Lemma ALIGN_pow2 w k :
  0 <= w -> 0 <= k < 32 -> w + 2 ^ k <= 2 ^ 32 ->
  ALIGN w (2 ^ k) = 2 ^ k * ((w + 2 ^ k - 1) / 2 ^ k).
Proof.
  intros Hw Hk Hfit. unfold ALIGN.
  assert (Hp : 0 < 2 ^ k) by (apply Z.pow_pos_nonneg; lia).
  rewrite (u32_small (2 ^ k - 1)) by lia.
  rewrite (u32_small (w + (2 ^ k - 1))) by lia.
  rewrite land_u32_not by lia.
  replace (2 ^ k - 1) with (Z.ones k)
    by (rewrite Z.ones_equiv; unfold Z.pred; lia).
  rewrite Z.land_ones by lia.
  replace (w + Z.ones k) with (w + 2 ^ k - 1)
    by (rewrite Z.ones_equiv; unfold Z.pred; lia).
  pose proof (Z.div_mod (w + 2 ^ k - 1) (2 ^ k)). lia.
Qed.

Lemma ALIGN_pow2_mono w w' k :
  0 <= w <= w' -> 0 <= k < 32 -> w' + 2 ^ k <= 2 ^ 32 ->
  ALIGN w (2 ^ k) <= ALIGN w' (2 ^ k).
Proof.
  intros Hw Hk Hfit.
  assert (Hp : 0 < 2 ^ k) by (apply Z.pow_pos_nonneg; lia).
  rewrite !ALIGN_pow2 by lia.
  apply Z.mul_le_mono_nonneg_l; [lia |].
  apply Z.div_le_mono; lia.
Qed.

Lemma set_roi_info_keeps_length hdr inst :
  length (custom_qp_map (wave6_vpu_enc_set_roi_info hdr inst))
  = length (custom_qp_map inst).
Proof.
  unfold wave6_vpu_enc_set_roi_info.
  destruct (roi_info_eqb _ _); [reflexivity |]. cbn. apply repeat_length.
Qed.

(** The map size of any geometry within the limits is at most the map size
    of the AVC grid at the limits. *)
Lemma roi_map_size_below_avc_max hdr sd w h mw mh k :
  W6_ENC_CTU_WIDTH_ALIGNMENT hdr = 2 ^ k -> 0 <= k <= 16 ->
  32 <= mw <= 65536 -> 32 <= mh <= 65536 ->
  0 <= w <= mw -> 0 <= h <= mh ->
  custom_map_size (wave6_vpu_enc_get_roi_info hdr sd w h)
  <= wave6_vpu_enc_get_internal_ctu_count hdr W_AVC_ENC mw mh.
Proof.
  intros EA Hk Hmw Hmh Hw Hh.
  assert (Hp : 1 <= 2 ^ k <= 65536).
  { split.
    - assert (0 < 2 ^ k) by (apply Z.pow_pos_nonneg; lia). lia.
    - change 65536 with (2 ^ 16). apply Z.pow_le_mono_r; lia. }
  pose proof (ALIGN_bounds w (2 ^ k)) as B1.
  pose proof (ALIGN_bounds mw (2 ^ k)) as B2.
  pose proof (ALIGN_pow2_mono w mw k) as Mono.
  assert (Hal : w <= ALIGN w (2 ^ k) <= w + 65535) by lia.
  assert (HalM : mw <= ALIGN mw (2 ^ k) <= mw + 65535) by lia.
  assert (Hle : ALIGN w (2 ^ k) <= ALIGN mw (2 ^ k)) by (apply Mono; lia).
  clear B1 B2 Mono.
  unfold wave6_vpu_enc_get_internal_ctu_count, wave6_vpu_enc_get_roi_info.
  rewrite EA.
  set (al := ALIGN w (2 ^ k)) in *. set (alM := ALIGN mw (2 ^ k)) in *.
  cbn [custom_map_size a_width a_height]. unfold DIV_ROUND_UP.
  change (u32 (16 * 1)) with 16. change (u32 (1 * 1)) with 1.
  rewrite (u32_small (alM + 16 - 1)) by lia.
  rewrite (u32_small (mh + 16 - 1)) by lia.
  assert (BP : 0 <= (alM + 16 - 1) / 16 <= 8192)
    by (Z.div_mod_to_equations; lia).
  assert (BQ : 0 <= (mh + 16 - 1) / 16 <= 4097)
    by (Z.div_mod_to_equations; lia).
  set (P := (alM + 16 - 1) / 16) in *. set (Q := (mh + 16 - 1) / 16) in *.
  assert (BPQ : 0 <= P * Q <= 8192 * 4097) by nia.
  rewrite (u32_small (P * Q)) by lia.
  rewrite Z.mul_1_r, (u32_small (P * Q)) by lia.
  destruct sd; cbn [a_width a_height].
  1, 3:
    change (u32 (32 * 2)) with 64; change (u32 (2 * 2)) with 4;
    rewrite (u32_small (al + 64 - 1)) by lia;
    rewrite (u32_small (h + 64 - 1)) by lia;
    assert (BX : 0 <= 2 * ((al + 64 - 1) / 64) <= P)
      by (unfold P; Z.div_mod_to_equations; lia);
    assert (BY : 0 <= 2 * ((h + 64 - 1) / 64) <= Q)
      by (unfold Q; Z.div_mod_to_equations; lia);
    set (X := (al + 64 - 1) / 64) in *; set (Y := (h + 64 - 1) / 64) in *;
    assert (BXY : 0 <= X * Y <= 8192 * 4097) by nia;
    rewrite (u32_small (X * Y)) by lia;
    rewrite (u32_small (X * Y * 4)) by lia;
    replace (X * Y * 4) with ((2 * X) * (2 * Y)) by ring;
    apply Z.mul_le_mono_nonneg; lia.
  change (u32 (16 * 1)) with 16. change (u32 (1 * 1)) with 1.
  rewrite (u32_small (al + 16 - 1)) by lia.
  rewrite (u32_small (h + 16 - 1)) by lia.
  assert (BX : 0 <= (al + 16 - 1) / 16 <= P)
    by (unfold P; Z.div_mod_to_equations; lia).
  assert (BY : 0 <= (h + 16 - 1) / 16 <= Q)
    by (unfold Q; Z.div_mod_to_equations; lia).
  set (X := (al + 16 - 1) / 16) in *. set (Y := (h + 16 - 1) / 16) in *.
  assert (BXY : 0 <= X * Y <= 8192 * 4097) by nia.
  rewrite (u32_small (X * Y)) by lia.
  rewrite Z.mul_1_r, (u32_small (X * Y)) by lia.
  apply Z.mul_le_mono_nonneg; lia.
Qed.

(** X7: the map buffer allocated when the device is opened is large enough
    for every geometry.  The buffer is sized for the AVC grid of the largest
    picture; for a codec rectangle within the picture limits (and an
    alignment constant that is a power of two up to 65536) the geometry
    [wave6_vpu_enc_set_roi_info] stores needs no more than that, whatever
    the codec standard, and the map writer then completes for every user
    map and count. *)
Theorem roi_map_fits_open_allocation (hdr : wave6_defs) (lim : wave6_limits)
  (inst : vpu_instance) (user_map : list Z) (count k : Z) :
  W6_ENC_CTU_WIDTH_ALIGNMENT hdr = 2 ^ k -> 0 <= k <= 16 ->
  32 <= W6_MAX_ENC_PIC_WIDTH lim <= 65536 ->
  32 <= W6_MAX_ENC_PIC_HEIGHT lim <= 65536 ->
  0 <= r_width (codec_rect inst) <= W6_MAX_ENC_PIC_WIDTH lim ->
  0 <= r_height (codec_rect inst) <= W6_MAX_ENC_PIC_HEIGHT lim ->
  Z.of_nat (length (custom_qp_map inst)) = open_custom_qp_map_size hdr lim ->
  let inst1 := wave6_vpu_enc_set_roi_info hdr inst in
  custom_map_size (roi_info inst1) <= open_custom_qp_map_size hdr lim
  /\ exists inst2,
       wave6_vpu_enc_set_roi_map inst1 user_map count = Some inst2.
Proof.
  intros EA Hk Hmw Hmh Hw Hh Hlen inst1.
  assert (Hp : 1 <= 2 ^ k <= 65536).
  { split.
    - assert (0 < 2 ^ k) by (apply Z.pow_pos_nonneg; lia). lia.
    - change 65536 with (2 ^ 16). apply Z.pow_le_mono_r; lia. }
  assert (Hroi : roi_info inst1 = recomputed_roi_info hdr inst)
    by apply set_roi_info_stored.
  assert (Hsz : custom_map_size (roi_info inst1)
                <= open_custom_qp_map_size hdr lim).
  { rewrite Hroi. unfold recomputed_roi_info, open_custom_qp_map_size.
    apply (roi_map_size_below_avc_max hdr _ _ _ _ _ k); assumption. }
  split; [exact Hsz |].
  assert (Hlen1 : Z.of_nat (length (custom_qp_map inst1))
                  = open_custom_qp_map_size hdr lim).
  { unfold inst1. rewrite set_roi_info_keeps_length. exact Hlen. }
  assert (Hok : roi_geometry_ok (roi_info inst1)).
  { rewrite Hroi. unfold recomputed_roi_info.
    apply get_roi_info_ok; rewrite ?EA; lia. }
  unfold wave6_vpu_enc_set_roi_map.
  destruct (negb (count =? num_ctu (roi_info inst1)));
    [exists inst1; reflexivity |].
  destruct (store_all_total (custom_qp_map inst1)
              (roi_map_stores (roi_info inst1) user_map)) as (m & Em & _).
  - rewrite roi_map_stores_positions. apply Forall_forall. intros s Hs.
    apply in_map_iff in Hs. destruct Hs as [[i j] [<- Hin]].
    apply in_ctu_positions in Hin. cbn [fst].
    destruct (roi_map_offset_plain (roi_info inst1) Hok i j) as [_ B];
      [tauto | tauto |].
    cbn [snd]. lia.
  - rewrite Em. eexists. reflexivity.
Qed.

Lemma roi_map_fits_open_allocation_witness :
  let inst := set_rects {| r_left := 0; r_top := 0; r_width := 64;
                           r_height := 64 |}
                {| r_left := 0; r_top := 0; r_width := 64; r_height := 64 |}
                (fresh_instance VPU_INST_STATE_NONE [] []
                   (repeat 7 (Z.to_nat
                      (open_custom_qp_map_size sample_defs small_limits)))) in
  custom_map_size (roi_info (wave6_vpu_enc_set_roi_info sample_defs inst))
  <= open_custom_qp_map_size sample_defs small_limits
  /\ exists inst2,
       wave6_vpu_enc_set_roi_map
         (wave6_vpu_enc_set_roi_info sample_defs inst) [1; 2; 3; 4] 4
       = Some inst2.
Proof.
  intros inst.
  apply (roi_map_fits_open_allocation sample_defs small_limits inst
           [1; 2; 3; 4] 4 6).
  - reflexivity.
  - lia.
  - cbn. lia.
  - cbn. lia.
  - cbn. lia.
  - cbn. lia.
  - vm_compute. reflexivity.
Defined.

(** * Format catalogue *)

Ltac try_slot i :=
  exists i; split; [unfold FMT_LIST_SIZE; lia | reflexivity].

Ltac pick_slot_from i fuel :=
  lazymatch fuel with
  | O => fail
  | S ?k => first [ try_slot i
                  | let j := eval cbv in (i + 1) in pick_slot_from j k ]
  end.

Ltac pick_slot := pick_slot_from 0 28%nat.

Lemma by_idx_cases lim idx ty f :
  0 <= idx -> wave6_find_vpu_fmt_by_idx lim idx ty = Some f ->
  In idx (zrange FMT_LIST_SIZE).
Proof.
  intros H0 H. apply in_zrange. unfold wave6_find_vpu_fmt_by_idx in H.
  destruct (Z.leb_spec FMT_LIST_SIZE idx); [discriminate | lia].
Qed.

(** X8: the two lookups of the catalogue agree.  A descriptor found by
    index has a tag other than zero and is the one a lookup of its tag
    returns; a descriptor found by a tag carries that tag and, for a tag
    other than zero, sits at an index the lookup by index accepts; no index
    from 28 on is accepted.  The lookup of the tag zero finds an unused slot
    of the codec row and nothing in the raw row. *)
Theorem fmt_lookups_agree (lim : wave6_limits) (ty : vpu_fmt_type) :
  (forall idx f, 0 <= idx ->
     wave6_find_vpu_fmt_by_idx lim idx ty = Some f ->
     v4l2_pix_fmt f <> V4L2_PIX_FMT_NONE
     /\ wave6_find_vpu_fmt lim (v4l2_pix_fmt f) ty = Some f)
  /\ (forall pix f,
        wave6_find_vpu_fmt lim pix ty = Some f ->
        v4l2_pix_fmt f = pix
        /\ (pix <> V4L2_PIX_FMT_NONE ->
            exists idx, 0 <= idx < FMT_LIST_SIZE
                        /\ wave6_find_vpu_fmt_by_idx lim idx ty = Some f))
  /\ (forall idx, FMT_LIST_SIZE <= idx ->
        wave6_find_vpu_fmt_by_idx lim idx ty = None)
  /\ wave6_find_vpu_fmt lim V4L2_PIX_FMT_NONE VPU_FMT_TYPE_CODEC
     = Some empty_fmt
  /\ wave6_find_vpu_fmt lim V4L2_PIX_FMT_NONE VPU_FMT_TYPE_RAW = None.
Proof.
  split; [| split; [| split; [| split; reflexivity]]].
  - intros idx f H0 H. pose proof (by_idx_cases lim idx ty f H0 H) as Hin.
    vm_compute in Hin.
    repeat (destruct Hin as [<- | Hin];
            [destruct ty; vm_compute in H; try discriminate;
             injection H as <-; (split; [discriminate | reflexivity]) |]).
    contradiction.
  - intros pix f H.
    destruct ty, pix; vm_compute in H; try discriminate; injection H as <-;
      (split; [reflexivity |]); intros N; try (now elim N); pick_slot.
  - intros idx H. unfold wave6_find_vpu_fmt_by_idx.
    destruct (Z.leb_spec FMT_LIST_SIZE idx); [reflexivity | lia].
Qed.

Lemma fmt_lookups_agree_witness :
  wave6_find_vpu_fmt small_limits V4L2_PIX_FMT_NV12M VPU_FMT_TYPE_RAW
  = Some (yuv_fmt small_limits V4L2_PIX_FMT_NV12M 2 true false false)
  /\ wave6_find_vpu_fmt_by_idx small_limits 28 VPU_FMT_TYPE_RAW = None.
Proof.
  destruct (fmt_lookups_agree small_limits VPU_FMT_TYPE_RAW)
    as (H1 & _ & H3 & _).
  split.
  - apply (H1 11 (yuv_fmt small_limits V4L2_PIX_FMT_NV12M 2 true false false)).
    + lia.
    + reflexivity.
  - apply H3. unfold FMT_LIST_SIZE. lia.
Defined.

(** X9: what the frame size enumeration answers.  An index other than zero
    and a tag the catalogue does not name are refused with [-EINVAL] and the
    descriptor left alone; every tag the catalogue names gets the picture
    limits and the size step; and the tag zero, which matches an unused slot
    of the codec row, is answered with success and limits that are all
    zero. *)
Theorem enum_framesizes_answers (hdr : wave6_defs) (lim : wave6_limits)
  (fsize : v4l2_frmsizeenum) :
  let r := wave6_vpu_enc_enum_framesizes hdr lim fsize in
  (fs_index fsize <> 0 -> r = (- EINVAL, fsize))
  /\ (fs_index fsize = 0 ->
      (fs_pixel_format fsize = V4L2_PIX_FMT_OTHER -> r = (- EINVAL, fsize))
      /\ (fs_pixel_format fsize <> V4L2_PIX_FMT_OTHER ->
          fs_pixel_format fsize <> V4L2_PIX_FMT_NONE ->
          fst r = 0 /\ fs_stepwise (snd r) = true
          /\ fs_min_width (snd r) = W6_MIN_ENC_PIC_WIDTH lim
          /\ fs_max_width (snd r) = W6_MAX_ENC_PIC_WIDTH lim
          /\ fs_min_height (snd r) = W6_MIN_ENC_PIC_HEIGHT lim
          /\ fs_max_height (snd r) = W6_MAX_ENC_PIC_HEIGHT lim
          /\ fs_step_width (snd r) = W6_ENC_PIC_SIZE_STEP hdr
          /\ fs_step_height (snd r) = W6_ENC_PIC_SIZE_STEP hdr)
      /\ (fs_pixel_format fsize = V4L2_PIX_FMT_NONE ->
          fst r = 0
          /\ fs_min_width (snd r) = 0 /\ fs_max_width (snd r) = 0
          /\ fs_min_height (snd r) = 0 /\ fs_max_height (snd r) = 0)).
Proof.
  cbv zeta. unfold wave6_vpu_enc_enum_framesizes. split.
  - intros N. destruct (Z.eqb_spec (fs_index fsize) 0);
      [contradiction | reflexivity].
  - intros E. rewrite E. cbn [Z.eqb negb].
    destruct (fs_pixel_format fsize); (split; [| split]);
      try discriminate; intros; try contradiction;
      try reflexivity; repeat split.
Qed.

Lemma enum_framesizes_answers_witness :
  let zero_tag := {| fs_index := 0; fs_pixel_format := V4L2_PIX_FMT_NONE;
                     fs_stepwise := false; fs_min_width := 7;
                     fs_max_width := 7; fs_step_width := 7;
                     fs_min_height := 7; fs_max_height := 7;
                     fs_step_height := 7 |} in
  let r := wave6_vpu_enc_enum_framesizes sample_defs small_limits zero_tag in
  fst r = 0 /\ fs_min_width (snd r) = 0 /\ fs_max_width (snd r) = 0
  /\ fs_min_height (snd r) = 0 /\ fs_max_height (snd r) = 0.
Proof.
  intros zero_tag r.
  destruct (enum_framesizes_answers sample_defs small_limits zero_tag)
    as (_ & H).
  destruct (H eq_refl) as (_ & _ & H3). apply H3. reflexivity.
Defined.

Lemma raw_tags_nodup lim :
  NoDup (map v4l2_pix_fmt (wave6_vpu_enc_fmt_list lim VPU_FMT_TYPE_RAW)).
Proof.
  cbn. repeat (constructor; [cbn; intuition discriminate |]). constructor.
Qed.

Lemma by_idx_nth lim idx ty f :
  0 <= idx -> wave6_find_vpu_fmt_by_idx lim idx ty = Some f ->
  idx < FMT_LIST_SIZE
  /\ v4l2_pix_fmt f <> V4L2_PIX_FMT_NONE
  /\ nth (Z.to_nat idx) (map v4l2_pix_fmt (wave6_vpu_enc_fmt_list lim ty))
       V4L2_PIX_FMT_NONE = v4l2_pix_fmt f.
Proof.
  intros H0 H. unfold wave6_find_vpu_fmt_by_idx in H.
  destruct (Z.leb_spec FMT_LIST_SIZE idx); [discriminate |].
  destruct (pixel_format_beq _ V4L2_PIX_FMT_NONE) eqn:Eb; [discriminate |].
  injection H as <-. split; [assumption |]. split.
  - intros C. rewrite C in Eb. discriminate.
  - change V4L2_PIX_FMT_NONE with (v4l2_pix_fmt empty_fmt) at 1.
    apply map_nth.
Qed.

(** X10: the two format enumerations are complete and free of duplicates.
    The capture side answers exactly the indices 0 and 1 and the output side
    exactly the indices 0 to 27, every other index gets [-EINVAL]; and no
    pixel format is enumerated at two indices. *)
Theorem enum_fmt_complete (lim : wave6_limits) :
  (forall idx, 0 <= idx ->
     (fst (wave6_vpu_enc_enum_fmt_cap lim idx) = 0 <-> idx < 2)
     /\ (fst (wave6_vpu_enc_enum_fmt_out lim idx) = 0 <-> idx < 28)
     /\ (2 <= idx -> wave6_vpu_enc_enum_fmt_cap lim idx = (- EINVAL, None))
     /\ (28 <= idx -> wave6_vpu_enc_enum_fmt_out lim idx = (- EINVAL, None)))
  /\ (forall i j t, 0 <= i -> 0 <= j ->
        wave6_vpu_enc_enum_fmt_out lim i = (0, Some t) ->
        wave6_vpu_enc_enum_fmt_out lim j = (0, Some t) -> i = j)
  /\ (forall i j t, 0 <= i -> 0 <= j ->
        wave6_vpu_enc_enum_fmt_cap lim i = (0, Some t) ->
        wave6_vpu_enc_enum_fmt_cap lim j = (0, Some t) -> i = j).
Proof.
  assert (Cap : forall idx, 2 <= idx ->
            wave6_find_vpu_fmt_by_idx lim idx VPU_FMT_TYPE_CODEC = None).
  { intros idx H. unfold wave6_find_vpu_fmt_by_idx.
    destruct (Z.leb_spec FMT_LIST_SIZE idx) as [| L]; [reflexivity |].
    assert (Hin : In idx (zrange FMT_LIST_SIZE)) by (apply in_zrange; lia).
    vm_compute in Hin.
    repeat (destruct Hin as [<- | Hin]; [try lia; reflexivity |]).
    contradiction. }
  assert (Out : forall idx, 0 <= idx < 28 ->
            exists f, wave6_find_vpu_fmt_by_idx lim idx VPU_FMT_TYPE_RAW
                      = Some f).
  { intros idx H.
    assert (Hin : In idx (zrange FMT_LIST_SIZE))
      by (apply in_zrange; unfold FMT_LIST_SIZE; lia).
    vm_compute in Hin.
    repeat (destruct Hin as [<- | Hin]; [eexists; reflexivity |]).
    contradiction. }
  split; [| split].
  - intros idx H0. unfold wave6_vpu_enc_enum_fmt_cap,
      wave6_vpu_enc_enum_fmt_out. split; [| split; [| split]].
    + destruct (Z.lt_ge_cases idx 2) as [L | G].
      * assert (E : idx = 0 \/ idx = 1) by lia.
        destruct E as [-> | ->]; split; intros; (reflexivity || lia).
      * rewrite (Cap idx G). cbn. split; [discriminate | lia].
    + destruct (Z.lt_ge_cases idx 28) as [L | G].
      * destruct (Out idx (conj H0 L)) as [f ->]. cbn. split; [lia | reflexivity].
      * unfold wave6_find_vpu_fmt_by_idx.
        destruct (Z.leb_spec FMT_LIST_SIZE idx) as [| L];
          [| unfold FMT_LIST_SIZE in L; lia].
        cbn. split; [discriminate | lia].
    + intros G. rewrite (Cap idx G). reflexivity.
    + intros G. unfold wave6_find_vpu_fmt_by_idx.
      destruct (Z.leb_spec FMT_LIST_SIZE idx) as [| L];
        [reflexivity | unfold FMT_LIST_SIZE in L; lia].
  - intros i j t Hi Hj. unfold wave6_vpu_enc_enum_fmt_out.
    destruct (wave6_find_vpu_fmt_by_idx lim i VPU_FMT_TYPE_RAW) as [f |] eqn:Ei;
      [| discriminate].
    destruct (wave6_find_vpu_fmt_by_idx lim j VPU_FMT_TYPE_RAW) as [g |] eqn:Ej;
      [| discriminate].
    intros [= <-] [= Eg].
    destruct (by_idx_nth lim i _ f Hi Ei) as (Li & _ & Ni).
    destruct (by_idx_nth lim j _ g Hj Ej) as (Lj & _ & Nj).
    pose proof (raw_tags_nodup lim) as Nd.
    rewrite (NoDup_nth _ V4L2_PIX_FMT_NONE) in Nd.
    assert (Z.to_nat i = Z.to_nat j).
    { apply Nd.
      - rewrite length_map. cbn. unfold FMT_LIST_SIZE in Li. lia.
      - rewrite length_map. cbn. unfold FMT_LIST_SIZE in Lj. lia.
      - rewrite Ni, Nj. symmetry. exact Eg. }
    lia.
  - intros i j t Hi Hj. unfold wave6_vpu_enc_enum_fmt_cap.
    destruct (Z.lt_ge_cases i 2) as [Li | Gi];
      [| rewrite (Cap i Gi); discriminate].
    destruct (Z.lt_ge_cases j 2) as [Lj | Gj];
      [| rewrite (Cap j Gj); discriminate].
    assert (Ei : i = 0 \/ i = 1) by lia.
    assert (Ej : j = 0 \/ j = 1) by lia.
    destruct Ei as [-> | ->], Ej as [-> | ->]; intros H1 H2;
      vm_compute in H1, H2; congruence.
Qed.

Lemma enum_fmt_complete_witness :
  fst (wave6_vpu_enc_enum_fmt_cap small_limits 1) = 0
  /\ wave6_vpu_enc_enum_fmt_out small_limits 28 = (- EINVAL, None).
Proof.
  destruct (enum_fmt_complete small_limits) as (H & _).
  destruct (H 1) as ((_ & H1) & _); [lia |].
  destruct (H 28) as (_ & _ & _ & H4); [lia |].
  split; [apply H1; lia | apply H4; lia].
Defined.

(** * Colorimetry and colour conversion *)

(** X11: the colorimetry translation only ever produces code points of the
    video usability information that are defined.  Whatever the colour
    space, transfer function, encoding and quantization of the instance
    (named or not), and whatever the two default maps return, the range flag
    is 0 or 1, the primaries are one of 1, 2, 4, 5, 6, 7, 9, 11, the
    transfer characteristics one of 1, 2, 6, 7, 8, 13, 14, 16 and the matrix
    coefficients one of 1, 2, 5, 6, 7, 9, 10; values the functions do not
    name are translated to 2 (unspecified). *)
Theorem colorimetry_code_points
  (xmap : v4l2_colorspace -> v4l2_xfer_func)
  (ymap : v4l2_colorspace -> v4l2_ycbcr_encoding)
  (c : v4l2_colorspace) (x : v4l2_xfer_func) (y : v4l2_ycbcr_encoding)
  (q : v4l2_quantization) :
  In (to_video_full_range_flag q) [0; 1]
  /\ In (to_colour_primaries c) [1; 2; 4; 5; 6; 7; 9; 11]
  /\ In (to_transfer_characteristics xmap c x) [1; 2; 6; 7; 8; 13; 14; 16]
  /\ In (to_matrix_coeffs ymap c y) [1; 2; 5; 6; 7; 9; 10]
  /\ to_colour_primaries V4L2_COLORSPACE_OTHER = 2
  /\ to_transfer_characteristics xmap c V4L2_XFER_FUNC_OTHER = 2
  /\ to_matrix_coeffs ymap c V4L2_YCBCR_ENC_OTHER = 2.
Proof.
  split; [destruct q; cbn; tauto |].
  split; [destruct c; cbn; tauto |].
  split.
  { unfold to_transfer_characteristics.
    destruct x; try (destruct c; cbn; tauto).
    destruct (xmap c); destruct c; cbn; tauto. }
  split.
  { unfold to_matrix_coeffs.
    destruct y; try (destruct c; cbn; tauto).
    destruct (ymap c); destruct c; cbn; tauto. }
  repeat split.
Qed.


(** X12: every coefficient set the driver installs keeps grey grey.  In the
    conversion set built for a picture request the Cb row and the Cr row
    each sum to zero in 32-bit arithmetic and the two chroma offsets are
    equal; and when a set is installed, its luma row sums to 512 (1.0 in the
    fixed-point format) with a zero luma offset for full range, and to
    between 438 and 441 (219/255) with a luma offset of 16 or 64 for the
    other ranges. *)
Theorem csc_keeps_grey (lim : wave6_limits) (inst : enc_instance) :
  let c := wave6_set_csc lim inst zero_csc in
  u32 (coef_rcb c + coef_gcb c + coef_bcb c) = 0
  /\ u32 (coef_rcr c + coef_gcr c + coef_bcr c) = 0
  /\ offset_cb c = offset_cr c
  /\ (coef_ry c <> 0 ->
      (quantization inst = V4L2_QUANTIZATION_FULL_RANGE ->
       coef_ry c + coef_gy c + coef_by c = 512 /\ offset_y c = 0)
      /\ (quantization inst <> V4L2_QUANTIZATION_FULL_RANGE ->
          438 <= coef_ry c + coef_gy c + coef_by c <= 441
          /\ (offset_y c = 16 \/ offset_y c = 64))).
Proof.
  cbv zeta. unfold wave6_set_csc.
  assert (Z0 : u32 0 = 0 /\ u32 0 = 0 /\ 0 = 0
               /\ (0 <> 0 ->
                   (quantization inst = V4L2_QUANTIZATION_FULL_RANGE ->
                    0 + 0 + 0 = 512 /\ 0 = 0)
                   /\ (quantization inst <> V4L2_QUANTIZATION_FULL_RANGE ->
                       438 <= 0 + 0 + 0 <= 441 /\ (0 = 16 \/ 0 = 64)))).
  { split; [reflexivity |]. split; [reflexivity |]. split; [reflexivity |].
    intros N. now elim N. }
  destruct (wave6_find_vpu_fmt lim _ _) as [f |]; [| exact Z0].
  destruct (is_rgb f); cbn [negb]; [| exact Z0]. clear Z0.
  destruct (is_10bit f), (ycbcr_enc inst), (quantization inst); cbn.
  all: split; [reflexivity |]; split; [reflexivity |];
       split; [reflexivity |]; intros N; try (now elim N).
  all: split; intros Q; try discriminate; try (now elim Q).
  all: split; [lia || reflexivity | try reflexivity; auto].
Qed.

Lemma csc_keeps_grey_witness :
  let c := wave6_set_csc small_limits
             (session idle_instance V4L2_PIX_FMT_RGB24 128 64
                V4L2_YCBCR_ENC_709 V4L2_QUANTIZATION_FULL_RANGE) zero_csc in
  coef_ry c + coef_gy c + coef_by c = 512 /\ offset_y c = 0.
Proof.
  intros c.
  destruct (csc_keeps_grey small_limits
              (session idle_instance V4L2_PIX_FMT_RGB24 128 64
                 V4L2_YCBCR_ENC_709 V4L2_QUANTIZATION_FULL_RANGE))
    as (_ & _ & _ & H).
  destruct H as [H _]; [vm_compute; discriminate |].
  apply H. reflexivity.
Defined.

(** X13: the bit depth of an RGB source changes the offsets of the
    conversion set and nothing else.  For two RGB sources, one of 8 and one
    of 10 bits, with the same encoding and quantization, the nine
    coefficients are the same and each of the three offsets of the 10-bit
    source is four times the offset of the 8-bit source. *)
Theorem csc_bit_depth (lim : wave6_limits) (i8 i10 : enc_instance)
  (f8 f10 : vpu_format) :
  wave6_find_vpu_fmt lim (pixelformat (src_fmt i8)) VPU_FMT_TYPE_RAW = Some f8 ->
  wave6_find_vpu_fmt lim (pixelformat (src_fmt i10)) VPU_FMT_TYPE_RAW
  = Some f10 ->
  is_rgb f8 = true -> is_rgb f10 = true ->
  is_10bit f8 = false -> is_10bit f10 = true ->
  ycbcr_enc i8 = ycbcr_enc i10 -> quantization i8 = quantization i10 ->
  let c8 := wave6_set_csc lim i8 zero_csc in
  let c10 := wave6_set_csc lim i10 zero_csc in
  (coef_ry c10, coef_gy c10, coef_by c10) = (coef_ry c8, coef_gy c8, coef_by c8)
  /\ (coef_rcb c10, coef_gcb c10, coef_bcb c10)
     = (coef_rcb c8, coef_gcb c8, coef_bcb c8)
  /\ (coef_rcr c10, coef_gcr c10, coef_bcr c10)
     = (coef_rcr c8, coef_gcr c8, coef_bcr c8)
  /\ offset_y c10 = 4 * offset_y c8
  /\ offset_cb c10 = 4 * offset_cb c8
  /\ offset_cr c10 = 4 * offset_cr c8.
Proof.
  intros F8 F10 R8 R10 B8 B10 Ee Eq. cbv zeta. unfold wave6_set_csc.
  rewrite F8, F10, R8, R10, B8, B10, Ee, Eq. cbn [negb].
  destruct (ycbcr_enc i10), (quantization i10); cbn; repeat split.
Qed.

Lemma csc_bit_depth_witness :
  let c8 := wave6_set_csc small_limits
              (session idle_instance V4L2_PIX_FMT_BGR24 128 64
                 V4L2_YCBCR_ENC_601 V4L2_QUANTIZATION_LIM_RANGE) zero_csc in
  let c10 := wave6_set_csc small_limits
               (session idle_instance V4L2_PIX_FMT_ARGB2101010 128 64
                  V4L2_YCBCR_ENC_601 V4L2_QUANTIZATION_LIM_RANGE) zero_csc in
  offset_y c10 = 4 * offset_y c8 /\ offset_cb c10 = 4 * offset_cb c8.
Proof.
  intros c8 c10.
  destruct (csc_bit_depth small_limits
              (session idle_instance V4L2_PIX_FMT_BGR24 128 64
                 V4L2_YCBCR_ENC_601 V4L2_QUANTIZATION_LIM_RANGE)
              (session idle_instance V4L2_PIX_FMT_ARGB2101010 128 64
                 V4L2_YCBCR_ENC_601 V4L2_QUANTIZATION_LIM_RANGE)
              (rgb_fmt small_limits V4L2_PIX_FMT_BGR24 (Some CSC_ORDER_BGR)
                 false)
              (rgb_fmt small_limits V4L2_PIX_FMT_ARGB2101010 None true)
              eq_refl eq_refl eq_refl eq_refl eq_refl eq_refl eq_refl eq_refl)
    as (_ & _ & _ & H1 & H2 & _).
  split; [exact H1 | exact H2].
Defined.

(** * Frame rate and crop negotiation *)

Lemma s32_range x : - 2 ^ 31 <= s32 x < 2 ^ 31.
Proof.
  unfold s32. cbv zeta.
  pose proof (Z.mod_pos_bound x (2 ^ 32) eq_refl).
  destruct (Z.ltb_spec (x mod 2 ^ 32) (2 ^ 31)); lia.
Qed.

Lemma s32_u32 x : - 2 ^ 31 <= x < 2 ^ 31 -> s32 (u32 x) = x.
Proof.
  intros H. unfold s32, u32. cbv zeta. rewrite Z.mod_mod by lia.
  destruct (Z.neg_nonneg_cases x) as [N | P].
  - assert (E : x mod 2 ^ 32 = x + 2 ^ 32).
    { symmetry. apply (Z.mod_unique x (2 ^ 32) (-1)); lia. }
    rewrite E. destruct (Z.ltb_spec (x + 2 ^ 32) (2 ^ 31)); lia.
  - rewrite Z.mod_small by lia.
    destruct (Z.ltb_spec x (2 ^ 31)); lia.
Qed.

Lemma set_frame_rate_same inst : set_frame_rate (frame_rate inst) inst = inst.
Proof. destruct inst. reflexivity. Qed.

(** X14: frame rate negotiation.  On an output type, setting a time per
    frame with numerator and denominator other than zero stores the integer
    quotient denominator / numerator, which reading the parameter then
    reports as 1 / quotient; a time per frame longer than one second is thus
    stored as the frame rate 0.  With a zero numerator or denominator the
    instance is left alone and the current rate is reported.  Setting what
    reading returned changes nothing.  On another type both calls return
    [-EINVAL] and change nothing. *)
Theorem parm_round_trip (vd : v4l2_defs) (a : v4l2_streamparm)
  (inst : enc_instance) :
  0 <= numerator a -> 0 <= denominator a ->
  let r := wave6_vpu_enc_s_parm vd a inst in
  let g := wave6_vpu_enc_g_parm vd a (snd r) in
  (parm_is_output a = false ->
   r = (- EINVAL, a, inst) /\ wave6_vpu_enc_g_parm vd a inst = (- EINVAL, a))
  /\ (parm_is_output a = true ->
      fst (fst r) = 0 /\ fst g = 0
      /\ numerator (snd g) = 1 /\ denominator (snd g) = frame_rate (snd r)
      /\ (numerator a <> 0 -> denominator a <> 0 ->
          frame_rate (snd r) = denominator a / numerator a
          /\ (denominator a < numerator a -> frame_rate (snd r) = 0))
      /\ (numerator a = 0 \/ denominator a = 0 ->
          snd r = inst /\ numerator (snd (fst r)) = 1
          /\ denominator (snd (fst r)) = frame_rate inst)
      /\ snd (wave6_vpu_enc_s_parm vd (snd (wave6_vpu_enc_g_parm vd a inst))
                inst) = inst).
Proof.
  intros Hn Hd. cbv zeta.
  unfold wave6_vpu_enc_s_parm, wave6_vpu_enc_g_parm. split.
  - intros ->. split; reflexivity.
  - intros ->. cbn [negb].
    destruct (Z.eqb_spec (denominator a) 0) as [Ed | Nd];
      destruct (Z.eqb_spec (numerator a) 0) as [En | Nn]; cbn.
    all: split; [reflexivity |]; split; [reflexivity |];
         split; [reflexivity |]; split; [reflexivity |].
    all: split; [intros; try contradiction |].
    all: try (split; [reflexivity |]; intros L; apply Z.div_small; lia).
    all: split; [intros; try lia; repeat split |].
    all: destruct (Z.eqb_spec (frame_rate inst) 0) as [E0 | N0]; cbn;
         try reflexivity.
    all: rewrite Z.div_1_r; apply set_frame_rate_same.
Qed.

Lemma parm_round_trip_witness :
  let a := {| parm_is_output := true; capability := 0;
              numerator := 1001; denominator := 30000 |} in
  let i := session idle_instance V4L2_PIX_FMT_NV12 128 64
             V4L2_YCBCR_ENC_DEFAULT V4L2_QUANTIZATION_DEFAULT in
  frame_rate (snd (wave6_vpu_enc_s_parm sample_v4l2 a i)) = 29.
Proof.
  intros a i.
  destruct (parm_round_trip sample_v4l2 a i) as (_ & H);
    [cbn; lia | cbn; lia |].
  destruct (H eq_refl) as (_ & _ & _ & _ & H5 & _).
  destruct H5 as [H5 _]; [cbn; lia | cbn; lia |].
  rewrite H5. reflexivity.
Defined.

Lemma set_roi_info_crop hdr v :
  crop (wave6_vpu_enc_set_roi_info hdr v) = crop v.
Proof.
  unfold wave6_vpu_enc_set_roi_info. destruct (roi_info_eqb _ _); reflexivity.
Qed.

Lemma clamp_bounds val lo hi : lo <= hi -> lo <= clamp val lo hi <= hi.
Proof. unfold clamp. lia. Qed.

Lemma s_selection_round_facts lim vd s :
  - 2 ^ 31 <= r_left (sel_r s) < 2 ^ 31 ->
  - 2 ^ 31 <= r_top (sel_r s) < 2 ^ 31 ->
  let s2 := s_selection_round lim vd s in
  let step := W6_ENC_CROP_STEP lim in
  sel_is_output s2 = sel_is_output s /\ sel_target s2 = sel_target s
  /\ In (r_left (sel_r s2))
        [r_left (sel_r s); round_down_s32 (r_left (sel_r s)) step;
         round_up_s32 (r_left (sel_r s)) step;
         round_down_s32 (round_up_s32 (r_left (sel_r s)) step) step]
  /\ - 2 ^ 31 <= r_left (sel_r s2) < 2 ^ 31
  /\ - 2 ^ 31 <= r_top (sel_r s2) < 2 ^ 31.
Proof.
  intros Hl Ht. cbv zeta. unfold s_selection_round.
  destruct (Z.land (sel_flags s) _ =? 0);
    destruct (negb (Z.land _ (V4L2_SEL_FLAG_GE vd) =? 0));
    destruct (negb (Z.land _ (V4L2_SEL_FLAG_LE vd) =? 0));
    cbn [sel_is_output sel_target sel_r set_sel_r set_sel_flags r_left r_top];
    (split; [reflexivity |]); (split; [reflexivity |]);
    (split; [cbn; tauto |]);
    split; first [assumption | apply s32_range].
Qed.

(** X15: what a crop request does.  For a request on an output type with
    the crop target the call returns 0.  Whether it applies the crop can be
    read off the rectangle handed back: when that rectangle has a zero width
    or height, or starts less than the minimum picture size before the right
    or bottom edge of the source, the instance is left as it was.  Otherwise
    the stored crop is the rectangle handed back, which is also what reading
    the crop then returns; the source format is untouched; width and height
    are at least the minimum picture size; and the rectangle ends inside the
    source when its origin is not beyond the source size.  The origin
    itself is taken as rounded: it is the requested one, rounded up, rounded
    down or both, and is not checked against zero. *)
Theorem s_selection_crop (hdr : wave6_defs) (lim : wave6_limits)
  (vd : v4l2_defs)
  (upd : v4l2_pix_format_mplane -> Z -> Z -> v4l2_pix_format_mplane)
  (s : v4l2_selection) (inst : enc_instance) :
  sel_is_output s = true -> sel_target s = V4L2_SEL_TGT_CROP ->
  - 2 ^ 31 <= r_left (sel_r s) < 2 ^ 31 ->
  - 2 ^ 31 <= r_top (sel_r s) < 2 ^ 31 ->
  0 < W6_MIN_ENC_PIC_WIDTH lim -> 0 < W6_MIN_ENC_PIC_HEIGHT lim ->
  0 <= pix_width (src_fmt inst) < 2 ^ 31 ->
  0 <= pix_height (src_fmt inst) < 2 ^ 31 ->
  let r := wave6_vpu_enc_s_selection hdr lim vd upd s inst in
  let s' := snd (fst r) in
  let inst' := snd r in
  let src_w := pix_width (src_fmt inst) in
  let src_h := pix_height (src_fmt inst) in
  let step := W6_ENC_CROP_STEP lim in
  let applied :=
    negb ((r_width (sel_r s') =? 0) || (r_height (sel_r s') =? 0)
          || (u32 (src_w - r_left (sel_r s')) <? W6_MIN_ENC_PIC_WIDTH lim)
          || (u32 (src_h - r_top (sel_r s')) <? W6_MIN_ENC_PIC_HEIGHT lim)) in
  fst (fst r) = 0
  /\ In (r_left (sel_r s'))
        [r_left (sel_r s); round_down_s32 (r_left (sel_r s)) step;
         round_up_s32 (r_left (sel_r s)) step;
         round_down_s32 (round_up_s32 (r_left (sel_r s)) step) step]
  /\ (applied = false -> inst' = inst)
  /\ (applied = true ->
      crop (vpu inst') = sel_r s'
      /\ wave6_vpu_enc_g_selection s' inst' = (0, s')
      /\ src_fmt inst' = src_fmt inst
      /\ W6_MIN_ENC_PIC_WIDTH lim <= r_width (sel_r s')
      /\ W6_MIN_ENC_PIC_HEIGHT lim <= r_height (sel_r s')
      /\ (r_left (sel_r s') <= src_w ->
          r_left (sel_r s') + r_width (sel_r s') <= src_w)
      /\ (r_top (sel_r s') <= src_h ->
          r_top (sel_r s') + r_height (sel_r s') <= src_h)).
Proof.
  intros Hout Htgt Hl Ht Hmw Hmh Hsw Hsh. cbv zeta.
  unfold wave6_vpu_enc_s_selection. rewrite Hout, Htgt. cbn [negb].
  destruct (s_selection_round_facts lim vd s Hl Ht)
    as (Eo & Et & Il & Rl & Rt).
  set (s2 := s_selection_round lim vd s) in *.
  set (left2 := r_left (sel_r s2)) in *. set (top2 := r_top (sel_r s2)) in *.
  set (w2 := r_width (sel_r s2)) in *. set (h2 := r_height (sel_r s2)) in *.
  set (mw := u32 (pix_width (src_fmt inst) - left2)).
  set (mh := u32 (pix_height (src_fmt inst) - top2)).
  destruct ((w2 =? 0) || (h2 =? 0)) eqn:Ez.
  { cbn [fst snd]. fold left2 top2 w2 h2. rewrite Ez. cbn.
    repeat split; try assumption; discriminate. }
  destruct (Z.ltb_spec mw (W6_MIN_ENC_PIC_WIDTH lim)) as [Lw | Gw].
  { cbn [fst snd]. fold left2 top2 w2 h2 mw. rewrite Ez.
    destruct (Z.ltb_spec mw (W6_MIN_ENC_PIC_WIDTH lim)); [| lia]. cbn.
    repeat split; try assumption; discriminate. }
  destruct (Z.ltb_spec mh (W6_MIN_ENC_PIC_HEIGHT lim)) as [Lh | Gh].
  { cbn [fst snd]. fold left2 top2 w2 h2 mw mh. rewrite Ez.
    destruct (Z.ltb_spec mh (W6_MIN_ENC_PIC_HEIGHT lim)); [| lia].
    rewrite orb_true_r. cbn. repeat split; try assumption; discriminate. }
  pose proof (clamp_bounds w2 _ _ Gw) as Cw.
  pose proof (clamp_bounds h2 _ _ Gh) as Ch.
  set (w3 := clamp w2 (W6_MIN_ENC_PIC_WIDTH lim) mw) in *.
  set (h3 := clamp h2 (W6_MIN_ENC_PIC_HEIGHT lim) mh) in *.
  cbn [fst snd sel_r set_sel_r r_left r_top r_width r_height].
  split; [reflexivity |]. split; [exact Il |].
  destruct (Z.eqb_spec w3 0); [lia |].
  destruct (Z.eqb_spec h3 0); [lia |].
  fold mw mh.
  destruct (Z.ltb_spec mw (W6_MIN_ENC_PIC_WIDTH lim)); [lia |].
  destruct (Z.ltb_spec mh (W6_MIN_ENC_PIC_HEIGHT lim)); [lia |].
  cbn [orb negb]. split; [discriminate |]. intros _.
  assert (Ec : crop (vpu (set_vpu
                 (wave6_vpu_enc_set_roi_info hdr
                    (wave6_update_crop_info hdr
                       (vpu (set_dst_fmt (upd (dst_fmt inst) w3 h3) inst))
                       (u32 left2) (u32 top2) w3 h3))
                 (set_dst_fmt (upd (dst_fmt inst) w3 h3) inst)))
               = {| r_left := left2; r_top := top2;
                    r_width := w3; r_height := h3 |}).
  { cbn [vpu set_vpu]. rewrite set_roi_info_crop.
    unfold wave6_update_crop_info. cbn [crop set_rects].
    rewrite !s32_u32 by assumption. reflexivity. }
  split; [exact Ec |].
  split.
  { unfold wave6_vpu_enc_g_selection.
    cbn [sel_is_output sel_target set_sel_r negb].
    rewrite Eo, Et, Hout, Htgt. cbn [negb]. rewrite Ec. reflexivity. }
  split; [reflexivity |].
  split; [lia |]. split; [lia |].
  unfold mw, mh, u32 in *.
  split; intros Hle.
  - rewrite Z.mod_small in Cw by lia. lia.
  - rewrite Z.mod_small in Ch by lia. lia.
Qed.

(** A request on a 128x64 source whose origin lies left of the source: it
    is applied with the negative offset. *)
Lemma s_selection_crop_witness :
  let s := {| sel_is_output := true; sel_target := V4L2_SEL_TGT_CROP;
              sel_flags := 0;
              sel_r := {| r_left := -3; r_top := 0; r_width := 101;
                          r_height := 64 |} |} in
  let i := session idle_instance V4L2_PIX_FMT_NV12 128 64
             V4L2_YCBCR_ENC_DEFAULT V4L2_QUANTIZATION_DEFAULT in
  let r := wave6_vpu_enc_s_selection sample_defs small_limits sample_v4l2
             plain_update_pix_fmt s i in
  crop (vpu (snd r)) = sel_r (snd (fst r))
  /\ sel_r (snd (fst r)) = {| r_left := -4; r_top := 0; r_width := 100;
                              r_height := 64 |}.
Proof.
  intros s i r.
  destruct (s_selection_crop sample_defs small_limits sample_v4l2
              plain_update_pix_fmt s i eq_refl eq_refl)
    as (_ & _ & _ & H); try (cbn; lia).
  destruct H as (H & _); [reflexivity |].
  split; [exact H | reflexivity].
Defined.

Lemma s32_id x : - 2 ^ 31 <= x < 2 ^ 31 -> s32 x = x.
Proof.
  intros H. rewrite <- (s32_u32 x H) at 2. unfold s32, u32. cbv zeta.
  rewrite Z.mod_mod by lia. reflexivity.
Qed.

(** [round_down] of a signed value to a power of two is the floor to a
    multiple, for negative values too. *)
Lemma round_down_s32_pow2 x k :
  0 <= k <= 30 -> - 2 ^ 31 <= x < 2 ^ 31 ->
  round_down_s32 x (2 ^ k) = x - x mod 2 ^ k.
Proof.
  intros Hk Hx. unfold round_down_s32.
  assert (Hp : 0 < 2 ^ k) by (apply Z.pow_pos_nonneg; lia).
  assert (Hq : 2 ^ k <= 2 ^ 30) by (apply Z.pow_le_mono_r; lia).
  rewrite (s32_id (2 ^ k - 1)) by lia.
  replace (2 ^ k - 1) with (Z.ones k)
    by (rewrite Z.ones_equiv; unfold Z.pred; lia).
  rewrite <- Z.ldiff_land, Z.ldiff_ones_r by lia.
  rewrite Z.shiftr_div_pow2, Z.shiftl_mul_pow2 by lia.
  pose proof (Z.div_mod x (2 ^ k)) as D.
  pose proof (Z.mod_pos_bound x (2 ^ k) Hp) as B.
  assert (E : x / 2 ^ k * 2 ^ k = x - x mod 2 ^ k) by lia.
  rewrite E. apply s32_id.
  assert (L : - 2 ^ 31 <= x - x mod 2 ^ k); [| lia].
  assert (M : - 2 ^ (31 - k) <= x / 2 ^ k).
  { apply Z.div_le_lower_bound; [lia |].
    rewrite Z.mul_opp_r, <- Z.pow_add_r by lia.
    replace (k + (31 - k)) with 31 by lia. lia. }
  assert (P : 2 ^ 31 = 2 ^ (31 - k) * 2 ^ k).
  { rewrite <- Z.pow_add_r by lia. f_equal. lia. }
  rewrite <- E. nia.
Qed.

Lemma default_flags_tests f ge le :
  Z.land ge le = 0 -> le <> 0 -> Z.land f (Z.lor ge le) = 0 ->
  Z.land (Z.lor f le) ge = 0 /\ Z.land (Z.lor f le) le <> 0.
Proof.
  intros Hd Hle Hf. split.
  - rewrite Z.land_lor_distr_l.
    rewrite Z.land_lor_distr_r in Hf. apply Z.lor_eq_0_iff in Hf.
    destruct Hf as [-> _]. rewrite (Z.land_comm le ge), Hd. reflexivity.
  - rewrite land_lor_same. exact Hle.
Qed.

(** X16: a crop request without rounding flag is rounded down.  When the
    request sets neither the greater-or-equal nor the less-or-equal flag
    (two different flag bits), the less-or-equal flag is added and, for a
    crop step that is a power of two, each of the four values of the
    rectangle is lowered to the next multiple of the step; for the origin
    this also holds when it is negative. *)
Theorem s_selection_default_rounds_down (lim : wave6_limits)
  (vd : v4l2_defs) (s : v4l2_selection) (k : Z) :
  W6_ENC_CROP_STEP lim = 2 ^ k -> 0 <= k <= 30 ->
  Z.land (V4L2_SEL_FLAG_GE vd) (V4L2_SEL_FLAG_LE vd) = 0 ->
  V4L2_SEL_FLAG_LE vd <> 0 ->
  Z.land (sel_flags s)
         (Z.lor (V4L2_SEL_FLAG_GE vd) (V4L2_SEL_FLAG_LE vd)) = 0 ->
  - 2 ^ 31 <= r_left (sel_r s) < 2 ^ 31 ->
  - 2 ^ 31 <= r_top (sel_r s) < 2 ^ 31 ->
  0 <= r_width (sel_r s) < 2 ^ 32 -> 0 <= r_height (sel_r s) < 2 ^ 32 ->
  let s2 := s_selection_round lim vd s in
  let down x := x - x mod 2 ^ k in
  sel_flags s2 = Z.lor (sel_flags s) (V4L2_SEL_FLAG_LE vd)
  /\ sel_r s2 = {| r_left := down (r_left (sel_r s));
                   r_top := down (r_top (sel_r s));
                   r_width := down (r_width (sel_r s));
                   r_height := down (r_height (sel_r s)) |}
  /\ r_left (sel_r s) - 2 ^ k < r_left (sel_r s2) <= r_left (sel_r s)
  /\ r_top (sel_r s) - 2 ^ k < r_top (sel_r s2) <= r_top (sel_r s).
Proof.
  intros Es Hk Hd Hle Hf Hl Ht Hw Hh. cbv zeta.
  destruct (default_flags_tests _ _ _ Hd Hle Hf) as [T1 T2].
  unfold s_selection_round. rewrite Hf. cbn [Z.eqb].
  rewrite T1. cbn [Z.eqb negb].
  destruct (Z.eqb_spec (Z.land (Z.lor (sel_flags s) (V4L2_SEL_FLAG_LE vd))
                          (V4L2_SEL_FLAG_LE vd)) 0) as [C | _];
    [contradiction |].
  cbn [negb sel_flags sel_r set_sel_r set_sel_flags r_left r_top].
  rewrite Es. rewrite !round_down_s32_pow2 by assumption.
  rewrite !round_down_pow2 by lia.
  assert (Hp : 0 < 2 ^ k) by (apply Z.pow_pos_nonneg; lia).
  pose proof (Z.mod_pos_bound (r_left (sel_r s)) (2 ^ k) Hp).
  pose proof (Z.mod_pos_bound (r_top (sel_r s)) (2 ^ k) Hp).
  repeat split; lia.
Qed.

Lemma s_selection_default_rounds_down_witness :
  sel_r (s_selection_round small_limits sample_v4l2
           {| sel_is_output := true; sel_target := V4L2_SEL_TGT_CROP;
              sel_flags := 0;
              sel_r := {| r_left := -3; r_top := 5; r_width := 101;
                          r_height := 64 |} |})
  = {| r_left := -4; r_top := 4; r_width := 100; r_height := 64 |}.
Proof.
  assert (Hk : 0 <= 1 <= 30) by lia.
  assert (Hle : V4L2_SEL_FLAG_LE sample_v4l2 <> 0) by (cbn; lia).
  assert (Hl : - 2 ^ 31 <= -3 < 2 ^ 31) by lia.
  assert (Ht : - 2 ^ 31 <= 5 < 2 ^ 31) by lia.
  assert (Hw : 0 <= 101 < 2 ^ 32) by lia.
  assert (Hh : 0 <= 64 < 2 ^ 32) by lia.
  destruct (s_selection_default_rounds_down small_limits sample_v4l2
              {| sel_is_output := true; sel_target := V4L2_SEL_TGT_CROP;
                 sel_flags := 0;
                 sel_r := {| r_left := -3; r_top := 5; r_width := 101;
                             r_height := 64 |} |} 1
              eq_refl Hk eq_refl Hle eq_refl Hl Ht Hw Hh)
    as (_ & H & _).
  rewrite H. reflexivity.
Defined.

(** * Controls and buffer queueing *)

Lemma find_pos_app {A} (p : A -> bool) l l' :
  find_pos p (l ++ l')
  = match find_pos p l with
    | Some x => Some x
    | None => match find_pos p l' with
              | Some (n, y) => Some ((length l + n)%nat, y)
              | None => None
              end
    end.
Proof.
  induction l as [| x l IH]; cbn.
  - destruct (find_pos p l') as [[n y] |]; reflexivity.
  - destruct (p x); [reflexivity |]. rewrite IH.
    destruct (find_pos p l) as [[n y] |]; [reflexivity |].
    destruct (find_pos p l') as [[n y] |]; reflexivity.
Qed.

(** X17: queueing keeps the order of selection.  A buffer queued on either
    side is put behind the ready buffers of that side with its consumed and
    used marks cleared, so that the buffer the next cycle selects is the one
    it would have selected before, and the new buffer when there was none;
    a source buffer is stamped with the number of source buffers queued so
    far; the counter of the side advances by one and the other side is left
    alone. *)
Theorem buf_queue_keeps_order (d : queue_dir) (b : vpu_buffer)
  (inst : enc_instance) :
  let inst' := wave6_vpu_enc_buf_queue d b inst in
  let c := m2m_ctx (vpu inst) in
  let c' := m2m_ctx (vpu inst') in
  match d with
  | SRC_QUEUE =>
      (exists b', src_rdy c' = src_rdy c ++ [b']
                  /\ vb_index b' = vb_index b /\ vb_daddr b' = vb_daddr b
                  /\ consumed b' = false /\ used b' = false
                  /\ vb_sequence b' = queued_src_buf_num inst
                  /\ wave6_get_valid_src_buf (vpu inst')
                     = match wave6_get_valid_src_buf (vpu inst) with
                       | Some x => Some x
                       | None => Some (length (src_rdy c), b')
                       end)
      /\ dst_rdy c' = dst_rdy c
      /\ queued_src_buf_num inst' = queued_src_buf_num inst + 1
      /\ queued_dst_buf_num inst' = queued_dst_buf_num inst
  | DST_QUEUE =>
      (exists b', dst_rdy c' = dst_rdy c ++ [b']
                  /\ vb_index b' = vb_index b /\ vb_daddr b' = vb_daddr b
                  /\ consumed b' = false /\ used b' = false
                  /\ wave6_get_valid_dst_buf (vpu inst')
                     = match wave6_get_valid_dst_buf (vpu inst) with
                       | Some x => Some x
                       | None => Some (length (dst_rdy c), b')
                       end)
      /\ src_rdy c' = src_rdy c
      /\ queued_dst_buf_num inst' = queued_dst_buf_num inst + 1
      /\ queued_src_buf_num inst' = queued_src_buf_num inst
  end
  /\ returned c' = returned c /\ state (vpu inst') = state (vpu inst).
Proof.
  cbv zeta. unfold wave6_vpu_enc_buf_queue.
  destruct d; cbn; (split; [| split; reflexivity]).
  - split; [| repeat split].
    eexists. split; [reflexivity |]. repeat split.
    unfold wave6_get_valid_src_buf. cbn. rewrite find_pos_app. cbn.
    rewrite Nat.add_0_r. reflexivity.
  - split; [| repeat split].
    eexists. split; [reflexivity |]. repeat split.
    unfold wave6_get_valid_dst_buf. cbn. rewrite find_pos_app. cbn.
    rewrite Nat.add_0_r. reflexivity.
Qed.

(** X18: a key frame request is served once.  A write of the force key
    frame control, whatever its value, arms the request; of the source
    buffers queued afterwards the first carries the forced key frame and the
    second does not; and when no older source buffer is waiting, the cycle
    that follows submits the first buffer with a forced picture type. *)
Theorem force_key_frame_one_shot (val : Z)
  (p_new : list Z) (new_elems : Z) (b1 b2 : vpu_buffer)
  (inst : enc_instance) :
  exists inst1 b1' b2',
    wave6_vpu_enc_s_ctrl V4L2_CID_MPEG_VIDEO_FORCE_KEY_FRAME val p_new
      new_elems inst = Some (0, inst1)
    /\ vpu inst1 = vpu inst
    /\ (let inst2 := wave6_vpu_enc_buf_queue SRC_QUEUE b1 inst1 in
        let inst3 := wave6_vpu_enc_buf_queue SRC_QUEUE b2 inst2 in
        src_rdy (m2m_ctx (vpu inst3))
        = src_rdy (m2m_ctx (vpu inst)) ++ [b1'; b2']
        /\ vb_index b1' = vb_index b1 /\ vb_index b2' = vb_index b2
        /\ force_key_frame b1' = true /\ force_key_frame b2' = false
        /\ enc_ctrls inst3 ctl_force_key_frame = 0
        /\ (forall fw dp dst,
              wave6_get_valid_src_buf (vpu inst) = None ->
              wave6_get_valid_dst_buf (vpu inst) = Some (dp, dst) ->
              wave6_update_seq_param (fw_seq_change fw) = 0 ->
              exists pp isub,
                snd (wave6_vpu_enc_start_encode fw (vpu inst3))
                = Some (pp, isub)
                /\ src_idx pp = vb_index b1
                /\ force_pic_type_enable pp = true)).
Proof.
  eexists. eexists. eexists. split; [reflexivity |]. split; [reflexivity |].
  cbv zeta. unfold wave6_vpu_enc_buf_queue. cbn.
  rewrite <- app_assoc. cbn. split; [reflexivity |].
  repeat (split; [reflexivity |]).
  intros fw dp dst Hs Hd Hq. unfold wave6_vpu_enc_start_encode.
  rewrite Hq. cbn [Z.eqb negb].
  unfold wave6_get_valid_src_buf, wave6_get_valid_dst_buf in *. cbn.
  rewrite Hd, find_pos_app, Hs. cbn.
  unfold wave6_vpu_enc_start_encode_submit.
  destruct (negb (start_one_frame_ret fw =? 0)); cbn [snd];
    eexists; eexists; (split; [reflexivity |]); split; reflexivity.
Qed.

Lemma force_key_frame_one_shot_witness :
  exists inst1 b1' b2',
    wave6_vpu_enc_s_ctrl V4L2_CID_MPEG_VIDEO_FORCE_KEY_FRAME 0 []
      0 (session drained_instance V4L2_PIX_FMT_NV12 128 64
           V4L2_YCBCR_ENC_DEFAULT V4L2_QUANTIZATION_DEFAULT)
    = Some (0, inst1)
    /\ src_rdy (m2m_ctx (vpu
         (wave6_vpu_enc_buf_queue SRC_QUEUE (mk_src 1 8192 true)
            (wave6_vpu_enc_buf_queue SRC_QUEUE (mk_src 0 4096 true) inst1))))
       = [b1'; b2']
    /\ force_key_frame b1' = true /\ force_key_frame b2' = false
    /\ exists pp isub,
         snd (wave6_vpu_enc_start_encode cycle_ok (vpu
           (wave6_vpu_enc_buf_queue SRC_QUEUE (mk_src 1 8192 true)
              (wave6_vpu_enc_buf_queue SRC_QUEUE (mk_src 0 4096 true) inst1))))
         = Some (pp, isub)
         /\ src_idx pp = 0 /\ force_pic_type_enable pp = true.
Proof.
  destruct (force_key_frame_one_shot 0 [] 0 (mk_src 0 4096 true)
              (mk_src 1 8192 true)
              (session drained_instance V4L2_PIX_FMT_NV12 128 64
                 V4L2_YCBCR_ENC_DEFAULT V4L2_QUANTIZATION_DEFAULT))
    as (inst1 & b1' & b2' & E & _ & Q & _ & _ & K1 & K2 & _ & S).
  exists inst1, b1', b2'.
  split; [exact E |]. split; [exact Q |]. split; [exact K1 |].
  split; [exact K2 |].
  apply (S cycle_ok 0%nat (mk_dst 0 32768 false)); reflexivity.
Defined.

(** X19: a mirror bit, once set, stays set.  The flip controls are stored
    as bits added to the mirror direction and no control write removes one:
    whatever control is written with whatever value, every bit of the mirror
    direction that was set is still set afterwards, and a write of the
    horizontal flip adds the bits of twice its value, a write of the
    vertical flip the bits of its value.  So a flip that was switched on is
    still on after it is written with 0. *)
Theorem mirror_bits_sticky (id : v4l2_cid) (val : Z) (p_new : list Z)
  (new_elems : Z) (inst inst' : enc_instance) (ret : Z) :
  wave6_vpu_enc_s_ctrl id val p_new new_elems inst = Some (ret, inst') ->
  (forall n, Z.testbit (enc_ctrls inst mirror_direction) n = true ->
             Z.testbit (enc_ctrls inst' mirror_direction) n = true)
  /\ (id = V4L2_CID_HFLIP ->
      forall n, Z.testbit (Z.shiftl val 1) n = true ->
                Z.testbit (enc_ctrls inst' mirror_direction) n = true)
  /\ (id = V4L2_CID_VFLIP ->
      forall n, Z.testbit val n = true ->
                Z.testbit (enc_ctrls inst' mirror_direction) n = true).
Proof.
  intros H. split; [| split].
  - intros n Hn.
    destruct id; cbn in H;
      try (injection H as <- <-; cbn; exact Hn);
      try (injection H as <- <-; cbn; rewrite Z.lor_spec, Hn; reflexivity).
    destruct (wave6_vpu_enc_set_roi_map _ _ _); [| discriminate].
    injection H as <- <-. exact Hn.
  - intros -> n Hn. unfold wave6_vpu_enc_s_ctrl in H. injection H as <- <-.
    cbn [enc_ctrls set_enc_ctrls set_ctrl ctrl_field_beq].
    rewrite Z.lor_spec. apply orb_true_iff. right. exact Hn.
  - intros -> n Hn. unfold wave6_vpu_enc_s_ctrl in H. injection H as <- <-.
    cbn [enc_ctrls set_enc_ctrls set_ctrl ctrl_field_beq].
    rewrite Z.lor_spec. apply orb_true_iff. right. exact Hn.
Qed.

Lemma mirror_bits_sticky_witness :
  Z.testbit (enc_ctrls flipped_back mirror_direction) 1 = true.
Proof.
  assert (H1 : wave6_vpu_enc_s_ctrl V4L2_CID_HFLIP 1 [] 0 nv12_session
               = Some (0, flipped)) by reflexivity.
  assert (H2 : wave6_vpu_enc_s_ctrl V4L2_CID_HFLIP 0 [] 0 flipped
               = Some (0, flipped_back)) by reflexivity.
  destruct (mirror_bits_sticky _ _ _ _ _ _ _ H1) as (_ & On & _).
  destruct (mirror_bits_sticky _ _ _ _ _ _ _ H2) as (Keep & _).
  apply Keep. apply On; reflexivity.
Defined.

Lemma nth_error_upd_nth_other {A} n k (f : A -> A) l :
  n <> k -> nth_error (upd_nth k f l) n = nth_error l n.
Proof.
  revert n k. induction l as [| x l IH]; intros [| n] [| k] H; cbn;
    try reflexivity; try congruence.
  apply IH. congruence.
Qed.

Lemma check_sizes_spec planes sizes idx :
  (forall i, In i idx ->
     (Z.to_nat i < length sizes)%nat /\ (Z.to_nat i < length planes)%nat) ->
  exists ok, check_sizes idx sizes planes = Some ok
    /\ (ok = true ->
        forall i, In i idx ->
          exists s p, nth_error sizes (Z.to_nat i) = Some s
                      /\ nth_error planes (Z.to_nat i) = Some p
                      /\ sizeimage p <= s).
Proof.
  induction idx as [| i t IH]; intros Hb; cbn.
  - exists true. split; [reflexivity |]. intros _ i [].
  - destruct (Hb i (or_introl eq_refl)) as [B1 B2].
    destruct (nth_error sizes (Z.to_nat i)) as [s |] eqn:Es;
      [| apply nth_error_None in Es; lia].
    destruct (nth_error planes (Z.to_nat i)) as [p |] eqn:Ep;
      [| apply nth_error_None in Ep; lia].
    destruct (Z.ltb_spec s (sizeimage p)) as [L | G].
    + exists false. split; [reflexivity | discriminate].
    + destruct IH as (ok & E & H); [intros j Hj; apply Hb; now right |].
      exists ok. split; [exact E |]. intros Hok j [<- | Hj].
      * exists s, p. repeat split; assumption.
      * now apply H.
Qed.

Lemma fill_sizes_spec planes idx :
  forall sizes,
  (forall i, In i idx ->
     (Z.to_nat i < length sizes)%nat /\ (Z.to_nat i < length planes)%nat) ->
  exists sz, fill_sizes idx sizes planes = Some sz
    /\ length sz = length sizes
    /\ (forall i, In i idx ->
          exists p, nth_error planes (Z.to_nat i) = Some p
                    /\ nth_error sz (Z.to_nat i) = Some (sizeimage p))
    /\ (forall n, ~ In n (map Z.to_nat idx) ->
          nth_error sz n = nth_error sizes n).
Proof.
  induction idx as [| i t IH]; intros sizes Hb; cbn [fill_sizes].
  - exists sizes. split; [reflexivity |]. split; [reflexivity |].
    split; [intros i [] | reflexivity].
  - destruct (Hb i (or_introl eq_refl)) as [B1 B2].
    destruct (nth_error planes (Z.to_nat i)) as [p |] eqn:Ep;
      [| apply nth_error_None in Ep; lia].
    destruct (Nat.ltb_spec (Z.to_nat i) (length sizes)) as [_ | G]; [| lia].
    destruct (IH (upd_nth (Z.to_nat i) (fun _ => sizeimage p) sizes))
      as (sz & E & L & W & U).
    { intros j Hj. rewrite length_upd_nth. apply Hb. now right. }
    exists sz. split; [exact E |]. split; [now rewrite L, length_upd_nth |].
    split.
    + intros j [<- | Hj]; [| now apply W].
      destruct (in_dec Nat.eq_dec (Z.to_nat i) (map Z.to_nat t)) as [I | N].
      * apply in_map_iff in I. destruct I as (j & Ej & Hj).
        destruct (W j Hj) as (q & Eq & Eq'). rewrite Ej in Eq, Eq'.
        exists q. split; assumption.
      * exists p. split; [exact Ep |]. rewrite (U _ N).
        destruct (nth_error sizes (Z.to_nat i)) as [s |] eqn:Es;
          [| apply nth_error_None in Es; lia].
        apply (nth_error_upd_nth _ (fun _ : Z => sizeimage p) _ _ Es).
    + intros n Hn. rewrite U; [| intros C; apply Hn; right; exact C].
      apply nth_error_upd_nth_other. intros C. apply Hn. left.
      symmetry. exact C.
Qed.

(** X20: what queue setup guarantees about plane sizes.  With plane arrays
    long enough for the plane count of the format, the call returns 0 or
    [-EINVAL].  On [-EINVAL] nothing is changed.  On success the plane count
    is the one of the format of that queue, every plane size is at least the
    image size of the format, and the buffer count is not lowered; sizes
    given by the caller are checked and kept, and when the caller gives
    none, the image sizes are written and the count of source buffers is
    raised to the minimum the control asks for. *)
Theorem queue_setup_contract (q : queue_dir) (min_buffers : option Z)
  (num_buffers nplanes : Z) (sizes : list Z) (inst : enc_instance) :
  let fmt := match q with
             | SRC_QUEUE => src_fmt inst
             | DST_QUEUE => dst_fmt inst
             end in
  0 <= pix_num_planes fmt <= Z.of_nat (length (plane_fmt fmt)) ->
  pix_num_planes fmt <= Z.of_nat (length sizes) ->
  exists ret nb np sz,
    wave6_vpu_enc_queue_setup q min_buffers num_buffers nplanes sizes inst
    = Some (ret, nb, np, sz)
    /\ (ret = 0 \/ ret = - EINVAL)
    /\ (ret = - EINVAL -> nb = num_buffers /\ np = nplanes /\ sz = sizes)
    /\ (ret = 0 ->
        np = pix_num_planes fmt
        /\ length sz = length sizes
        /\ (forall i, 0 <= i < np ->
              exists s p, nth_error sz (Z.to_nat i) = Some s
                          /\ nth_error (plane_fmt fmt) (Z.to_nat i) = Some p
                          /\ sizeimage p <= s)
        /\ num_buffers <= nb
        /\ (nplanes <> 0 -> nb = num_buffers /\ sz = sizes)
        /\ (nplanes = 0 -> q = SRC_QUEUE ->
            forall v, min_buffers = Some v -> u32 v <= nb)).
Proof.
  intros fmt Hp Hs. unfold wave6_vpu_enc_queue_setup. fold fmt.
  assert (Hb : forall i, In i (zrange (pix_num_planes fmt)) ->
             (Z.to_nat i < length sizes)%nat
             /\ (Z.to_nat i < length (plane_fmt fmt))%nat).
  { intros i Hi. apply in_zrange in Hi. lia. }
  destruct (Z.eqb_spec nplanes 0) as [E0 | N0]; cbn [negb].
  - destruct (fill_sizes_spec (plane_fmt fmt) _ sizes Hb)
      as (sz & E & L & W & _).
    rewrite E. eexists. eexists. eexists. eexists.
    split; [reflexivity |]. split; [now left |].
    split; [discriminate |]. intros _.
    split; [reflexivity |]. split; [exact L |]. split.
    { intros i Hi. destruct (W i) as (p & Ep & Es); [now apply in_zrange |].
      exists (sizeimage p), p. repeat split; try assumption. lia. }
    split; [destruct q; lia |]. split; [contradiction |].
    intros _ -> v ->. lia.
  - destruct (Z.eqb_spec (pix_num_planes fmt) nplanes) as [En | Nn];
      cbn [negb].
    + subst nplanes.
      destruct (check_sizes_spec (plane_fmt fmt) sizes _ Hb)
        as (ok & E & H).
      rewrite E. destruct ok.
      * eexists. eexists. eexists. eexists.
        split; [reflexivity |]. split; [now left |].
        split; [discriminate |]. intros _.
        split; [reflexivity |]. split; [reflexivity |]. split.
        { intros i Hi. apply H; [reflexivity | now apply in_zrange]. }
        split; [lia |].
        split; [split; reflexivity | intros C; contradiction].
      * eexists. eexists. eexists. eexists.
        split; [reflexivity |]. split; [now right |].
        split; [repeat split | discriminate].
    + eexists. eexists. eexists. eexists.
      split; [reflexivity |]. split; [now right |].
      split; [repeat split | discriminate].
Qed.

Lemma queue_setup_contract_witness :
  let i := session idle_instance V4L2_PIX_FMT_NV12 128 64
             V4L2_YCBCR_ENC_DEFAULT V4L2_QUANTIZATION_DEFAULT in
  exists ret nb np sz,
    wave6_vpu_enc_queue_setup SRC_QUEUE (Some 4) 2 0 (repeat 0 8) i
    = Some (ret, nb, np, sz)
    /\ (ret = 0 \/ ret = - EINVAL).
Proof.
  intros i.
  destruct (queue_setup_contract SRC_QUEUE (Some 4) 2 0 (repeat 0 8) i)
    as (ret & nb & np & sz & E & R & _).
  - cbn. lia.
  - cbn. lia.
  - exists ret, nb, np, sz. split; [exact E | exact R].
Defined.

(** * Format negotiation on the output queue and the open parameters *)

Lemma try_fmt_out_normalised lim upd pix inst :
  let r := wave6_vpu_enc_try_fmt_out lim upd true pix inst in
  fst r = 0
  /\ pix_ycbcr_enc (snd r) <> V4L2_YCBCR_ENC_BT2020_CONST_LUM
  /\ (pix_ycbcr_enc (snd r) = V4L2_YCBCR_ENC_XV601
      \/ pix_ycbcr_enc (snd r) = V4L2_YCBCR_ENC_XV709 ->
      pix_quantization (snd r) <> V4L2_QUANTIZATION_FULL_RANGE).
Proof.
  cbv zeta. unfold wave6_vpu_enc_try_fmt_out. cbn [negb fst snd].
  match goal with
  | |- context [upd ?a ?b ?c] => generalize (upd a b c); intros p1
  end.
  split; [reflexivity |].
  destruct (pix_ycbcr_enc p1) eqn:Ey; cbn; rewrite ?Ey;
    destruct (pix_quantization p1) eqn:Eq; cbn; rewrite ?Ey, ?Eq;
    (split; [discriminate |]); intros [C | C]; discriminate.
Qed.

Lemma s_fmt_out_success hdr lim upd is_output pix pix' inst inst' :
  wave6_vpu_enc_s_fmt_out hdr lim upd is_output pix inst
  = Some (0, pix', inst') ->
  is_output = true
  /\ pix' = snd (wave6_vpu_enc_try_fmt_out lim upd true pix inst)
  /\ exists f planes,
       wave6_find_vpu_fmt lim (pixelformat pix') VPU_FMT_TYPE_RAW = Some f
       /\ copy_planes (pix_num_planes pix') (plane_fmt pix')
            (plane_fmt (src_fmt inst)) = Some planes
       /\ vpu inst'
          = wave6_vpu_enc_set_roi_info hdr
              (wave6_update_crop_info hdr (vpu inst) 0 0
                 (pix_width pix') (pix_height pix'))
       /\ src_fmt inst'
          = {| pix_width := pix_width pix'; pix_height := pix_height pix';
               pixelformat := pixelformat pix'; pix_field := pix_field pix';
               pix_flags := pix_flags pix';
               pix_num_planes := pix_num_planes pix';
               plane_fmt := planes;
               pix_colorspace := pix_colorspace (src_fmt inst);
               pix_ycbcr_enc := pix_ycbcr_enc (src_fmt inst);
               pix_quantization := pix_quantization (src_fmt inst);
               pix_xfer_func := pix_xfer_func (src_fmt inst) |}
       /\ dst_fmt inst'
          = upd (dst_fmt inst) (pix_width pix') (pix_height pix')
       /\ inst_cbcr_interleave inst' = cbcr_interleave f
       /\ inst_nv21 inst' = nv21 f
       /\ colorspace inst' = pix_colorspace pix'
       /\ ycbcr_enc inst' = pix_ycbcr_enc pix'
       /\ quantization inst' = pix_quantization pix'
       /\ xfer_func inst' = pix_xfer_func pix'
       /\ frame_rate inst' = frame_rate inst
       /\ enc_ctrls inst' = enc_ctrls inst
       /\ roi_mode inst' = roi_mode inst.
Proof.
  unfold wave6_vpu_enc_s_fmt_out. intros H.
  destruct is_output.
  2: { cbn in H. discriminate. }
  destruct (try_fmt_out_normalised lim upd pix inst) as (E0 & _).
  cbv zeta in E0. rewrite E0 in H. cbn [Z.eqb negb] in H.
  set (p := snd (wave6_vpu_enc_try_fmt_out lim upd true pix inst)) in *.
  destruct (wave6_find_vpu_fmt lim (pixelformat p) VPU_FMT_TYPE_RAW)
    as [f |] eqn:Ef; [| discriminate].
  destruct (copy_planes _ _ _) as [planes |] eqn:Ec; [| discriminate].
  injection H as <- <-. split; [reflexivity |]. split; [reflexivity |].
  exists f, planes. rewrite Ef. repeat split. exact Ec.
Qed.

(** X21: the conversion set after format negotiation.  After a successful
    format call on the output queue the source format is one of the
    catalogue, the encoding is never the constant luminance one and an
    extended gamut encoding never comes with full range.  For an RGB source
    the picture request then gets a conversion set with three luma
    coefficients other than zero, unless the encoding is sYCC or unnamed, or
    it is an extended gamut encoding whose quantization is not the limited
    range (the default one, say): then all coefficients and offsets are left
    at zero. *)
Theorem s_fmt_out_conversion_set (hdr : wave6_defs) (lim : wave6_limits)
  (upd : v4l2_pix_format_mplane -> Z -> Z -> v4l2_pix_format_mplane)
  (is_output : bool) (pix pix' : v4l2_pix_format_mplane)
  (inst inst' : enc_instance) :
  wave6_vpu_enc_s_fmt_out hdr lim upd is_output pix inst
  = Some (0, pix', inst') ->
  let xv := ycbcr_enc inst' = V4L2_YCBCR_ENC_XV601
            \/ ycbcr_enc inst' = V4L2_YCBCR_ENC_XV709 in
  ycbcr_enc inst' <> V4L2_YCBCR_ENC_BT2020_CONST_LUM
  /\ (xv -> quantization inst' <> V4L2_QUANTIZATION_FULL_RANGE)
  /\ exists f,
       wave6_find_vpu_fmt lim (pixelformat (src_fmt inst')) VPU_FMT_TYPE_RAW
       = Some f
       /\ inst_cbcr_interleave inst' = cbcr_interleave f
       /\ inst_nv21 inst' = nv21 f
       /\ (is_rgb f = true ->
           let c := wave6_set_csc lim inst' zero_csc in
           (ycbcr_enc inst' <> V4L2_YCBCR_ENC_SYCC ->
            ycbcr_enc inst' <> V4L2_YCBCR_ENC_OTHER ->
            (xv -> quantization inst' = V4L2_QUANTIZATION_LIM_RANGE) ->
            coef_ry c <> 0 /\ coef_gy c <> 0 /\ coef_by c <> 0)
           /\ (xv ->
               quantization inst' <> V4L2_QUANTIZATION_LIM_RANGE ->
               c = set_format_order (csc_order f) zero_csc)).
Proof.
  intros H xv.
  destruct (s_fmt_out_success _ _ _ _ _ _ _ _ H)
    as (_ & Ep & f & planes & Ef & _ & _ & Es & _ & Ei & En & _ & Ey & Eq & _).
  destruct (try_fmt_out_normalised lim upd pix inst) as (_ & N1 & N2).
  cbv zeta in N1, N2. rewrite <- Ep in N1, N2.
  unfold xv. rewrite Ey, Eq.
  split; [exact N1 |]. split; [exact N2 |].
  exists f. rewrite Es. cbn [pixelformat].
  split; [exact Ef |]. split; [exact Ei |]. split; [exact En |].
  intros Hrgb. cbv zeta. unfold wave6_set_csc.
  rewrite Es. cbn [pixelformat]. rewrite Ef, Hrgb, Ey, Eq. cbn [negb].
  destruct (is_10bit f), (pix_ycbcr_enc pix'), (pix_quantization pix'); cbn;
    (split; [intros S O L; try (now elim S); try (now elim O);
             try (now elim N1);
             try (repeat split; discriminate);
             exfalso; (assert (C : V4L2_QUANTIZATION_DEFAULT
                                   = V4L2_QUANTIZATION_LIM_RANGE)
                         by (apply L; tauto); discriminate)
                      || (assert (C : V4L2_QUANTIZATION_FULL_RANGE
                                      = V4L2_QUANTIZATION_LIM_RANGE)
                            by (apply L; tauto); discriminate)
                      || (assert (C : V4L2_QUANTIZATION_OTHER
                                      = V4L2_QUANTIZATION_LIM_RANGE)
                            by (apply L; tauto); discriminate)
            | intros [X | X] L; try discriminate; try (now elim L);
              reflexivity]).
Qed.

Lemma s_fmt_out_conversion_set_witness :
  xv601_session = Some (0, xv601_negotiated_pix, xv601_negotiated)
  /\ wave6_set_csc small_limits xv601_negotiated zero_csc
     = set_format_order (Some CSC_ORDER_RGB) zero_csc.
Proof.
  assert (E : wave6_vpu_enc_s_fmt_out sample_defs small_limits
                plain_update_pix_fmt true xv601_request nv12_session
              = Some (0, xv601_negotiated_pix, xv601_negotiated))
    by reflexivity.
  split; [exact E |].
  destruct (s_fmt_out_conversion_set _ _ _ _ _ _ _ _ E)
    as (_ & _ & f & Ef & _ & _ & H).
  vm_compute in Ef. injection Ef as <-.
  destruct H as (_ & H); [reflexivity |].
  apply H.
  - left. reflexivity.
  - vm_compute. discriminate.
Defined.

Lemma copy_planes_some {A} n (new old l : list A) :
  copy_planes n new old = Some l ->
  0 <= n /\ n <= Z.of_nat (length new) /\ n <= Z.of_nat (length old)
  /\ l = firstn (Z.to_nat n) new ++ skipn (Z.to_nat n) old
  /\ length l = length old.
Proof.
  unfold copy_planes.
  destruct (Z.leb_spec 0 n); [| discriminate].
  destruct (Z.leb_spec n (Z.of_nat (length new))); [| discriminate].
  destruct (Z.leb_spec n (Z.of_nat (length old))); [| discriminate].
  cbn. intros [= <-]. repeat split; try assumption.
  rewrite length_app, length_firstn, length_skipn. lia.
Qed.

Lemma copy_planes_total {A} n (new old : list A) :
  0 <= n -> n <= Z.of_nat (length new) -> n <= Z.of_nat (length old) ->
  copy_planes n new old
  = Some (firstn (Z.to_nat n) new ++ skipn (Z.to_nat n) old).
Proof.
  intros H0 H1 H2. unfold copy_planes.
  destruct (Z.leb_spec 0 n); [| lia].
  destruct (Z.leb_spec n (Z.of_nat (length new))); [| lia].
  destruct (Z.leb_spec n (Z.of_nat (length old))); [| lia].
  reflexivity.
Qed.

Lemma firstn_copy {A} n (new old : list A) :
  (n <= length new)%nat ->
  firstn n (firstn n new ++ skipn n old) = firstn n new
  /\ skipn n (firstn n new ++ skipn n old) = skipn n old.
Proof.
  intros H.
  assert (L : length (firstn n new) = n) by (rewrite length_firstn; lia).
  split.
  - rewrite firstn_app, L, Nat.sub_diag. cbn. rewrite app_nil_r.
    rewrite firstn_firstn. f_equal. lia.
  - rewrite skipn_app, L, Nat.sub_diag. cbn.
    rewrite skipn_all2 by lia. reflexivity.
Qed.

(** X22: a format set on the output queue is the format read back.  After
    a successful format call the crop is reset to the whole frame of the
    format handed back, the format of the capture side is recomputed for
    that size, and the frame rate, the controls and the ROI mode are
    untouched; reading the format then returns the size, the pixel format,
    the plane count, the colorimetry and, for the planes of the format, the
    plane sizes and strides that were handed back, leaving the other plane
    entries of the caller alone.  A failed call changes nothing. *)
Theorem fmt_out_round_trip (hdr : wave6_defs) (lim : wave6_limits)
  (upd : v4l2_pix_format_mplane -> Z -> Z -> v4l2_pix_format_mplane)
  (is_output : bool) (pix pix' q : v4l2_pix_format_mplane)
  (inst inst' : enc_instance) (ret : Z) :
  wave6_vpu_enc_s_fmt_out hdr lim upd is_output pix inst
  = Some (ret, pix', inst') ->
  pix_num_planes pix' <= Z.of_nat (length (plane_fmt q)) ->
  (ret <> 0 -> ret = - EINVAL /\ inst' = inst)
  /\ (ret = 0 ->
      let n := Z.to_nat (pix_num_planes pix') in
      crop (vpu inst')
      = {| r_left := 0; r_top := 0; r_width := pix_width pix';
           r_height := pix_height pix' |}
      /\ dst_fmt inst' = upd (dst_fmt inst) (pix_width pix') (pix_height pix')
      /\ frame_rate inst' = frame_rate inst
      /\ enc_ctrls inst' = enc_ctrls inst /\ roi_mode inst' = roi_mode inst
      /\ exists g,
           wave6_vpu_enc_g_fmt_out q inst' = Some (0, g)
           /\ pix_width g = pix_width pix' /\ pix_height g = pix_height pix'
           /\ pixelformat g = pixelformat pix'
           /\ pix_num_planes g = pix_num_planes pix'
           /\ firstn n (plane_fmt g) = firstn n (plane_fmt pix')
           /\ skipn n (plane_fmt g) = skipn n (plane_fmt q)
           /\ pix_colorspace g = pix_colorspace pix'
           /\ pix_ycbcr_enc g = pix_ycbcr_enc pix'
           /\ pix_quantization g = pix_quantization pix'
           /\ pix_xfer_func g = pix_xfer_func pix').
Proof.
  intros H Hq. split.
  - intros N. unfold wave6_vpu_enc_s_fmt_out in H.
    destruct (negb (fst (wave6_vpu_enc_try_fmt_out lim upd is_output pix inst)
                    =? 0)) eqn:E.
    + injection H as <- <- <-. split; [| reflexivity].
      unfold wave6_vpu_enc_try_fmt_out in *. destruct is_output; cbn in *;
        [discriminate | reflexivity].
    + destruct (wave6_find_vpu_fmt lim _ _); [| now injection H as <- <- <-].
      destruct (copy_planes _ _ _); [| discriminate].
      injection H as <- _ _. now elim N.
  - intros ->. cbv zeta.
    destruct (s_fmt_out_success _ _ _ _ _ _ _ _ H)
      as (_ & _ & f & planes & _ & Ec & Ev & Es & Ed & _ & _ & C1 & C2 & C3
          & C4 & Fr & Ct & Rm).
    apply copy_planes_some in Ec. destruct Ec as (P0 & P1 & P2 & -> & _).
    split.
    { rewrite Ev, set_roi_info_crop. reflexivity. }
    split; [exact Ed |]. split; [exact Fr |]. split; [exact Ct |].
    split; [exact Rm |].
    unfold wave6_vpu_enc_g_fmt_out. rewrite Es.
    cbn [pix_num_planes plane_fmt pix_width pix_height pixelformat pix_field
         pix_flags].
    rewrite copy_planes_total.
    + eexists. split; [reflexivity |].
      cbn [pix_num_planes plane_fmt pix_width pix_height pixelformat
           pix_colorspace pix_ycbcr_enc pix_quantization pix_xfer_func].
      assert (Ln : (Z.to_nat (pix_num_planes pix')
                    <= length (plane_fmt pix'))%nat) by lia.
      destruct (firstn_copy (Z.to_nat (pix_num_planes pix'))
                  (plane_fmt pix') (plane_fmt (src_fmt inst)) Ln) as [F1 _].
      assert (Ln' : (Z.to_nat (pix_num_planes pix')
                     <= length (firstn (Z.to_nat (pix_num_planes pix'))
                                  (plane_fmt pix')
                                ++ skipn (Z.to_nat (pix_num_planes pix'))
                                     (plane_fmt (src_fmt inst))))%nat).
      { rewrite length_app, length_firstn, length_skipn. lia. }
      destruct (firstn_copy (Z.to_nat (pix_num_planes pix')) _ (plane_fmt q)
                  Ln') as [G1 G2].
      repeat split; try assumption.
      rewrite G1. exact F1.
    + exact P0.
    + rewrite length_app, length_firstn, length_skipn. lia.
    + exact Hq.
Qed.

Lemma fmt_out_round_trip_witness :
  crop (vpu xv601_negotiated)
  = {| r_left := 0; r_top := 0; r_width := 128; r_height := 64 |}
  /\ exists g,
       wave6_vpu_enc_g_fmt_out (plain_pix_fmt V4L2_PIX_FMT_NONE 0 0)
         xv601_negotiated = Some (0, g)
       /\ pix_width g = 128 /\ pixelformat g = V4L2_PIX_FMT_RGB24.
Proof.
  assert (E : wave6_vpu_enc_s_fmt_out sample_defs small_limits
                plain_update_pix_fmt true xv601_request nv12_session
              = Some (0, xv601_negotiated_pix, xv601_negotiated))
    by reflexivity.
  destruct (fmt_out_round_trip _ _ _ _ _ _
              (plain_pix_fmt V4L2_PIX_FMT_NONE 0 0) _ _ _ E) as (_ & H).
  - vm_compute. discriminate.
  - destruct (H eq_refl) as (Hc & _ & _ & _ & _ & g & Eg & Gw & _ & Gp & _).
    split; [exact Hc |]. exists g. split; [exact Eg |].
    split; [exact Gw | exact Gp].
Defined.

(** X23: the conformance window trims exactly the padding of the codec
    rectangle.  For an instance whose rectangles were set by a crop update
    with coordinates that fit their fields (steps that are powers of two, no
    32-bit wrap at the right and bottom edges), a source format of the
    catalogue and a bitrate other than zero, the open parameters carry the
    codec rectangle as picture size and a conformance window whose left and
    top are the distances of the crop origin from the codec origin, below
    the position steps, whose right and bottom are below the size step, and
    which leaves exactly the crop width and height of the picture. *)
Theorem open_param_conformance_window (hdr : wave6_defs)
  (lim : wave6_limits)
  (xmap : v4l2_colorspace -> v4l2_xfer_func)
  (ymap : v4l2_colorspace -> v4l2_ycbcr_encoding)
  (e : enc_instance) (v : vpu_instance) (f : vpu_format)
  (left top width height kx ky ks : Z) :
  vpu e = wave6_update_crop_info hdr v left top width height ->
  W6_ENC_CROP_X_POS_STEP hdr = 2 ^ kx -> 0 <= kx < 32 ->
  W6_ENC_CROP_Y_POS_STEP hdr = 2 ^ ky -> 0 <= ky < 32 ->
  W6_ENC_PIC_SIZE_STEP hdr = 2 ^ ks -> 0 <= ks < 32 ->
  0 <= left < 2 ^ 31 -> 0 <= top < 2 ^ 31 -> 0 <= width -> 0 <= height ->
  left + width + 2 ^ ks <= 2 ^ 32 -> top + height + 2 ^ ks <= 2 ^ 32 ->
  wave6_find_vpu_fmt lim (pixelformat (src_fmt e)) VPU_FMT_TYPE_RAW = Some f ->
  u32 (enc_ctrls e bitrate) <> 0 ->
  exists op,
    wave6_set_enc_open_param lim xmap ymap e = Some op
    /\ pic_width op = r_width (codec_rect (vpu e))
    /\ pic_height op = r_height (codec_rect (vpu e))
    /\ r_left (codec_rect (vpu e)) + conf_win_left op = left
    /\ r_top (codec_rect (vpu e)) + conf_win_top op = top
    /\ 0 <= conf_win_left op < 2 ^ kx /\ 0 <= conf_win_top op < 2 ^ ky
    /\ 0 <= conf_win_right op < 2 ^ ks /\ 0 <= conf_win_bottom op < 2 ^ ks
    /\ conf_win_left op + width + conf_win_right op = pic_width op
    /\ conf_win_top op + height + conf_win_bottom op = pic_height op.
Proof.
  intros Ev Ex Hkx Ey Hky Es Hks Hl Ht Hw Hh Fw Fh Ef Hb.
  unfold wave6_set_enc_open_param. rewrite Ef.
  unfold wave6_cpb_size_msec.
  destruct (Z.eqb_spec (u32 (enc_ctrls e bitrate)) 0) as [C | _];
    [contradiction |].
  eexists. split; [reflexivity |].
  cbn [pic_width pic_height conf_win_left conf_win_top conf_win_right
       conf_win_bottom].
  rewrite Ev.
  destruct (crop_info_equations hdr v left top width height Hl Ht)
    as (El & Et & Ew & Ehh).
  cbv zeta in El, Et, Ew, Ehh.
  set (c := codec_rect (wave6_update_crop_info hdr v left top width height))
    in *.
  assert (Ecrop : crop (wave6_update_crop_info hdr v left top width height)
                  = {| r_left := left; r_top := top; r_width := width;
                       r_height := height |}).
  { unfold wave6_update_crop_info. cbn [crop set_rects].
    rewrite !s32_small by lia. reflexivity. }
  rewrite Ecrop. cbn [r_left r_top r_width r_height].
  rewrite Ex, round_down_pow2 in El by lia.
  rewrite Ey, round_down_pow2 in Et by lia.
  assert (Px : 0 < 2 ^ kx) by (apply Z.pow_pos_nonneg; lia).
  assert (Py : 0 < 2 ^ ky) by (apply Z.pow_pos_nonneg; lia).
  pose proof (Z.mod_pos_bound left (2 ^ kx) Px) as Bx.
  pose proof (Z.mod_pos_bound top (2 ^ ky) Py) as By.
  assert (Mx : left mod 2 ^ kx <= left) by (apply Z.mod_le; lia).
  assert (My : top mod 2 ^ ky <= top) by (apply Z.mod_le; lia).
  assert (Dl : left - r_left c = left mod 2 ^ kx) by lia.
  assert (Dt : top - r_top c = top mod 2 ^ ky) by lia.
  rewrite Dl in *. rewrite Dt in *.
  rewrite (u32_small (left mod 2 ^ kx)) by lia.
  rewrite (u32_small (top mod 2 ^ ky)) by lia.
  rewrite (u32_small (width + left mod 2 ^ kx)) in Ew by lia.
  rewrite (u32_small (height + top mod 2 ^ ky)) in Ehh by lia.
  assert (Ps : pow2_step (2 ^ ks)) by (exists ks; split; [lia | reflexivity]).
  pose proof (round_up_ge (width + left mod 2 ^ kx) (2 ^ ks) Ps) as Rw.
  pose proof (round_up_ge (height + top mod 2 ^ ky) (2 ^ ks) Ps) as Rh.
  rewrite Es in Ew, Ehh. rewrite <- Ew in Rw. rewrite <- Ehh in Rh.
  assert (Rw' : width + left mod 2 ^ kx <= r_width c
                < width + left mod 2 ^ kx + 2 ^ ks) by (apply Rw; lia).
  assert (Rh' : height + top mod 2 ^ ky <= r_height c
                < height + top mod 2 ^ ky + 2 ^ ks) by (apply Rh; lia).
  rewrite (u32_small (r_width c - width - left mod 2 ^ kx)) by lia.
  rewrite (u32_small (r_height c - height - top mod 2 ^ ky)) by lia.
  repeat split; lia.
Qed.

Lemma open_param_conformance_window_witness :
  exists op,
    wave6_set_enc_open_param small_limits map_xfer_func_default
      map_ycbcr_enc_default
      (session (wave6_update_crop_info sample_defs idle_instance 36 3 90 60)
         V4L2_PIX_FMT_NV12 128 64 V4L2_YCBCR_ENC_DEFAULT
         V4L2_QUANTIZATION_DEFAULT) = Some op
    /\ conf_win_left op + 90 + conf_win_right op = pic_width op
    /\ conf_win_top op + 60 + conf_win_bottom op = pic_height op.
Proof.
  destruct (open_param_conformance_window sample_defs small_limits
              map_xfer_func_default map_ycbcr_enc_default
              (session (wave6_update_crop_info sample_defs idle_instance
                          36 3 90 60)
                 V4L2_PIX_FMT_NV12 128 64 V4L2_YCBCR_ENC_DEFAULT
                 V4L2_QUANTIZATION_DEFAULT)
              idle_instance
              (yuv_fmt small_limits V4L2_PIX_FMT_NV12 1 true false false)
              36 3 90 60 5 1 3)
    as (op & E & _ & _ & _ & _ & _ & _ & _ & _ & H1 & H2);
    try reflexivity; try lia.
  - vm_compute. discriminate.
  - exists op. split; [exact E |]. split; [exact H1 | exact H2].
Defined.

(** X24: the rate fields of the open parameters.  With a source format of
    the catalogue, a bitrate and a buffer size that fit 32 bits, the bitrate
    not zero, and an intra refresh period below 2^31, the open parameters
    are built; the buffer duration lies between 10 and 100000; without a
    refresh period no refresh is asked for, and with a period p the row
    refresh is asked for with an argument of at least 1 that is the least
    number of CTU rows per picture which covers all rows of the source in p
    pictures (1 when p is not below the number of rows). *)
Theorem open_param_rate_fields (lim : wave6_limits)
  (xmap : v4l2_colorspace -> v4l2_xfer_func)
  (ymap : v4l2_colorspace -> v4l2_ycbcr_encoding)
  (e : enc_instance) (f : vpu_format) :
  wave6_find_vpu_fmt lim (pixelformat (src_fmt e)) VPU_FMT_TYPE_RAW = Some f ->
  0 < enc_ctrls e bitrate < 2 ^ 32 ->
  0 <= enc_ctrls e h264_cpb_size < 2 ^ 32 ->
  0 <= enc_ctrls e intra_refresh_period < 2 ^ 31 ->
  0 <= pix_height (src_fmt e) <= 65536 ->
  let ctu := match std (vpu e) with W_AVC_ENC => 16 | _ => 64 end in
  let rows := (pix_height (src_fmt e) + ctu - 1) / ctu in
  let p := enc_ctrls e intra_refresh_period in
  exists op,
    wave6_set_enc_open_param lim xmap ymap e = Some op
    /\ op_bitrate op = enc_ctrls e bitrate
    /\ op_frame_rate op = frame_rate e
    /\ 10 <= cpb_size op <= 100000
    /\ (p = 0 -> intra_refresh_row op = false /\ intra_refresh_arg op = 0)
    /\ (0 < p ->
        intra_refresh_row op = true /\ 1 <= intra_refresh_arg op
        /\ rows <= intra_refresh_arg op * p
        /\ (p < rows -> (intra_refresh_arg op - 1) * p < rows)
        /\ (rows <= p -> intra_refresh_arg op = 1)).
Proof.
  intros Ef Hb Hc Hp Hh ctu rows p.
  unfold wave6_set_enc_open_param. rewrite Ef.
  rewrite (u32_small (enc_ctrls e h264_cpb_size)) by lia.
  rewrite (u32_small (enc_ctrls e bitrate)) by lia.
  destruct (cpb_size_msec_spec (enc_ctrls e h264_cpb_size)
              (enc_ctrls e bitrate) Hc Hb) as (r & -> & Br & _).
  eexists. split; [reflexivity |].
  cbn [op_bitrate op_frame_rate cpb_size intra_refresh_row intra_refresh_arg].
  split; [reflexivity |]. split; [reflexivity |]. split; [exact Br |].
  fold p. rewrite (u32_small p) by (unfold p; lia).
  assert (Erows : ALIGN (pix_height (src_fmt e)) ctu / ctu = rows).
  { unfold rows, ctu. destruct (std (vpu e)).
    - change 64 with (2 ^ 6). rewrite ALIGN_pow2 by lia.
      rewrite Z.mul_comm, Z.div_mul by lia. reflexivity.
    - change 16 with (2 ^ 4). rewrite ALIGN_pow2 by lia.
      rewrite Z.mul_comm, Z.div_mul by lia. reflexivity.
    - change 64 with (2 ^ 6). rewrite ALIGN_pow2 by lia.
      rewrite Z.mul_comm, Z.div_mul by lia. reflexivity. }
  fold ctu. rewrite Erows.
  assert (Brows : 0 <= rows <= 65536).
  { unfold rows, ctu. destruct (std (vpu e)); Z.div_mod_to_equations; lia. }
  split.
  - intros ->. cbn. split; reflexivity.
  - intros P0. destruct (Z.eqb_spec p 0) as [C | _]; [lia |].
    cbn [negb fst snd]. split; [reflexivity |].
    destruct (Z.ltb_spec p rows) as [L | G].
    + rewrite (u32_small (rows + p - 1)) by lia.
      pose proof (Z.div_mod (rows + p - 1) p) as D.
      pose proof (Z.mod_pos_bound (rows + p - 1) p P0) as M.
      set (a := (rows + p - 1) / p) in *.
      assert (A1 : 1 <= a) by (apply Z.div_le_lower_bound; lia).
      split; [exact A1 |]. split; [nia |]. split; [intros _; nia | lia].
    + split; [lia |]. split; [lia |]. split; [lia | reflexivity].
Qed.

Lemma open_param_rate_fields_witness :
  exists op,
    wave6_set_enc_open_param small_limits map_xfer_func_default
      map_ycbcr_enc_default
      (after_ctrl (wave6_vpu_enc_s_ctrl
                     V4L2_CID_MPEG_VIDEO_INTRA_REFRESH_PERIOD 3 [] 0
                     (session idle_instance V4L2_PIX_FMT_NV12 128 1080
                        V4L2_YCBCR_ENC_DEFAULT V4L2_QUANTIZATION_DEFAULT))
         nv12_session) = Some op
    /\ intra_refresh_row op = true /\ 1 <= intra_refresh_arg op
    /\ 17 <= intra_refresh_arg op * 3.
Proof.
  destruct (open_param_rate_fields small_limits map_xfer_func_default
              map_ycbcr_enc_default
              (after_ctrl (wave6_vpu_enc_s_ctrl
                             V4L2_CID_MPEG_VIDEO_INTRA_REFRESH_PERIOD 3 [] 0
                             (session idle_instance V4L2_PIX_FMT_NV12 128 1080
                                V4L2_YCBCR_ENC_DEFAULT
                                V4L2_QUANTIZATION_DEFAULT))
                 nv12_session)
              (yuv_fmt small_limits V4L2_PIX_FMT_NV12 1 true false false))
    as (op & E & _ & _ & _ & _ & H); try reflexivity; try (cbn; lia).
  destruct H as (H1 & H2 & H3 & _); [cbn; lia |].
  exists op. split; [exact E |]. split; [exact H1 |]. split; [exact H2 |].
  exact H3.
Defined.
